(** * swb: a shallow embedding of [main.go]

    The program keeps a destination tree in step with a source tree:
    [clean] walks the destination tree and removes what has no counterpart
    in the source tree, [build] walks the source tree and creates
    directories, hard links and pages expanded from a template, and
    [buildPage] expands the [%{ ... }%] command blocks of the template by
    running them through the configured command.

    The embedding follows the Go text function by function.  Go's
    [error] values are values, a nil pointer is [None], a run-time panic
    is an outcome of its own.  The Go library calls the program makes
    ([strings], [path/filepath], [regexp], [os], [os/exec],
    [filepath.WalkDir]) are modelled from their documented behaviour on a
    Unix system: a tree of directories and hard links to inodes, without
    symbolic links and without permissions; the errors a system call can
    give are those of the shape of the tree ([ENOENT], [ENOTDIR],
    [EEXIST], [EISDIR], ...).  Time is a clock in the state, which the
    program reads only through modification times.  A child process is a
    function of the file system, its arguments and its environment. *)

From Stdlib Require Import List String Ascii Bool Arith ZArith Lia.
Import ListNotations.
Set Warnings "-register-all".
Open Scope string_scope.
Open Scope list_scope.

(* ================================================================== *)
(** ** Go strings *)
(* ================================================================== *)

Module Strings.

(** [strings.HasPrefix(s, prefix)] *)
Definition HasPrefix (s prefix : string) : bool := String.prefix prefix s.

(** [s[i:]] for [i <= len(s)] *)
Definition from (i : nat) (s : string) : string :=
  substring i (String.length s - i) s.

(** [s[:i]] for [i <= len(s)] *)
Definition upto (i : nat) (s : string) : string := substring 0 i s.

(** [strings.HasSuffix(s, suffix)] *)
Definition HasSuffix (s suffix : string) : bool :=
  (String.length suffix <=? String.length s)%nat &&
  (from (String.length s - String.length suffix) s =? suffix).

(** [strings.TrimPrefix(s, prefix)]: [s] without the leading [prefix],
    [s] itself when it does not start with [prefix]. *)
Definition TrimPrefix (s prefix : string) : string :=
  if HasPrefix s prefix then from (String.length prefix) s else s.

(** [strings.TrimSuffix(s, suffix)] *)
Definition TrimSuffix (s suffix : string) : string :=
  if HasSuffix s suffix
  then upto (String.length s - String.length suffix) s
  else s.

(** [strings.Join(elems, sep)] *)
Definition Join (elems : list string) (sep : string) : string :=
  String.concat sep elems.

(** The pieces of [s] between the occurrences of the byte [sep]
    ([strings.Split] for a one-byte separator). *)
Fixpoint split_on (sep : ascii) (s : string) : list string :=
  match s with
  | EmptyString => [EmptyString]
  | String c rest =>
      if Ascii.eqb c sep then EmptyString :: split_on sep rest
      else match split_on sep rest with
           | [] => [String c EmptyString]
           | piece :: pieces => String c piece :: pieces
           end
  end.

End Strings.

(* ================================================================== *)
(** ** path/filepath (Unix) *)
(* ================================================================== *)

Module Filepath.

Definition Separator : ascii := "/"%char.

(** The element stack of the lexical clean-up that [filepath.Clean]
    documents: empty and [.] elements go away, an inner [..] removes the
    element before it, a [..] at the start of a rooted path goes away and
    one at the start of a relative path stays.  [acc] is the stack, top
    first. *)
Fixpoint clean_elems (rooted : bool) (elems acc : list string) : list string :=
  match elems with
  | [] => rev acc
  | e :: rest =>
      if (e =? "") || (e =? ".") then clean_elems rooted rest acc
      else if e =? ".." then
        match acc with
        | top :: acc' =>
            if top =? ".." then clean_elems rooted rest (e :: acc)
            else clean_elems rooted rest acc'
        | [] =>
            if rooted then clean_elems rooted rest acc
            else clean_elems rooted rest (e :: acc)
        end
      else clean_elems rooted rest (e :: acc)
  end.

Definition is_rooted (path : string) : bool := Strings.HasPrefix path "/".

(** [filepath.Clean(path)] *)
Definition Clean (path : string) : string :=
  let rooted := is_rooted path in
  let body := Strings.Join
                (clean_elems rooted (Strings.split_on Separator path) []) "/" in
  if rooted then "/" ++ body
  else if body =? "" then "." else body.

(** [filepath.Join(a, b)]: the non-empty elements joined by the
    separator and cleaned; empty when both are empty. *)
Definition Join (a b : string) : string :=
  if negb (a =? "") then Clean (a ++ "/" ++ b)
  else if negb (b =? "") then Clean b
  else "".

(** The loop of [filepath.Ext]: [i] runs down from [len(path)-1] while
    [path[i]] is not a separator; the suffix from the first dot met is
    the extension.  [n] is [i+1]. *)
Fixpoint Ext_loop (path : string) (n : nat) : string :=
  match n with
  | O => ""
  | S i =>
      match String.get i path with
      | Some c =>
          if Ascii.eqb c Separator then ""
          else if Ascii.eqb c "."%char then Strings.from i path
          else Ext_loop path i
      | None => ""
      end
  end.

(** [filepath.Ext(path)] *)
Definition Ext (path : string) : string := Ext_loop path (String.length path).

(** [filepath.Base(path)]: the last element of the path, trailing
    separators removed first; [.] for the empty path and [/] for a path
    of separators only. *)
Definition Base (path : string) : string :=
  if path =? "" then "."
  else match rev (filter (fun e => negb (e =? ""))
                         (Strings.split_on Separator path)) with
       | last :: _ => last
       | [] => "/"
       end.

End Filepath.

(* ================================================================== *)
(** ** regexp: the fragment of the RE2 syntax the program uses *)
(* ================================================================== *)

Module Regexp.

(** Patterns.  Go's [regexp] gives the leftmost match and, among the
    matches that start there, the one a backtracking search finds first
    (a greedy star tries the longer repetition first, a lazy one the
    shorter).  Bytes stand for runes: every byte the pattern of the
    program names is ASCII. *)
Inductive regex : Type :=
| BeginLine                                   (* [^] under the flag [m] *)
| Char (c : ascii)                            (* a literal byte *)
| Class (cls : ascii -> bool)                 (* a character class *)
| Star (greedy : bool) (cls : ascii -> bool)  (* [x*] and [x*?], [x] a class *)
| Cat (r1 r2 : regex)
| Group (i : nat) (r : regex).                (* the [i]-th capturing group *)

(** [\s] is [[\t\n\f\r ]]. *)
Definition space (c : ascii) : bool :=
  match nat_of_ascii c with
  | 9 | 10 | 12 | 13 | 32 => true
  | _ => false
  end.

(** [.] under the flag [s] matches every byte, the newline too. *)
Definition any (c : ascii) : bool := true.

Definition newline : ascii := ascii_of_nat 10.

(** A position in the text: [at_] bytes in, [before] the byte just
    before it (none at the start of the text), [rest] what follows. *)
Record cursor : Type :=
  Cursor { at_ : nat; before : option ascii; rest : string }.

(** [^] under [m]: at the start of the text or just after a newline. *)
Definition at_line_start (cur : cursor) : bool :=
  match before cur with
  | None => true
  | Some c => Ascii.eqb c newline
  end.

(** Start and end of each group that took part in the match. *)
Definition captures : Type := list (nat * (nat * nat)).

Section Backtracking.
Variable R : Type.

Definition cont : Type := cursor -> option R.

(** [x*]: the longer repetition first, then what follows. *)
Fixpoint star_greedy (cls : ascii -> bool) (k : cont)
         (n : nat) (p : option ascii) (s : string) : option R :=
  match s with
  | String c s' =>
      if cls c then
        match star_greedy cls k (S n) (Some c) s' with
        | Some r => Some r
        | None => k (Cursor n p s)
        end
      else k (Cursor n p s)
  | EmptyString => k (Cursor n p s)
  end.

(** [x*?]: what follows first, then one more repetition. *)
Fixpoint star_lazy (cls : ascii -> bool) (k : cont)
         (n : nat) (p : option ascii) (s : string) : option R :=
  match k (Cursor n p s) with
  | Some r => Some r
  | None =>
      match s with
      | String c s' => if cls c then star_lazy cls k (S n) (Some c) s' else None
      | EmptyString => None
      end
  end.
End Backtracking.

(** The search at one position, in continuation-passing style: [k] is
    the rest of the pattern and receives the position reached and the
    groups closed so far. *)
Fixpoint run {R : Type} (r : regex) (cur : cursor) (cs : captures)
         (k : cursor -> captures -> option R) : option R :=
  match r with
  | BeginLine => if at_line_start cur then k cur cs else None
  | Char c =>
      match rest cur with
      | String c' s' =>
          if Ascii.eqb c' c then k (Cursor (S (at_ cur)) (Some c') s') cs else None
      | EmptyString => None
      end
  | Class cls =>
      match rest cur with
      | String c' s' =>
          if cls c' then k (Cursor (S (at_ cur)) (Some c') s') cs else None
      | EmptyString => None
      end
  | Star true cls =>
      star_greedy R cls (fun cur' => k cur' cs) (at_ cur) (before cur) (rest cur)
  | Star false cls =>
      star_lazy R cls (fun cur' => k cur' cs) (at_ cur) (before cur) (rest cur)
  | Cat r1 r2 => run r1 cur cs (fun cur' cs' => run r2 cur' cs' k)
  | Group i r' =>
      run r' cur cs (fun cur' cs' => k cur' ((i, (at_ cur, at_ cur')) :: cs'))
  end.

(** The match that starts at [cur], if there is one: where it ends and
    its groups. *)
Definition match_at (re : regex) (cur : cursor) : option (nat * captures) :=
  run re cur [] (fun cur' cs => Some (at_ cur', cs)).

(** The leftmost match at or after the position: start, end, groups. *)
Fixpoint find_from (re : regex) (n : nat) (p : option ascii) (s : string)
  : option (nat * nat * captures) :=
  match match_at re (Cursor n p s) with
  | Some (e, cs) => Some (n, e, cs)
  | None =>
      match s with
      | String c s' => find_from re (S n) (Some c) s'
      | EmptyString => None
      end
  end.

Fixpoint num_groups (r : regex) : nat :=
  match r with
  | Cat r1 r2 => Nat.max (num_groups r1) (num_groups r2)
  | Group i r' => Nat.max i (num_groups r')
  | _ => 0
  end.

Fixpoint capture (i : nat) (cs : captures) : option (nat * nat) :=
  match cs with
  | [] => None
  | (j, span) :: cs' => if Nat.eqb i j then Some span else capture i cs'
  end.

(** [s[a:b]] *)
Definition slice (a b : nat) (s : string) : string := substring a (b - a) s.

(** [re.FindStringSubmatch(s)]: the text of the leftmost match and of
    its groups ([""] for a group that took no part); the empty list is
    Go's [nil], no match. *)
Definition FindStringSubmatch (re : regex) (s : string) : list string :=
  match find_from re 0 None s with
  | None => []
  | Some (a, b, cs) =>
      slice a b s ::
      map (fun i => match capture i cs with
                    | Some (x, y) => slice x y s
                    | None => ""
                    end)
          (seq 1 (num_groups re))
  end.

(** What [ReplaceAllStringFunc] sees of the text: bytes it copies and
    matches it hands to the replacement function. *)
Inductive piece : Type :=
| Copy (c : ascii)
| Hit (m : string).

(** The successive non-overlapping leftmost matches of [re] in the text,
    from left to right, with the bytes between them.  [skip] counts the
    bytes of the current match still to pass over; [after_hit] holds
    right after a match, where an empty match is not replaced again. *)
Fixpoint pieces (re : regex) (n : nat) (p : option ascii) (s : string)
         (skip : nat) (after_hit : bool) : list piece :=
  match skip with
  | S skip' =>
      match s with
      | String c s' => pieces re (S n) (Some c) s' skip' after_hit
      | EmptyString => []
      end
  | O =>
      match match_at re (Cursor n p s) with
      | Some (e, _) =>
          if Nat.eqb (e - n) 0 then
            (if after_hit && negb (Nat.eqb n 0) then [] else [Hit ""]) ++
            match s with
            | String c s' => Copy c :: pieces re (S n) (Some c) s' 0 false
            | EmptyString => []
            end
          else
            Hit (Strings.upto (e - n) s) ::
            match s with
            | String c s' => pieces re (S n) (Some c) s' (e - n - 1) true
            | EmptyString => []
            end
      | None =>
          match s with
          | String c s' => Copy c :: pieces re (S n) (Some c) s' 0 false
          | EmptyString => []
          end
      end
  end.

Definition matches (re : regex) (src : string) : list piece :=
  pieces re 0 None src 0 false.

End Regexp.

(* ================================================================== *)
(** ** The file system *)
(* ================================================================== *)

Module FS.

Inductive errno : Type :=
| ENOENT | ENOTDIR | EEXIST | EISDIR | ENOTEMPTY | EPERM | EINVAL | EIO.

(** What a regular file's inode holds.  Hard links to a file share its
    inode, and with it the content and the modification time. *)
Record inode : Type := Inode { i_mtime : Z; i_data : string }.

(** The tree of names.  A regular file is a link to an inode; a
    directory has an inode number, a modification time and its entries,
    kept in the order of their names (the order [os.ReadDir] returns). *)
Inductive node : Type :=
| File (ino : nat)
| Dir (ino : nat) (mtime : Z) (ents : list (string * node)).

(** [root] stands for both [/] and the working directory; [clock] is the
    time the next change is stamped with; [next_ino] the next free inode
    number. *)
Record filesys : Type :=
  Filesys { root : node; itab : list (nat * inode); clock : Z; next_ino : nat }.

(** *** Directory entries *)

Fixpoint get_ent (name : string) (ents : list (string * node)) : option node :=
  match ents with
  | [] => None
  | (k, v) :: ents' => if k =? name then Some v else get_ent name ents'
  end.

Fixpoint set_ent (name : string) (n : node) (ents : list (string * node))
  : list (string * node) :=
  match ents with
  | [] => [(name, n)]
  | (k, v) :: ents' =>
      match String.compare name k with
      | Eq => (name, n) :: ents'
      | Lt => (name, n) :: (k, v) :: ents'
      | Gt => (k, v) :: set_ent name n ents'
      end
  end.

Definition del_ent (name : string) (ents : list (string * node))
  : list (string * node) :=
  filter (fun kv => negb (fst kv =? name)) ents.

(** *** Inodes *)

Fixpoint get_inode (i : nat) (t : list (nat * inode)) : option inode :=
  match t with
  | [] => None
  | (j, d) :: t' => if Nat.eqb j i then Some d else get_inode i t'
  end.

Fixpoint set_inode (i : nat) (d : inode) (t : list (nat * inode))
  : list (nat * inode) :=
  match t with
  | [] => [(i, d)]
  | (j, d') :: t' => if Nat.eqb j i then (i, d) :: t' else (j, d') :: set_inode i d t'
  end.

(** *** Paths *)

(** The names a path goes through from [root]. *)
Definition elems (path : string) : list string :=
  Filepath.clean_elems true (Strings.split_on Filepath.Separator path) [].

Fixpoint walk (n : node) (p : list string) : errno + node :=
  match p with
  | [] => inr n
  | name :: p' =>
      match n with
      | File _ => inl ENOTDIR
      | Dir _ _ ents =>
          match get_ent name ents with
          | None => inl ENOENT
          | Some child => walk child p'
          end
      end
  end.

Definition resolve (fs : filesys) (path : string) : errno + node :=
  if path =? "" then inl ENOENT else walk (root fs) (elems path).

(** Change the entries of the directory that holds the last name of [p]:
    [f] receives that name and the entries.  The directory's
    modification time becomes [now].  [at_root] is the error when [p]
    names the root itself. *)
Fixpoint update (n : node) (p : list string) (now : Z) (at_root : errno)
         (f : string -> list (string * node) -> errno + list (string * node))
  : errno + node :=
  match p with
  | [] => inl at_root
  | name :: p' =>
      match n with
      | File _ => inl ENOTDIR
      | Dir i m ents =>
          match p' with
          | [] =>
              match f name ents with
              | inl e => inl e
              | inr ents' => inr (Dir i now ents')
              end
          | _ :: _ =>
              match get_ent name ents with
              | None => inl ENOENT
              | Some child =>
                  match update child p' now at_root f with
                  | inl e => inl e
                  | inr child' => inr (Dir i m (set_ent name child' ents))
                  end
              end
          end
      end
  end.

Definition with_root (fs : filesys) (r : node) : filesys :=
  Filesys r (itab fs) (clock fs) (next_ino fs).

(** *** System calls *)

(** [os.FileInfo], with [Sys()] as the [*syscall.Stat_t] it holds on
    Unix ([None]: the type assertion fails). *)
Record Stat_t : Type := MkStat { Ino : nat }.
Record FileInfo : Type :=
  MkFileInfo { IsDir : bool; ModTime : Z; Sys : option Stat_t }.

Definition info_of (fs : filesys) (n : node) : errno + FileInfo :=
  match n with
  | File i =>
      match get_inode i (itab fs) with
      | Some d => inr (MkFileInfo false (i_mtime d) (Some (MkStat i)))
      | None => inl EIO
      end
  | Dir i m _ => inr (MkFileInfo true m (Some (MkStat i)))
  end.

(** [stat(2)]; [lstat(2)] is the same, there being no symbolic links. *)
Definition stat (fs : filesys) (path : string) : errno + FileInfo :=
  match resolve fs path with
  | inl e => inl e
  | inr n => info_of fs n
  end.

(** The entries of a directory in the order of their names, each with
    its name and whether it is a directory. *)
Definition readdir (fs : filesys) (path : string) : errno + list (string * bool) :=
  match resolve fs path with
  | inl e => inl e
  | inr (File _) => inl ENOTDIR
  | inr (Dir _ _ ents) =>
      inr (map (fun kv => (fst kv, match snd kv with Dir _ _ _ => true | File _ => false end))
               ents)
  end.

Definition readfile (fs : filesys) (path : string) : errno + string :=
  match resolve fs path with
  | inl e => inl e
  | inr (Dir _ _ _) => inl EISDIR
  | inr (File i) =>
      match get_inode i (itab fs) with
      | Some d => inr (i_data d)
      | None => inl EIO
      end
  end.

(** [open(path, O_WRONLY|O_CREAT|O_TRUNC)], write, close. *)
Definition writefile (fs : filesys) (path data : string) : errno + filesys :=
  match resolve fs path with
  | inr (File i) =>
      inr (Filesys (root fs) (set_inode i (Inode (clock fs) data) (itab fs))
                   (clock fs) (next_ino fs))
  | inr (Dir _ _ _) => inl EISDIR
  | inl ENOENT =>
      match update (root fs) (elems path) (clock fs) EISDIR
              (fun name ents => inr (set_ent name (File (next_ino fs)) ents)) with
      | inl e => inl e
      | inr r =>
          inr (Filesys r (set_inode (next_ino fs) (Inode (clock fs) data) (itab fs))
                       (clock fs) (S (next_ino fs)))
      end
  | inl e => inl e
  end.

(** [link(2)]: a second name for the inode of a regular file. *)
Definition link (fs : filesys) (oldname newname : string) : errno + filesys :=
  match resolve fs oldname with
  | inl e => inl e
  | inr (Dir _ _ _) => inl EPERM
  | inr (File i) =>
      if newname =? "" then inl ENOENT else
      match update (root fs) (elems newname) (clock fs) EEXIST
              (fun name ents =>
                 match get_ent name ents with
                 | Some _ => inl EEXIST
                 | None => inr (set_ent name (File i) ents)
                 end) with
      | inl e => inl e
      | inr r => inr (with_root fs r)
      end
  end.

(** [os.Remove]: [unlink(2)], then [rmdir(2)]: a file or an empty
    directory. *)
Definition remove (fs : filesys) (path : string) : errno + filesys :=
  if path =? "" then inl ENOENT else
  match update (root fs) (elems path) (clock fs) EINVAL
          (fun name ents =>
             match get_ent name ents with
             | None => inl ENOENT
             | Some (Dir _ _ (_ :: _)) => inl ENOTEMPTY
             | Some _ => inr (del_ent name ents)
             end) with
  | inl e => inl e
  | inr r => inr (with_root fs r)
  end.

(** [os.RemoveAll]: the entry and all below it; nothing to do, and no
    error, when the path does not exist. *)
Definition removeall (fs : filesys) (path : string) : errno + filesys :=
  if path =? "" then inr fs else
  match update (root fs) (elems path) (clock fs) EINVAL
          (fun name ents =>
             match get_ent name ents with
             | None => inl ENOENT
             | Some _ => inr (del_ent name ents)
             end) with
  | inl ENOENT => inr fs
  | inl e => inl e
  | inr r => inr (with_root fs r)
  end.

(** [mkdir(2)]: a new, empty directory under a parent that is there;
    [EEXIST] when the name is taken, by a file or by a directory. *)
Definition mkdir (fs : filesys) (path : string) : errno + filesys :=
  if path =? "" then inl ENOENT else
  match update (root fs) (elems path) (clock fs) EEXIST
          (fun name ents =>
             match get_ent name ents with
             | Some _ => inl EEXIST
             | None => inr (set_ent name (Dir (next_ino fs) (clock fs) []) ents)
             end) with
  | inl e => inl e
  | inr r => inr (Filesys r (itab fs) (clock fs) (S (next_ino fs)))
  end.

End FS.

(* ================================================================== *)
(** ** The Go run time: state, errors, panics *)
(* ================================================================== *)

Module Go.

(** The [error] values the program meets. *)
Inductive error : Type :=
| PathError (op path : string) (e : FS.errno)     (* [*fs.PathError] *)
| LinkError (op old new : string) (e : FS.errno)  (* [*os.LinkError] *)
| ErrorString (msg : string)                      (* [fmt.Errorf], [errors.New] *)
| SkipDir                                         (* [fs.SkipDir] *)
| SkipAll.                                        (* [fs.SkipAll] *)

(** [errors.Is(err, os.ErrNotExist)] *)
Definition IsNotExist (err : error) : bool :=
  match err with
  | PathError _ _ FS.ENOENT | LinkError _ _ _ FS.ENOENT => true
  | _ => false
  end.

Definition is_skip_dir (err : error) : bool :=
  match err with SkipDir => true | _ => false end.

(** The state a run changes: the file system and what was written to
    standard output, oldest line first. *)
Record world : Type := World { fs : FS.filesys; out : list string }.

Inductive panic : Type :=
| NilDereference      (* invalid memory address or nil pointer dereference *)
| SliceBounds.        (* index or slice bounds out of range *)

(** How a computation ends: with a value, with a run-time panic, or
    [Exhausted] when the walk was given too little fuel. *)
Inductive outcome (A : Type) : Type :=
| Done (a : A) (w : world)
| Panicked (p : panic) (w : world)
| Exhausted (w : world).
Arguments Done {A} a w.
Arguments Panicked {A} p w.
Arguments Exhausted {A} w.

Definition M (A : Type) : Type := world -> outcome A.

Definition ret {A : Type} (a : A) : M A := fun w => Done a w.

Definition bind {A B : Type} (m : M A) (f : A -> M B) : M B :=
  fun w =>
    match m w with
    | Done a w' => f a w'
    | Panicked p w' => Panicked p w'
    | Exhausted w' => Exhausted w'
    end.

Definition throw {A : Type} (p : panic) : M A := fun w => Panicked p w.
Definition exhausted {A : Type} : M A := fun w => Exhausted w.

(** Reading through a pointer or calling a method on an interface
    value: a panic when it is nil. *)
Definition deref {A : Type} (ptr : option A) : M A :=
  match ptr with
  | Some a => ret a
  | None => throw NilDereference
  end.

(** [a || b], [b] evaluated only when [a] is false. *)
Definition or_else (a : bool) (b : M bool) : M bool :=
  if a then ret true else b.

(** [a && b], [b] evaluated only when [a] is true. *)
Definition and_then (a : bool) (b : M bool) : M bool :=
  if a then b else ret false.

Definition is_nil {A : Type} (x : option A) : bool :=
  match x with None => true | Some _ => false end.

Definition nl : string := String Regexp.newline EmptyString.

End Go.

Import Go.

Declare Scope go_scope.
Delimit Scope go_scope with go.
Notation "x <- m ;; k" := (bind m (fun x => k))
  (at level 61, m at next level, right associativity) : go_scope.
Notation "' pat <- m ;; k" := (bind m (fun x => match x with pat => k end))
  (at level 61, pat pattern, m at next level, right associativity) : go_scope.
Notation "m ;; k" := (bind m (fun _ => k))
  (at level 61, right associativity) : go_scope.
Open Scope go_scope.

(* ================================================================== *)
(** ** os, fmt, filepath.WalkDir *)
(* ================================================================== *)

Module Os.

Import FS.

Definition lift_err (op path : string) {A : Type} (r : errno + A)
  : option A * option error :=
  match r with
  | inl e => (None, Some (PathError op path e))
  | inr a => (Some a, None)
  end.

(** [os.Stat(name)]: the info is nil when the error is not. *)
Definition Stat (name : string) : M (option FileInfo * option error) :=
  fun w => Done (lift_err "stat" name (stat (fs w) name)) w.

(** [os.Lstat(name)] *)
Definition Lstat (name : string) : M (option FileInfo * option error) :=
  fun w => Done (lift_err "lstat" name (stat (fs w) name)) w.

Definition change (op path : string) (r : world -> errno + filesys)
  : M (option error) :=
  fun w =>
    match r w with
    | inl e => Done (Some (PathError op path e)) w
    | inr fs' => Done None (World fs' (out w))
    end.

(** [os.Mkdir(name, 0755)] *)
Definition Mkdir (name : string) : M (option error) :=
  change "mkdir" name (fun w => mkdir (fs w) name).

(** [for i > 0 && os.IsPathSeparator(path[i-1]) { i-- }] *)
Fixpoint skip_separators (path : string) (i : nat) : nat :=
  match i with
  | O => O
  | S i' =>
      match String.get i' path with
      | Some c => if Ascii.eqb c Filepath.Separator then skip_separators path i' else i
      | None => i
      end
  end.

(** [for j > 0 && !os.IsPathSeparator(path[j-1]) { j-- }] *)
Fixpoint skip_element (path : string) (j : nat) : nat :=
  match j with
  | O => O
  | S j' =>
      match String.get j' path with
      | Some c => if Ascii.eqb c Filepath.Separator then j else skip_element path j'
      | None => j
      end
  end.

(** The body of [os.MkdirAll]: a path that is there is a directory or
    the error [ENOTDIR] on the path itself; otherwise the parent,
    [path[:j-1]], the path without its last element and the separator
    before it, is made first and its error returned (so the error names
    the ancestor that is in the way), then [os.Mkdir] on the path, whose
    error stands unless the path turns out to be a directory.  The
    parent is shorter than the path; [fuel] bounds the recursion and
    [String.length path] is enough of it. *)
Fixpoint MkdirAll_from (fuel : nat) (path : string) : M (option error) :=
  '(dir, err) <- Stat path ;;
  if is_nil err then
    dir <- deref dir ;;
    if IsDir dir then ret None
    else ret (Some (PathError "mkdir" path ENOTDIR))
  else
    let i := skip_separators path (String.length path) in
    let j := skip_element path i in
    err <- (if (1 <? j)%nat then
              match fuel with
              | O => exhausted
              | S fuel' => MkdirAll_from fuel' (Strings.upto (j - 1) path)
              end
            else ret None) ;;
    if negb (is_nil err) then ret err
    else
      err <- Mkdir path ;;
      if negb (is_nil err) then
        '(dir, err1) <- Lstat path ;;
        isdir <- and_then (is_nil err1) (dir <- deref dir ;; ret (IsDir dir)) ;;
        if isdir then ret None else ret err
      else ret None.

(** [os.MkdirAll(path, 0755)] *)
Definition MkdirAll (path : string) : M (option error) :=
  MkdirAll_from (String.length path) path.

(** [os.Link(oldname, newname)] *)
Definition Link (oldname newname : string) : M (option error) :=
  fun w =>
    match link (fs w) oldname newname with
    | inl e => Done (Some (LinkError "link" oldname newname e)) w
    | inr fs' => Done None (World fs' (out w))
    end.

(** [os.Remove(name)] *)
Definition Remove (name : string) : M (option error) :=
  change "remove" name (fun w => remove (fs w) name).

(** [os.RemoveAll(path)] *)
Definition RemoveAll (path : string) : M (option error) :=
  change "unlinkat" path (fun w => removeall (fs w) path).

(** [os.ReadFile(name)]: [os.Open], whose error is that of the path,
    then the reads.  A directory is opened without error and the first
    read fails on it. *)
Definition ReadFile (name : string) : M (string * option error) :=
  fun w =>
    match readfile (fs w) name with
    | inl EISDIR => Done ("", Some (PathError "read" name EISDIR)) w
    | inl e => Done ("", Some (PathError "open" name e)) w
    | inr data => Done (data, None) w
    end.

(** [os.WriteFile(name, data, 0644)] *)
Definition WriteFile (name data : string) : M (option error) :=
  change "open" name (fun w => writefile (fs w) name data).

(** [fs.DirEntry].  An entry read from a directory looks its info up
    when asked, at [de_parent/de_name]; the entry [WalkDir] makes for
    its root carries the info it was made from. *)
Record DirEntry : Type :=
  MkDirEntry { de_name : string; de_isdir : bool;
               de_parent : string; de_info : option FileInfo }.

(** [ent.Info()] *)
Definition Info (ent : DirEntry) : M (option FileInfo * option error) :=
  match de_info ent with
  | Some info => ret (Some info, None)
  | None => Lstat (de_parent ent ++ "/" ++ de_name ent)
  end.

(** [os.ReadDir(name)]: the entries sorted by file name. *)
Definition ReadDir (name : string) : M (list DirEntry * option error) :=
  fun w =>
    match readdir (fs w) name with
    | inl e => Done ([], Some (PathError "open" name e)) w
    | inr l => Done (map (fun nd => MkDirEntry (fst nd) (snd nd) name None) l, None) w
    end.

(** [fmt.Printf] and [fmt.Println], the text already formatted. *)
Definition Print (line : string) : M unit :=
  fun w => Done tt (World (fs w) (out w ++ [line])).

(** The callback of [filepath.WalkDir]; [d] is nil when the root could
    not be examined. *)
Definition WalkDirFunc : Type :=
  string -> option DirEntry -> option error -> M (option error).

(** [filepath.walkDir]: the callback on the entry, then, for a
    directory, its entries read and walked in turn.  A directory that
    cannot be read is reported to the callback a second time, with the
    error.  [fuel] bounds how deep the walk goes. *)
Fixpoint walkDir (fuel : nat) (path : string) (d : DirEntry) (fn : WalkDirFunc)
  : M (option error) :=
  match fuel with
  | O => exhausted
  | S fuel' =>
      err <- fn path (Some d) None ;;
      if negb (is_nil err) || negb (de_isdir d) then
        match err with
        | Some SkipDir => if de_isdir d then ret None else ret err
        | _ => ret err
        end
      else
        '(dirs, rerr) <- ReadDir path ;;
        err2 <- (match rerr with
                 | Some e => fn path (Some d) (Some e)
                 | None => ret None
                 end) ;;
        match err2 with
        | Some e2 => if is_skip_dir e2 && de_isdir d then ret None else ret (Some e2)
        | None =>
            (fix each (ds : list DirEntry) : M (option error) :=
               match ds with
               | [] => ret None
               | d1 :: ds' =>
                   err1 <- walkDir fuel' (Filepath.Join path (de_name d1)) d1 fn ;;
                   match err1 with
                   | Some SkipDir => ret None
                   | Some e1 => ret (Some e1)
                   | None => each ds'
                   end
               end) dirs
        end
  end.

(** [filepath.WalkDir(root, fn)] *)
Definition WalkDir (fuel : nat) (root : string) (fn : WalkDirFunc)
  : M (option error) :=
  '(info, lerr) <- Lstat root ;;
  err <- (match info, lerr with
          | Some i, None => walkDir fuel root (MkDirEntry (Filepath.Base root) (IsDir i) "" (Some i)) fn
          | _, _ => fn root None lerr
          end) ;;
  match err with
  | Some SkipDir | Some SkipAll => ret None
  | _ => ret err
  end.

End Os.

(* ================================================================== *)
(** ** os/exec and the slices of the program *)
(* ================================================================== *)

Module Exec.

(** [exec.Cmd]: the argument vector ([Args[0]] is the command name) and
    the environment of the child. *)
Record Cmd : Type := MkCmd { Args : list string; Env : list string }.

(** [exec.Command(name, arg...)]: [Args] is [name] followed by [arg]. *)
Definition Command (name : string) (arg : list string) : Cmd :=
  MkCmd (name :: arg) [].

(** How a child ends for [cmd.Run()]: it exits with status 0 and has
    written [stdout], or [Run] returns an error that prints as [err]
    (the command was not found, could not be started, exited with
    another status). *)
Inductive finished : Type :=
| Exited (stdout : string)
| Failed (err : string).

End Exec.

Module Slice.

(** [s[i]] *)
Definition index {A : Type} (s : list A) (i : Z) : M A :=
  if (i <? 0)%Z then throw SliceBounds
  else match nth_error s (Z.to_nat i) with
       | Some a => ret a
       | None => throw SliceBounds
       end.

(** [s[i:]]: a panic unless [0 <= i <= len(s)]. *)
Definition from {A : Type} (s : list A) (i : Z) : M (list A) :=
  if (i <? 0)%Z || (Z.of_nat (List.length s) <? i)%Z then throw SliceBounds
  else ret (skipn (Z.to_nat i) s).

(** [len(s)] *)
Definition len {A : Type} (s : list A) : Z := Z.of_nat (List.length s).

End Slice.


(* ================================================================== *)
(** ** The program *)
(* ================================================================== *)

Module Swb.

Import FS Os.

Record Builder : Type := MkBuilder { Ext : string; Bin : string }.

Record Site : Type :=
  MkSite { Name : string; SrcRoot : string; DstRoot : string;
           TplPath : string; Env : list string }.

(** The field [Builder] of the Go struct is [Builder_] here, [Builder]
    being the name of its type. *)
Record Config : Type :=
  MkConfig { Sites : list Site; Builder_ : Builder; RunCmd : list string }.

(** [regexp.MustCompile(`(?ms)^\s*%{(.*?)(?ms)^}%`)]: at the start of a
    line, white space ([\s*], greedy), the two bytes [%{], the group
    [(.*?)] (any bytes, as few as possible), and, at the start of a line
    again, the two bytes [}%].  A brace that opens no repetition count is
    a literal in the RE2 syntax. *)
Definition re : Regexp.regex :=
  Regexp.Cat Regexp.BeginLine
 (Regexp.Cat (Regexp.Star true Regexp.space)
 (Regexp.Cat (Regexp.Char "%")
 (Regexp.Cat (Regexp.Char "{")
 (Regexp.Cat (Regexp.Group 1 (Regexp.Star false Regexp.any))
 (Regexp.Cat Regexp.BeginLine
 (Regexp.Cat (Regexp.Char "}") (Regexp.Char "%"))))))).

(** [re.ReplaceAllStringFunc(src, repl)]: the matches replaced, from left
    to right, by what [repl] returns for them. *)
Fixpoint replace_pieces (ps : list Regexp.piece) (repl : string -> M string)
         (buf : string) : M string :=
  match ps with
  | [] => ret buf
  | Regexp.Copy c :: ps' => replace_pieces ps' repl (buf ++ String c "")
  | Regexp.Hit m :: ps' => r <- repl m ;; replace_pieces ps' repl (buf ++ r)
  end.

Definition ReplaceAllStringFunc (re : Regexp.regex) (src : string)
           (repl : string -> M string) : M string :=
  replace_pieces (Regexp.matches re src) repl "".

(** [fmt.Println(cmdArgs)] of a slice of strings: the elements between
    brackets, separated by spaces. *)
Definition Println_strings (l : list string) : M unit :=
  Print ("[" ++ Strings.Join l " " ++ "]" ++ nl).

Section Host.

(** The machine the program runs on: [os.Environ()], what a child
    process does given the file system, its argument vector and its
    environment (children are taken not to change the two trees), and a
    bound on the depth of the directories a walk descends. *)
Variable Environ : list string.
Variable Run : FS.filesys -> list string -> list string -> Exec.finished.
Variable depth : nat.

(** [cmd.Run()] with [cmd.Stdout] a buffer: what the buffer holds
    afterwards and the error. *)
Definition cmd_Run (cmd : Exec.Cmd) : M (string * option string) :=
  fun w =>
    match Run (fs w) (Exec.Args cmd) (Exec.Env cmd) with
    | Exec.Exited stdout => Done (stdout, None) w
    | Exec.Failed err => Done ("", Some err) w
    end.

(** The function [buildPage] hands to [ReplaceAllStringFunc]. *)
Definition expand_block (config : Config) (site : Site) (srcPath dstPath : string)
           (match_ : string) : M string :=
  let submatches := Regexp.FindStringSubmatch re match_ in
  if (Slice.len submatches <? 2)%Z then ret match_
  else
    cmdStr <- Slice.index submatches 1 ;;
    let cmdArgs := RunCmd config ++ [cmdStr] in
    Println_strings cmdArgs ;;
    name <- Slice.index cmdArgs 0 ;;
    arg <- Slice.from cmdArgs (Slice.len (RunCmd config) - 1) ;;
    let cmd := Exec.Command name arg in
    let cmd := Exec.MkCmd (Exec.Args cmd) Environ in
    let srcBase := Filepath.Base srcPath in
    let cmd := Exec.MkCmd (Exec.Args cmd)
                 (Exec.Env cmd ++
                  [ ("page_name=" ++ Strings.TrimSuffix srcBase (Filepath.Ext srcBase))%string;
                    ("builder=" ++ Bin (Builder_ config))%string;
                    ("site_name=" ++ Name site)%string;
                    ("src_path=" ++ srcPath)%string;
                    ("dst_path=" ++ dstPath)%string ]) in
    let cmd := Exec.MkCmd (Exec.Args cmd) (Exec.Env cmd ++ Env site) in
    '(stdout, err) <- cmd_Run cmd ;;
    match err with
    | Some e => ret e                    (* [fmt.Sprintf("%v", err)] *)
    | None => ret stdout
    end.

Definition buildPage (config : Config) (site : Site) (srcPath dstPath : string)
  : M (option error) :=
  '(b, err) <- ReadFile (TplPath site) ;;
  if negb (is_nil err) then ret err
  else
    let templateString := b in
    built <- ReplaceAllStringFunc re templateString
               (expand_block config site srcPath dstPath) ;;
    WriteFile dstPath built ;;
    ret None.

(** The function [clean] hands to [filepath.WalkDir]. *)
Definition clean_fn (config : Config) (site : Site) : WalkDirFunc :=
  fun path ent err =>
    if negb (is_nil err) then ret err
    else if path =? DstRoot site then ret None
    else
      d <- deref ent ;;
      '(dstInfo, err) <- Info d ;;
      if negb (is_nil err) then ret err
      else
        dstInfo <- deref dstInfo ;;
        if IsDir dstInfo then
          let eqPath := Filepath.Join (SrcRoot site)
                          (Strings.TrimPrefix path (DstRoot site)) in
          '(srcInfo, err) <- Stat eqPath ;;
          gone <- or_else (match err with Some e => IsNotExist e | None => false end)
                          (i <- deref srcInfo ;; ret (negb (IsDir i))) ;;
          (if gone then
             RemoveAll path ;;
             Print (" - " ++ path ++ "/*" ++ nl)
           else ret tt) ;;
          ret None
        else
          let ext := Filepath.Ext path in
          let eqPath := Filepath.Join (SrcRoot site)
                          (Strings.TrimPrefix path (DstRoot site)) in
          let eqPath := if ext =? ".html"
                        then (Strings.TrimSuffix eqPath ".html" ++ Ext (Builder_ config))%string
                        else eqPath in
          '(srcInfo, err) <- Stat eqPath ;;
          (* [srcStat], [dstStat]: nil until set *)
          r <- (if is_nil err then
                  i <- deref srcInfo ;;
                  match Sys i with
                  | None => ret (inl (ErrorString "not a syscall: syscall.Stat_t"))
                  | Some srcStat =>
                      match Sys dstInfo with
                      | None => ret (inl (ErrorString "not a syscall: syscall.Stat_t"))
                      | Some dstStat => ret (inr (Some srcStat, Some dstStat))
                      end
                  end
                else ret (inr (None, None))) ;;
          match r with
          | inl e => ret (Some e)
          | inr (srcStat, dstStat) =>
              gone <- or_else (match err with Some e => IsNotExist e | None => false end)
                        (and_then (negb (ext =? ".html"))
                           (s <- deref srcStat ;;
                            d <- deref dstStat ;;
                            ret (negb (Nat.eqb (Ino s) (Ino d))))) ;;
              (if gone then
                 RemoveAll path ;;
                 Print (" - " ++ path ++ nl)
               else ret tt) ;;
              ret None
          end.

Definition clean (config : Config) (site : Site) : M (option error) :=
  WalkDir depth (DstRoot site) (clean_fn config site).

(** [srcInfo.ModTime().After(dstInfo.ModTime())] *)
Definition After (t u : Z) : bool := (u <? t)%Z.

(** The function [build] hands to [filepath.WalkDir]. *)
Definition build_fn (config : Config) (site : Site) : WalkDirFunc :=
  fun path ent err =>
    if negb (is_nil err) then ret err
    else if path =? SrcRoot site then ret None
    else
      d <- deref ent ;;
      '(srcInfo, err) <- Info d ;;
      if negb (is_nil err) then ret err
      else
        srcInfo <- deref srcInfo ;;
        if IsDir srcInfo then
          let eqPath := Filepath.Join (DstRoot site)
                          (Strings.TrimPrefix path (SrcRoot site)) in
          err <- MkdirAll eqPath ;;
          if negb (is_nil err) then ret err else ret None
        else
          '(srcInfo, err) <- Stat path ;;
          if negb (is_nil err) then ret err
          else
            let eqPath := Filepath.Join (DstRoot site)
                            (Strings.TrimPrefix path (SrcRoot site)) in
            let ext := Filepath.Ext eqPath in
            if ext =? Ext (Builder_ config) then
              let eqPath := Strings.TrimSuffix eqPath ext in
              let eqPath := (eqPath ++ ".html")%string in
              '(dstInfo, err) <- Stat eqPath ;;
              if match err with Some e => IsNotExist e | None => false end then
                err <- buildPage config site path eqPath ;;
                if negb (is_nil err) then ret err
                else Print (" + " ++ eqPath ++ nl) ;; ret None
              else
                stale <- and_then (is_nil err)
                           (s <- deref srcInfo ;; d <- deref dstInfo ;;
                            ret (After (ModTime s) (ModTime d))) ;;
                if stale then
                  err <- buildPage config site path eqPath ;;
                  if negb (is_nil err) then ret err
                  else Print (" ^ " ++ eqPath ++ nl) ;; ret None
                else ret None
            else
              '(dstInfo, err) <- Stat eqPath ;;
              if match err with Some e => IsNotExist e | None => false end then
                err <- Link path eqPath ;;
                if negb (is_nil err) then ret err
                else Print (" + " ++ eqPath ++ nl) ;; ret None
              else
                stale <- and_then (is_nil err)
                           (s <- deref srcInfo ;; d <- deref dstInfo ;;
                            ret (After (ModTime s) (ModTime d))) ;;
                if stale then
                  err <- Remove eqPath ;;
                  if negb (is_nil err) then ret err
                  else
                    err <- Link path eqPath ;;
                    if negb (is_nil err) then ret err
                    else Print (" ^ " ++ eqPath ++ nl) ;; ret None
                else ret None.

Definition build (config : Config) (site : Site) : M (option error) :=
  clean config site ;;
  WalkDir depth (SrcRoot site) (build_fn config site).

(** The loop of [main] over the sites of a configuration that was read:
    [log.Fatalf] ends the process at the first site whose build returns
    an error; the result is that site with the error, or [None] when
    every site was built. *)
Fixpoint main_loop (config : Config) (sites : list Site) : M (option (Site * error)) :=
  match sites with
  | [] => ret None
  | site :: sites' =>
      err <- build config site ;;
      match err with
      | Some e => ret (Some (site, e))
      | None => main_loop config sites'
      end
  end.

Definition main (config : Config) : M (option (Site * error)) :=
  main_loop config (Sites config).

End Host.

End Swb.


(* ================================================================== *)
(** ** Notions the statements use *)
(* ================================================================== *)

Module Template.

(** Every byte of [s] is white space ([\s]). *)
Fixpoint all_space (s : string) : bool :=
  match s with
  | EmptyString => true
  | String c s' => Regexp.space c && all_space s'
  end.

(** Some line of [s] after its first begins with the closing marker. *)
Fixpoint closes_inside (s : string) : bool :=
  match s with
  | EmptyString => false
  | String c s' =>
      (Ascii.eqb c Regexp.newline && String.prefix "}%" s') || closes_inside s'
  end.

(** [s] ends with a newline. *)
Fixpoint ends_line (s : string) : bool :=
  match s with
  | EmptyString => false
  | String c EmptyString => Ascii.eqb c Regexp.newline
  | String _ s' => ends_line s'
  end.

(** A position is at the start of a line: nothing before it, or a
    newline. *)
Definition line_start (p : option ascii) : bool :=
  match p with
  | None => true
  | Some c => Ascii.eqb c Regexp.newline
  end.

(** The byte before the position reached after reading [s] from a
    position that has [p] before it. *)
Fixpoint last_before (p : option ascii) (s : string) : option ascii :=
  match s with
  | EmptyString => p
  | String c s' => last_before (Some c) s'
  end.

(** What follows the group in [Swb.re]: the start of a line and the
    closing marker, with the groups [cs] gives for the position. *)
Definition closing {R : Type} (cs : Regexp.cursor -> Regexp.captures)
           (k : Regexp.cursor -> Regexp.captures -> option R) : Regexp.cont R :=
  fun cur =>
    Regexp.run (Regexp.Cat Regexp.BeginLine
                  (Regexp.Cat (Regexp.Char "}") (Regexp.Char "%"))) cur (cs cur) k.

(** The wording of the specification for a delimiter line: the first
    content of the line that is not white space is the marker. *)
Fixpoint first_content_is (marker line : string) : bool :=
  match line with
  | EmptyString => String.prefix marker line
  | String c line' =>
      if Regexp.space c then first_content_is marker line'
      else String.prefix marker line
  end.

(** The wording of the specification for a recognised block: a template
    made of a line that opens a block, the lines of a body and a line
    that closes it has a match. *)
Definition spec_block_recognised (open_line body close_line : string) : Prop :=
  first_content_is "%{" open_line = true ->
  first_content_is "}%" close_line = true ->
  exists m : string,
    In (Regexp.Hit m)
       (Regexp.matches Swb.re (open_line ++ nl ++ body ++ close_line ++ nl)%string).

End Template.

Module Paths.

Import FS Swb.

Definition is_dir (n : node) : bool :=
  match n with Dir _ _ _ => true | File _ => false end.

(** The source path [clean] looks at for a directory of the destination
    tree. *)
Definition mapped_source_dir (site : Site) (path : string) : string :=
  Filepath.Join (SrcRoot site) (Strings.TrimPrefix path (DstRoot site)).

(** The source path [clean] looks at for an entry of the destination tree
    that is not a directory: [.html] gives way to the extension of the
    content files. *)
Definition mapped_source (config : Config) (site : Site) (path : string) : string :=
  if Filepath.Ext path =? ".html"
  then (Strings.TrimSuffix (mapped_source_dir site path) ".html"
        ++ Ext (Builder_ config))%string
  else mapped_source_dir site path.

(** The destination path [build] maps a source path to. *)
Definition mapped_dest (site : Site) (path : string) : string :=
  Filepath.Join (DstRoot site) (Strings.TrimPrefix path (SrcRoot site)).

(** The destination path of the page built from a content file: the
    extension replaced by [.html]. *)
Definition mapped_page (site : Site) (path : string) : string :=
  (Strings.TrimSuffix (mapped_dest site path) (Filepath.Ext (mapped_dest site path))
   ++ ".html")%string.

(** The path is gone when the computation is over. *)
Definition deleted_by {A : Type} (o : outcome A) (path : string) : Prop :=
  match o with
  | Done _ w' => stat (fs w') path = inl ENOENT
  | _ => False
  end.

(** The computation returned. *)
Definition returns {A : Type} (o : outcome A) : Prop :=
  match o with
  | Done _ _ => True
  | _ => False
  end.

(** The world after [os.RemoveAll(path)], its error dropped, and the line
    [clean] prints. *)
Definition removed (path : string) (w : world) (line : string)
  : outcome (option error) :=
  Done None
    (World (match removeall (fs w) path with inr f' => f' | inl _ => fs w end)
           (out w ++ [line])).

End Paths.

Module Page.

Import FS Swb.

Section Host.
Variable Environ : list string.
Variable Run : FS.filesys -> list string -> list string -> Exec.finished.

(** The argument vector [expand_block] gives the child for a block with
    the body [body]: [cmdArgs[0]] followed by [cmdArgs[len(RunCmd)-1:]]. *)
Definition spawned_argv (config : Config) (body : string) : list string :=
  let cmdArgs := RunCmd config ++ [body] in
  hd "" cmdArgs :: skipn (List.length (RunCmd config) - 1) cmdArgs.

(** The environment of the child. *)
Definition spawned_env (config : Config) (site : Site) (srcPath dstPath : string)
  : list string :=
  (Environ ++
   [ ("page_name=" ++ Strings.TrimSuffix (Filepath.Base srcPath)
                        (Filepath.Ext (Filepath.Base srcPath)))%string;
     ("builder=" ++ Bin (Builder_ config))%string;
     ("site_name=" ++ Name site)%string;
     ("src_path=" ++ srcPath)%string;
     ("dst_path=" ++ dstPath)%string ]) ++ Env site.

(** What stands in the page for a matched block: the standard output of
    its command, or the text of the error when the command fails. *)
Definition block_text (config : Config) (site : Site) (srcPath dstPath : string)
           (f : filesys) (m : string) : string :=
  match Regexp.FindStringSubmatch re m with
  | _ :: body :: _ =>
      match Run f (spawned_argv config body)
                (spawned_env config site srcPath dstPath) with
      | Exec.Exited stdout => stdout
      | Exec.Failed err => err
      end
  | _ => m
  end.

(** The line [fmt.Println(cmdArgs)] writes for a matched block. *)
Definition block_log (config : Config) (m : string) : list string :=
  match Regexp.FindStringSubmatch re m with
  | _ :: body :: _ =>
      [("[" ++ Strings.Join (RunCmd config ++ [body]) " " ++ "]" ++ nl)%string]
  | _ => []
  end.

(** The expanded page: the bytes between the blocks as they are, each
    block replaced by its text. *)
Fixpoint render (config : Config) (site : Site) (srcPath dstPath : string)
         (f : filesys) (ps : list Regexp.piece) : string :=
  match ps with
  | [] => ""
  | Regexp.Copy c :: ps' => String c (render config site srcPath dstPath f ps')
  | Regexp.Hit m :: ps' =>
      (block_text config site srcPath dstPath f m ++
       render config site srcPath dstPath f ps')%string
  end.

Fixpoint render_log (config : Config) (ps : list Regexp.piece) : list string :=
  match ps with
  | [] => []
  | Regexp.Copy _ :: ps' => render_log config ps'
  | Regexp.Hit m :: ps' => block_log config m ++ render_log config ps'
  end.

(** [buildPage] for a content file, and the line [build] prints when it
    returns no error. *)
Definition build_page_and_report (config : Config) (site : Site) (path : string)
           (w : world) (mark : string) : outcome (option error) :=
  (err <- buildPage Environ Run config site path (Paths.mapped_page site path) ;;
   if negb (is_nil err) then ret err
   else Os.Print (mark ++ Paths.mapped_page site path ++ nl) ;; ret None) w.

End Host.
End Page.

Module Scenario.

Import FS Swb.

(** A small machine: the environment of the process, a child that
    prints its argument vector, and one that always fails. *)
Definition Environ0 : list string := ["PATH=/bin"].

Definition show_argv (f : filesys) (argv env : list string) : Exec.finished :=
  Exec.Exited (Strings.Join argv "|").

Definition fails (f : filesys) (argv env : list string) : Exec.finished :=
  Exec.Failed "exit status 1".

Definition site0 : Site := MkSite "example.com" "src" "dst" "tpl" [].

(** The configuration of the README: [bash -c], content files in [.md]. *)
Definition config0 : Config :=
  MkConfig [site0] (MkBuilder ".md" "pandoc") ["bash"; "-c"].

(** A run command of three words. *)
Definition config3 : Config :=
  MkConfig [site0] (MkBuilder ".md" "pandoc") ["env"; "bash"; "-c"].

Definition body0 : string := (nl ++ "echo hi" ++ nl)%string.
Definition block0 : string := ("%{" ++ body0 ++ "}%")%string.
Definition template0 : string := ("<h1>" ++ nl ++ block0 ++ nl ++ "</h1>" ++ nl)%string.

(** A file system with the given entries under its root; inode 9 is the
    template, the clock stands at 100. *)
Definition disk (ents : list (string * node)) (files : list (nat * inode)) : world :=
  World (Filesys (Dir 1 0 (ents ++ [("tpl", File 9)]))
                 ((9, Inode 3 template0) :: files) 100 50) [].

(** No destination root; the source tree holds a directory with a
    picture. *)
Definition no_dst_root : world :=
  disk [("src", Dir 2 0 [("a", Dir 4 0 [("p.png", File 10)])])]
       [(10, Inode 5 "png")].

(** The destination root is a regular file. *)
Definition dst_is_file : world :=
  disk [("dst", File 11); ("src", Dir 2 0 [("a.md", File 10)])]
       [(10, Inode 5 "# a"); (11, Inode 1 "")].

(** The page of [a.md] would go where the directory [a.html] is. *)
Definition page_is_dir : world :=
  disk [("dst", Dir 3 0 [("a.html", Dir 5 1 [])]);
        ("src", Dir 2 0 [("a.html", Dir 4 0 []); ("a.md", File 10)])]
       [(10, Inode 5 "# a")].

(** The source tree holds a page written by hand, the destination tree
    is empty. *)
Definition html_resource : world :=
  disk [("dst", Dir 3 0 []); ("src", Dir 2 0 [("x.html", File 10)])]
       [(10, Inode 5 "<p>by hand</p>")].

(** The destination tree holds a directory and a picture that the source
    tree does not have. *)
Definition stale_dir_and_file : world :=
  disk [("dst", Dir 3 0 [("old", Dir 5 0 [("k.png", File 11)]); ("z.png", File 12)]);
        ("src", Dir 2 0 [])]
       [(11, Inode 1 "k"); (12, Inode 1 "z")].

(** The source root is a regular file. *)
Definition src_is_file : world :=
  disk [("dst", Dir 3 0 [("b.png", File 11); ("d", Dir 5 0 [])]); ("src", File 10)]
       [(10, Inode 5 ""); (11, Inode 1 "png")].

(** A picture that is a copy, not a link, of the one in the source
    tree. *)
Definition copied_picture : world :=
  disk [("dst", Dir 3 0 [("b.png", File 11)]); ("src", Dir 2 0 [("b.png", File 10)])]
       [(10, Inode 5 "png"); (11, Inode 5 "png")].

(** A content file that has no page yet. *)
Definition new_page : world :=
  disk [("dst", Dir 3 0 []); ("src", Dir 2 0 [("a.md", File 10)])]
       [(10, Inode 5 "# a")].

(** A site whose source root is the working directory. *)
Definition site_dot : Site := MkSite "example.com" "." "out" "tpl" [].

Definition config_dot : Config :=
  MkConfig [site_dot] (MkBuilder ".md" "pandoc") ["bash"; "-c"].

(** The working directory holds the content files [.md] and [a.md] and
    the empty destination root [out]; there is no template. *)
Definition dot_root : world :=
  World (Filesys (Dir 1 0 [(".md", File 10); ("a.md", File 11); ("out", Dir 3 0 [])])
                 [(10, Inode 5 "# hidden"); (11, Inode 5 "# a")] 100 50) [].

(** The entry [filepath.WalkDir] hands the callback for [name] in the
    directory [parent]. *)
Definition entry (parent name : string) (isdir : bool) : Os.DirEntry :=
  Os.MkDirEntry name isdir parent None.

End Scenario.

(* ================================================================== *)
(** ** Notions of the further properties *)
(* ================================================================== *)

Module More.

Import FS Swb.

(** The names of [p] are the first names of [q]: [q] is at or below
    [p]. *)
Fixpoint is_prefix (p q : list string) : bool :=
  match p, q with
  | [], _ => true
  | _ :: _, [] => false
  | a :: p', b :: q' => (a =? b) && is_prefix p' q'
  end.

(** The text the pieces come from: the copied bytes and the matches as
    they are. *)
Fixpoint text_of (ps : list Regexp.piece) : string :=
  match ps with
  | [] => ""
  | Regexp.Copy c :: ps' => String c (text_of ps')
  | Regexp.Hit m :: ps' => (m ++ text_of ps')%string
  end.

(** What ends a search at one position: where the match ends and its
    groups. *)
Definition accept (cur : Regexp.cursor) (cs : Regexp.captures)
  : option (nat * Regexp.captures) :=
  Some (Regexp.at_ cur, cs).

(** The state a computation leaves. *)
Definition world_of {A : Type} (o : outcome A) : world :=
  match o with
  | Done _ w | Panicked _ w | Exhausted w => w
  end.

(** [m] keeps [P]: the state it leaves satisfies [P] when the state it
    starts from does, however it ends. *)
Definition keeps {A : Type} (P : world -> Prop) (m : M A) : Prop :=
  forall w, P w -> P (world_of (m w)).

(** What a call that only makes directories leaves behind: the output
    and the inodes as they were, and every file still there. *)
Definition settled (w w' : world) : Prop :=
  out w' = out w
  /\ itab (fs w') = itab (fs w)
  /\ (forall q j, resolve (fs w) q = inr (File j) -> resolve (fs w') q = inr (File j)).

(** The source root does not exist. *)
Definition no_src_root : world :=
  Scenario.disk [("dst", Dir 3 0 [])] [].

Definition site_a : Site := MkSite "a.example" "src" "dst" "tpl" [].

(** A configuration whose run command is empty. *)
Definition config_no_cmd : Config :=
  MkConfig [Scenario.site0] (MkBuilder ".md" "pandoc") [].

(** An empty directory in the source tree, nothing in the destination
    tree. *)
Definition new_dir : world :=
  Scenario.disk [("dst", Dir 3 0 []); ("src", Dir 2 0 [("img", Dir 4 0 [])])] [].

(** A picture in the source tree, nothing in the destination tree. *)
Definition new_picture : world :=
  Scenario.disk [("dst", Dir 3 0 []); ("src", Dir 2 0 [("b.png", File 10)])]
                [(10, Inode 5 "png")].

(** No template. *)
Definition no_template : world :=
  World (Filesys (Dir 1 0 [("dst", Dir 3 0 []); ("src", Dir 2 0 [("a.md", File 10)])])
                 [(10, Inode 5 "# a")] 100 50) [].

(** The template path is a directory. *)
Definition template_is_dir : world :=
  World (Filesys (Dir 1 0 [("dst", Dir 3 0 []); ("src", Dir 2 0 [("a.md", File 10)]);
                           ("tpl", Dir 6 0 [])])
                 [(10, Inode 5 "# a")] 100 50) [].

(** A template whose only block is left open. *)
Definition open_block : world :=
  World (Filesys (Dir 1 0 [("dst", Dir 3 0 []); ("src", Dir 2 0 [("a.md", File 10)]);
                           ("tpl", File 9)])
                 [(9, Inode 3 ("%{" ++ nl ++ "ls" ++ nl)%string); (10, Inode 5 "# a")]
                 100 50) [].

End More.


(* ================================================================== *)
(** ** Library functions on concrete paths *)
(* ================================================================== *)

Example Join_roots : Filepath.Join "/var/www/example.com" "/foo/index.md"
                     = "/var/www/example.com/foo/index.md".
Proof. reflexivity. Qed.

Example Join_cleans : Filepath.Join "src/" "a/../b/./c" = "src/b/c".
Proof. reflexivity. Qed.

Example Clean_keeps_leading_dotdot : Filepath.Clean "../../a//b/" = "../../a/b".
Proof. reflexivity. Qed.

Example Clean_rooted_dotdot : Filepath.Clean "/../a" = "/a".
Proof. reflexivity. Qed.

Example Ext_last_dot : Filepath.Ext "dst/a.b/c.tar.gz" = ".gz".
Proof. reflexivity. Qed.

Example Ext_stops_at_separator : Filepath.Ext "dst/a.b/c" = "".
Proof. reflexivity. Qed.

Example Base_last_element : Filepath.Base "src/foo/index.md" = "index.md".
Proof. reflexivity. Qed.

Example TrimSuffix_extension : Strings.TrimSuffix "dst/a.md" ".md" = "dst/a".
Proof. reflexivity. Qed.

Example TrimPrefix_root : Strings.TrimPrefix "src/a/b" "src" = "/a/b".
Proof. reflexivity. Qed.

(* ================================================================== *)
(** ** Strings *)
(* ================================================================== *)

Section StringFacts.
Local Open Scope string_scope.

Lemma append_assoc (a b c : string) : (a ++ b) ++ c = a ++ (b ++ c).
Proof. induction a as [|x a IH]; simpl; [reflexivity | now rewrite IH]. Qed.

Lemma append_nil_r (a : string) : a ++ "" = a.
Proof. induction a as [|x a IH]; cbn; [reflexivity | now rewrite IH]. Qed.

Lemma length_append (a b : string) :
  String.length (a ++ b) = String.length a + String.length b.
Proof. induction a as [|x a IH]; simpl; [reflexivity | now rewrite IH]. Qed.

Lemma substring_0_append (a b : string) :
  substring 0 (String.length a) (a ++ b) = a.
Proof.
  induction a as [|x a IH]; simpl.
  - destruct b; reflexivity.
  - now rewrite IH.
Qed.

Lemma substring_skip_append (a b : string) (m : nat) :
  substring (String.length a) m (a ++ b) = substring 0 m b.
Proof. induction a as [|x a IH]; simpl; [reflexivity | exact IH]. Qed.

Lemma slice_middle (a b c : string) :
  Regexp.slice (String.length a) (String.length a + String.length b) (a ++ b ++ c) = b.
Proof.
  unfold Regexp.slice.
  replace (String.length a + String.length b - String.length a) with (String.length b) by lia.
  rewrite substring_skip_append. apply substring_0_append.
Qed.

Lemma slice_front (a c : string) :
  Regexp.slice 0 (String.length a) (a ++ c) = a.
Proof. unfold Regexp.slice. rewrite Nat.sub_0_r. apply substring_0_append. Qed.

End StringFacts.

(* ================================================================== *)
(** ** The pattern of the command blocks *)
(* ================================================================== *)

Section RegexpFacts.
Local Open Scope string_scope.
Import Template Swb.

(** A greedy star over a run of bytes of the class, followed by a byte
    outside it: when what follows the star succeeds after the whole run,
    that is the result. *)
Lemma star_greedy_run (R : Type) (cls : ascii -> bool) (k : Regexp.cont R)
      (c : ascii) (t : string) (r : R) :
  cls c = false ->
  forall (ws : string) (n : nat) (p : option ascii),
    (forall x, In x (list_ascii_of_string ws) -> cls x = true) ->
    k (Regexp.Cursor (n + String.length ws) (last_before p ws) (String c t)) = Some r ->
    Regexp.star_greedy R cls k n p (ws ++ String c t) = Some r.
Proof.
  intros Hc ws. induction ws as [|x ws IH]; intros n p Hall Hk; simpl in *.
  - rewrite Hc. now rewrite Nat.add_0_r in Hk.
  - rewrite (Hall x (or_introl eq_refl)).
    rewrite (IH (S n) (Some x)); auto.
    now replace (S n + String.length ws) with (n + S (String.length ws)) by lia.
Qed.

Lemma closing_fails_inside (R : Type) cs k (n : nat) (p : option ascii)
      (c : ascii) (b tail : string) :
  (Regexp.at_line_start (Regexp.Cursor n p (String c b)) = true ->
   String.prefix "}%" (String c b) = false) ->
  @closing R cs k (Regexp.Cursor n p (String c (b ++ String "}" (String "%" tail)))) = None.
Proof.
  intros H. unfold closing. simpl.
  unfold Regexp.at_line_start in *. simpl in *.
  destruct (match p with Some c0 => Ascii.eqb c0 Regexp.newline | None => true end);
    [|reflexivity].
  specialize (H eq_refl).
  destruct (Ascii.eqb_spec c "}"%char) as [->|Hne].
  - destruct b as [|c2 b]; simpl in *.
    + reflexivity.
    + destruct (Ascii.eqb_spec c2 "%"%char) as [->|Hne2]; [|reflexivity].
      simpl in H. destruct b; discriminate.
  - reflexivity.
Qed.

Lemma star_lazy_eq (R : Type) cls (k : Regexp.cont R) n p s :
  Regexp.star_lazy R cls k n p s =
  match k (Regexp.Cursor n p s) with
  | Some r => Some r
  | None =>
      match s with
      | String c s' => if cls c then Regexp.star_lazy R cls k (S n) (Some c) s' else None
      | EmptyString => None
      end
  end.
Proof. destruct s; reflexivity. Qed.

(** The lazy star of the group passes over a body no line of which
    begins with the closing marker, and stops where the marker is. *)
Lemma star_lazy_body (R : Type) cs k (tail : string) (r : R) :
  forall (body : string) (n : nat) (p : option ascii),
    (Regexp.at_line_start (Regexp.Cursor n p body) = true ->
     String.prefix "}%" body = false) ->
    closes_inside body = false ->
    closing cs k (Regexp.Cursor (n + String.length body) (last_before p body)
                    (String "}" (String "%" tail))) = Some r ->
    Regexp.star_lazy R Regexp.any (closing cs k) n p
      (body ++ String "}" (String "%" tail)) = Some r.
Proof.
  induction body as [|c b IH]; intros n p Hstart Hin Hend.
  - cbn [append String.length last_before] in *. rewrite Nat.add_0_r in Hend.
    rewrite star_lazy_eq. now rewrite Hend.
  - cbn [append]. rewrite star_lazy_eq.
    rewrite closing_fails_inside by exact Hstart.
    cbn [Regexp.any].
    simpl in Hin. apply orb_false_iff in Hin as [Hhere Hrest].
    apply IH; auto.
    + unfold Regexp.at_line_start. simpl. intros Hnl.
      rewrite Hnl in Hhere. simpl in Hhere. exact Hhere.
    + simpl in Hend.
      now replace (S n + String.length b) with (n + S (String.length b)) by lia.
Qed.

Lemma ends_line_last (s : string) (p : option ascii) :
  ends_line s = true -> last_before p s = Some Regexp.newline.
Proof.
  revert p. induction s as [|c s IH]; intros p H; [discriminate|].
  destruct s as [|c' s'].
  - simpl in *. apply Ascii.eqb_eq in H. now subst.
  - change (last_before p (String c (String c' s')))
      with (last_before (Some c) (String c' s')).
    apply IH. exact H.
Qed.

Lemma all_space_In (ws : string) :
  all_space ws = true ->
  forall x, In x (list_ascii_of_string ws) -> Regexp.space x = true.
Proof.
  induction ws as [|c ws IH]; simpl; intros H x Hx; [contradiction|].
  apply andb_true_iff in H as [Hc Hws].
  destruct Hx as [<-|Hx]; auto.
Qed.

Lemma last_before_append (a b : string) (p : option ascii) :
  last_before p (a ++ b) = last_before (last_before p a) b.
Proof. revert p. induction a as [|x a IH]; intros p; cbn; [reflexivity | apply IH]. Qed.

(** The match of [re] at the start of a line where a block begins. *)
Lemma match_at_block (ws body post : string) (n : nat) (p : option ascii) :
  all_space ws = true ->
  ends_line body = true ->
  closes_inside body = false ->
  line_start p = true ->
  Regexp.match_at re
    (Regexp.Cursor n p (ws ++ "%{" ++ body ++ "}%" ++ post)) =
  Some (n + String.length (ws ++ "%{" ++ body ++ "}%"),
        [(1, (n + String.length (ws ++ "%{"),
              n + String.length (ws ++ "%{" ++ body)))]).
Proof.
  intros Hws Hend Hin Hp.
  unfold Regexp.match_at, re.
  cbn [Regexp.run Regexp.before Regexp.at_ Regexp.rest].
  unfold Regexp.at_line_start at 1. cbn [Regexp.before].
  unfold line_start in Hp. rewrite Hp.
  change ("%{" ++ body ++ "}%" ++ post)
    with (String "%" (String "{" (body ++ String "}" (String "%" post)))).
  apply star_greedy_run; [reflexivity | now apply all_space_In |].
  cbn [Regexp.run Regexp.rest Regexp.at_ Regexp.before Ascii.eqb Bool.eqb].
  cbn - [Regexp.star_lazy Regexp.run String.length].
  match goal with
  | |- Regexp.star_lazy _ _ ?k _ _ _ = _ =>
      change k with
        (closing (fun cur' => [(1, (S (S (n + String.length ws)), Regexp.at_ cur'))])
                 (fun (cur' : Regexp.cursor) (cs : Regexp.captures) =>
                    Some (Regexp.at_ cur', cs)))
  end.
  apply star_lazy_body.
  - unfold Regexp.at_line_start. simpl. discriminate.
  - exact Hin.
  - unfold closing.
    cbn [Regexp.run Regexp.at_line_start Regexp.before Regexp.rest Regexp.at_].
    rewrite (ends_line_last body _ Hend).
    replace (Ascii.eqb Regexp.newline Regexp.newline) with true
      by (symmetry; apply Ascii.eqb_refl).
    cbn - [String.length]. rewrite !length_append. cbn [String.length].
    rewrite ?length_append. cbn [String.length].
    repeat match goal with
           | |- Some _ = Some _ => f_equal
           | |- (_, _) = (_, _) => f_equal
           | |- _ :: _ = _ :: _ => f_equal
           end; lia.
Qed.

Lemma find_from_here (r : Regexp.regex) (n : nat) (p : option ascii) (s : string)
      (e : nat) (cs : Regexp.captures) :
  Regexp.match_at r (Regexp.Cursor n p s) = Some (e, cs) ->
  Regexp.find_from r n p s = Some (n, e, cs).
Proof. intros H. destruct s; cbn [Regexp.find_from]; now rewrite H. Qed.

(** Passing over the bytes of a match. *)
Lemma pieces_skip (r : Regexp.regex) (rest : string) (ah : bool) :
  forall (m : string) (n : nat) (p : option ascii),
    Regexp.pieces r n p (m ++ rest) (String.length m) ah =
    Regexp.pieces r (n + String.length m) (last_before p m) rest 0 ah.
Proof.
  induction m as [|c m IH]; intros n p.
  - cbn [append String.length last_before]. now rewrite Nat.add_0_r.
  - cbn [append String.length last_before Regexp.pieces]. rewrite IH.
    now replace (S n + String.length m) with (n + S (String.length m)) by lia.
Qed.

(** A match at the position gives a [Hit], and the search goes on after
    it. *)
Lemma pieces_hit (r : Regexp.regex) (c : ascii) (m rest : string)
      (n : nat) (p : option ascii) (ah : bool) (cs : Regexp.captures) :
  Regexp.match_at r (Regexp.Cursor n p (String c m ++ rest)) =
    Some (n + String.length (String c m), cs) ->
  Regexp.pieces r n p (String c m ++ rest) 0 ah =
  Regexp.Hit (String c m) ::
  Regexp.pieces r (n + String.length (String c m)) (last_before p (String c m))
    rest 0 true.
Proof.
  intros H. cbn [append] in *. cbn [Regexp.pieces]. rewrite H.
  replace (n + String.length (String c m) - n) with (S (String.length m))
    by (cbn [String.length]; lia).
  cbn [Nat.eqb]. f_equal.
  - f_equal. unfold Strings.upto.
    change (String c (m ++ rest)) with (String c m ++ rest).
    apply (substring_0_append (String c m) rest).
  - replace (S (String.length m) - 1) with (String.length m) by lia.
    rewrite pieces_skip. cbn [String.length last_before].
    now replace (S n + String.length m) with (n + S (String.length m)) by lia.
Qed.

End RegexpFacts.

(* ================================================================== *)
(** ** The file system *)
(* ================================================================== *)

Section FsFacts.
Import FS Paths.

Lemma get_ent_del_same (name : string) (ents : list (string * node)) :
  get_ent name (del_ent name ents) = None.
Proof.
  induction ents as [|[k v] ents IH]; simpl; [reflexivity|].
  destruct (String.eqb_spec k name) as [->|Hne]; simpl.
  - exact IH.
  - apply String.eqb_neq in Hne. now rewrite Hne.
Qed.

Lemma compare_refl (s : string) : String.compare s s = Eq.
Proof.
  pose proof (String.compare_antisym s s) as H.
  destruct (String.compare s s); simpl in H; congruence.
Qed.

Lemma get_ent_set_same (name : string) (v : node) (ents : list (string * node)) :
  get_ent name (set_ent name v ents) = Some v.
Proof.
  induction ents as [|[k v'] ents IH]; simpl.
  - now rewrite String.eqb_refl.
  - destruct (String.compare name k) eqn:E; simpl.
    + now rewrite String.eqb_refl.
    + now rewrite String.eqb_refl.
    + destruct (String.eqb_spec k name) as [->|Hne]; [|exact IH].
      now rewrite compare_refl in E.
Qed.

Lemma update_deeper (i : nat) (m : Z) (ents : list (string * node))
      (name name' : string) (p' : list string) (now : Z) (e : errno)
      (f : string -> list (string * node) -> errno + list (string * node)) :
  update (Dir i m ents) (name :: name' :: p') now e f =
  match get_ent name ents with
  | None => inl ENOENT
  | Some child =>
      match update child (name' :: p') now e f with
      | inl e' => inl e'
      | inr child' => inr (Dir i m (set_ent name child' ents))
      end
  end.
Proof. reflexivity. Qed.

(** Removing an entry that is there leaves nothing under its name. *)
Lemma update_del_gone (now : Z) (e : errno) :
  forall (p : list string) (n target : node),
    p <> [] ->
    walk n p = inr target ->
    exists n',
      update n p now e
        (fun name ents =>
           match get_ent name ents with
           | None => inl ENOENT
           | Some _ => inr (del_ent name ents)
           end) = inr n'
      /\ walk n' p = inl ENOENT.
Proof.
  induction p as [|name p IH]; intros n target Hp Hw; [contradiction|].
  destruct n as [i|i m ents]; [discriminate|].
  simpl in Hw. destruct (get_ent name ents) as [child|] eqn:Hget; [|discriminate].
  destruct p as [|name' p'].
  - simpl. rewrite Hget. eexists; split; [reflexivity|].
    simpl. now rewrite get_ent_del_same.
  - destruct (IH child target ltac:(discriminate) Hw) as [child' [Hu Hgone]].
    rewrite update_deeper, Hget, Hu. eexists; split; [reflexivity|].
    cbn [walk]. rewrite get_ent_set_same. exact Hgone.
Qed.

(** A new entry is found under its name. *)
Lemma update_set_found (now : Z) (e : errno) (v : node) :
  forall (p : list string) (n n' : node),
    update n p now e (fun name ents => inr (set_ent name v ents)) = inr n' ->
    walk n' p = inr v.
Proof.
  induction p as [|name p IH]; intros n n' Hu; [discriminate|].
  destruct n as [i|i m ents]; [discriminate|].
  destruct p as [|name' p'].
  - simpl in Hu. inversion Hu; subst. simpl. now rewrite get_ent_set_same.
  - rewrite update_deeper in Hu.
    destruct (get_ent name ents) as [child|]; [|discriminate].
    destruct (update child (name' :: p') now e _) as [e'|child'] eqn:Hc;
      [discriminate|].
    inversion Hu; subst. cbn [walk]. rewrite get_ent_set_same.
    exact (IH _ _ Hc).
Qed.

Lemma get_inode_set_same (i : nat) (d : inode) (t : list (nat * inode)) :
  get_inode i (set_inode i d t) = Some d.
Proof.
  induction t as [|[j d'] t IH]; simpl.
  - now rewrite Nat.eqb_refl.
  - destruct (Nat.eqb j i) eqn:E; simpl.
    + now rewrite Nat.eqb_refl.
    + now rewrite E.
Qed.

(** [os.RemoveAll] of a path that names an entry below the root removes
    it. *)
Lemma removeall_gone_entry (f : filesys) (path : string) (n : node) :
  elems path <> [] ->
  resolve f path = inr n ->
  exists f',
    removeall f path = inr f'
    /\ stat f' path = inl ENOENT
    /\ readdir f' path = inl ENOENT.
Proof.
  intros Hp Hres. unfold resolve in Hres.
  destruct (String.eqb_spec path "") as [->|Hne]; [discriminate|].
  destruct (update_del_gone (clock f) EINVAL _ _ _ Hp Hres) as [n' [Hu Hgone]].
  unfold removeall. apply String.eqb_neq in Hne. rewrite Hne, Hu.
  eexists; split; [reflexivity|].
  unfold stat, readdir, resolve. rewrite Hne. simpl. now rewrite Hgone.
Qed.

(** [os.RemoveAll] of a path that names a file removes it. *)
Lemma removeall_gone (f : filesys) (path : string) (i : nat) :
  is_dir (root f) = true ->
  resolve f path = inr (File i) ->
  exists f', removeall f path = inr f' /\ stat f' path = inl ENOENT.
Proof.
  intros Hroot Hres.
  assert (Hp : elems path <> []).
  { intros E. unfold resolve in Hres.
    destruct (path =? ""); [discriminate|].
    rewrite E in Hres. simpl in Hres. inversion Hres as [H0].
    rewrite H0 in Hroot. discriminate. }
  destruct (removeall_gone_entry f path _ Hp Hres) as [f' [H1 [H2 _]]].
  eauto.
Qed.

(** What was written can be read back. *)
Lemma writefile_readfile (f f' : filesys) (path data : string) :
  writefile f path data = inr f' -> readfile f' path = inr data.
Proof.
  unfold writefile, readfile, resolve.
  destruct (String.eqb_spec path "") as [->|Hne]; [discriminate|].
  destruct (walk (root f) (elems path)) as [e|[i|i m ents]] eqn:Hw.
  - destruct e; try discriminate.
    destruct (update (root f) (elems path) (clock f) EISDIR _) as [e'|r] eqn:Hu;
      [discriminate|].
    intros H; inversion H; subst; clear H. cbn [root itab].
    rewrite (update_set_found _ _ _ _ _ _ Hu).
    now rewrite get_inode_set_same.
  - intros H; inversion H; subst; clear H. cbn [root itab].
    rewrite Hw. now rewrite get_inode_set_same.
  - discriminate.
Qed.

Lemma stat_file_resolve (f : filesys) (path : string) (info : FileInfo) :
  stat f path = inr info -> IsDir info = false ->
  exists i, resolve f path = inr (File i) /\ Sys info = Some (MkStat i).
Proof.
  unfold stat. destruct (resolve f path) as [e|[i|i m ents]]; try discriminate.
  - simpl. destruct (get_inode i (itab f)); [|discriminate].
    intros H _. inversion H; subst; simpl. eauto.
  - simpl. intros H Hd. inversion H. subst. discriminate.
Qed.

Lemma stat_sys (f : filesys) (path : string) (info : FileInfo) :
  stat f path = inr info -> exists s, Sys info = Some s.
Proof.
  unfold stat. destruct (resolve f path) as [e|[i|i m ents]]; try discriminate; simpl.
  - destruct (get_inode i (itab f)); [|discriminate].
    intros H; inversion H; subst; simpl; eauto.
  - intros H; inversion H; subst; simpl; eauto.
Qed.

End FsFacts.

(* ================================================================== *)
(** ** The callbacks of the two walks, entry by entry *)
(* ================================================================== *)

Ltac go_unfold :=
  cbv beta iota delta
    [bind ret throw deref or_else and_then Os.Stat Os.Lstat Os.RemoveAll
     Os.MkdirAll Os.Link Os.Remove Os.WriteFile Os.ReadFile Os.Print Os.change
     Os.lift_err is_nil negb fst snd].

Lemma Stat_eq (p : string) (w : world) :
  Os.Stat p w = Done (Os.lift_err "stat" p (FS.stat (fs w) p)) w.
Proof. reflexivity. Qed.

Section CleanEntry.
Import FS Os Swb Paths.

Variables (config : Config) (site : Site) (path : string) (d : DirEntry)
          (dstInfo : FileInfo) (w : world).
Hypothesis Hpath : (path =? DstRoot site) = false.
Hypothesis Hinfo : Info d w = Done (Some dstInfo, None) w.

(** What [clean]'s callback comes to for an entry that is not a
    directory. *)
Lemma clean_fn_file :
  IsDir dstInfo = false ->
  clean_fn config site path (Some d) None w =
  match stat (fs w) (mapped_source config site path) with
  | inl ENOENT => removed path w (" - " ++ path ++ nl)
  | inl _ =>
      if Filepath.Ext path =? ".html" then Done None w
      else Panicked NilDereference w
  | inr srcInfo =>
      match Sys srcInfo, Sys dstInfo with
      | Some s, Some t =>
          if negb (Filepath.Ext path =? ".html") && negb (Nat.eqb (Ino s) (Ino t))
          then removed path w (" - " ++ path ++ nl)
          else Done None w
      | _, _ => Done (Some (ErrorString "not a syscall: syscall.Stat_t")) w
      end
  end.
Proof.
  intros Hfile.
  unfold clean_fn, mapped_source, mapped_source_dir, removed.
  cbn [is_nil negb]. rewrite Hpath.
  unfold bind at 1. cbn [deref ret].
  unfold bind at 1. rewrite Hinfo. cbn [is_nil negb deref].
  unfold bind at 1. cbn [ret]. rewrite Hfile.
  set (src := if Filepath.Ext path =? ".html" then _ else _).
  go_unfold.
  destruct (stat (fs w) src) as [e|srcInfo].
  - destruct e; cbn; try (destruct (Filepath.Ext path =? ".html"); reflexivity).
    destruct (removeall (fs w) path); reflexivity.
  - destruct (Sys srcInfo) as [s|]; [|reflexivity].
    destruct (Sys dstInfo) as [t|]; [|reflexivity].
    cbn. destruct (Filepath.Ext path =? ".html"); cbn; [reflexivity|].
    destruct (Nat.eqb (Ino s) (Ino t)); cbn; [reflexivity|].
    destruct (removeall (fs w) path); reflexivity.
Qed.

(** What [clean]'s callback comes to for a directory. *)
Lemma clean_fn_dir :
  IsDir dstInfo = true ->
  clean_fn config site path (Some d) None w =
  match stat (fs w) (mapped_source_dir site path) with
  | inl ENOENT => removed path w (" - " ++ path ++ "/*" ++ nl)
  | inl _ => Panicked NilDereference w
  | inr srcInfo =>
      if IsDir srcInfo then Done None w
      else removed path w (" - " ++ path ++ "/*" ++ nl)
  end.
Proof.
  intros Hdir.
  unfold clean_fn, mapped_source_dir, removed.
  cbn [is_nil negb]. rewrite Hpath.
  unfold bind at 1. cbn [deref ret].
  unfold bind at 1. rewrite Hinfo. cbn [is_nil negb deref].
  unfold bind at 1. cbn [ret]. rewrite Hdir.
  go_unfold.
  destruct (stat (fs w) _) as [e|srcInfo].
  - destruct e; cbn; try reflexivity.
    destruct (removeall (fs w) path); reflexivity.
  - cbn. destruct (IsDir srcInfo); cbn; [reflexivity|].
    destruct (removeall (fs w) path); reflexivity.
Qed.

End CleanEntry.

Section BuildEntry.
Import FS Os Swb Paths Page.

Variable Environ : list string.
Variable Run : FS.filesys -> list string -> list string -> Exec.finished.
Variables (config : Config) (site : Site) (path : string) (d : DirEntry)
          (info srcInfo : FileInfo) (w : world).
Hypothesis Hpath : (path =? SrcRoot site) = false.
Hypothesis Hinfo : Info d w = Done (Some info, None) w.
Hypothesis Hfile : IsDir info = false.
Hypothesis Hstat : stat (fs w) path = inr srcInfo.
Hypothesis Hext : Filepath.Ext (mapped_dest site path) = Ext (Builder_ config).

(** What [build]'s callback comes to for a content file. *)
Lemma build_fn_content :
  build_fn Environ Run config site path (Some d) None w =
  match stat (fs w) (mapped_page site path) with
  | inl ENOENT => build_page_and_report Environ Run config site path w " + "
  | inl _ => Done None w
  | inr dstInfo =>
      if After (ModTime srcInfo) (ModTime dstInfo)
      then build_page_and_report Environ Run config site path w " ^ "
      else Done None w
  end.
Proof.
  unfold build_fn, build_page_and_report, mapped_page.
  cbn [is_nil negb]. rewrite Hpath.
  unfold bind at 1. cbn [deref ret].
  unfold bind at 1. rewrite Hinfo. cbn [is_nil negb deref].
  unfold bind at 1. cbn [ret]. rewrite Hfile.
  unfold bind at 1. rewrite (Stat_eq path w), Hstat. cbn [lift_err is_nil negb].
  fold (mapped_dest site path). rewrite Hext, String.eqb_refl.
  unfold bind at 1. rewrite Stat_eq.
  match goal with
  | |- context [stat (fs w) ?p] => destruct (stat (fs w) p) as [e|dstInfo]
  end; cbn [lift_err].
  - destruct e; cbn [IsNotExist is_nil negb and_then]; reflexivity.
  - cbn [is_nil and_then deref]. unfold bind at 1. unfold bind at 1.
    unfold bind at 1. cbn [ret].
    destruct (After (ModTime srcInfo) (ModTime dstInfo)); reflexivity.
Qed.

End BuildEntry.

(* ================================================================== *)
(** ** The expansion of a page *)
(* ================================================================== *)

Section PageFacts.
Import FS Os Swb Page.

Variable Environ : list string.
Variable Run : FS.filesys -> list string -> list string -> Exec.finished.
Variables (config : Config) (site : Site) (srcPath dstPath : string).
Hypothesis Hcmd : RunCmd config <> [].

Lemma slice_from_last (c0 x : string) (cs : list string) :
  Slice.from ((c0 :: cs) ++ [x]) (Slice.len (c0 :: cs) - 1) =
  ret (skipn (List.length cs) ((c0 :: cs) ++ [x])).
Proof.
  unfold Slice.from, Slice.len.
  replace (Z.of_nat (List.length (c0 :: cs)) - 1 <? 0)%Z with false
    by (symmetry; apply Z.ltb_ge; cbn [List.length]; lia).
  replace (Z.of_nat (List.length ((c0 :: cs) ++ [x])) <?
           Z.of_nat (List.length (c0 :: cs)) - 1)%Z with false
    by (symmetry; apply Z.ltb_ge; rewrite length_app; cbn [List.length]; lia).
  cbn [orb].
  replace (Z.to_nat (Z.of_nat (List.length (c0 :: cs)) - 1)) with (List.length cs)
    by (cbn [List.length]; lia).
  reflexivity.
Qed.

(** The replacement function, for a run command that is not empty: the
    text of the block, one line printed, the file system as it was. *)
Lemma expand_block_eq (m : string) (w : world) :
  expand_block Environ Run config site srcPath dstPath m w =
  Done (block_text Environ Run config site srcPath dstPath (fs w) m)
       (World (fs w) (out w ++ block_log config m)).
Proof.
  unfold expand_block, block_text, block_log, spawned_argv.
  destruct (Regexp.FindStringSubmatch re m) as [|whole [|body rest]].
  - cbn. rewrite app_nil_r. now destruct w.
  - cbn. rewrite app_nil_r. now destruct w.
  - replace (Slice.len (whole :: body :: rest) <? 2)%Z with false
      by (symmetry; apply Z.ltb_ge; unfold Slice.len; cbn [List.length]; lia).
    destruct (RunCmd config) as [|c0 cs] eqn:Hrc; [contradiction|].
    change (Slice.index (whole :: body :: rest) 1) with (@ret string body).
    unfold bind at 1. cbn [ret].
    change (Slice.index ((c0 :: cs) ++ [body]) 0) with (@ret string c0).
    rewrite slice_from_last.
    cbv beta iota delta [bind ret Println_strings Print cmd_Run].
    unfold spawned_env.
    cbn [Exec.Command Exec.Args Exec.Env fs out app hd List.length].
    replace (S (List.length cs) - 1) with (List.length cs) by lia.
    destruct (Run _ _ _); reflexivity.
Qed.

Lemma replace_pieces_eq (ps : list Regexp.piece) :
  forall (buf : string) (w : world),
    replace_pieces ps (expand_block Environ Run config site srcPath dstPath) buf w =
    Done (buf ++ render Environ Run config site srcPath dstPath (fs w) ps)%string
         (World (fs w) (out w ++ render_log config ps)).
Proof.
  induction ps as [|[c|m] ps IH]; intros buf w.
  - cbn. rewrite app_nil_r, append_nil_r. now destruct w.
  - cbn [replace_pieces render render_log]. rewrite IH. f_equal.
    now rewrite append_assoc.
  - cbn [replace_pieces render render_log]. unfold bind.
    rewrite expand_block_eq, IH. cbn [fs out]. f_equal.
    + now rewrite append_assoc.
    + now rewrite app_assoc.
Qed.

(** [buildPage] once the template has been read. *)
Lemma buildPage_eq (tpl : string) (w : world) :
  readfile (fs w) (TplPath site) = inr tpl ->
  buildPage Environ Run config site srcPath dstPath w =
  Done None
    (World (match writefile (fs w) dstPath
                    (render Environ Run config site srcPath dstPath (fs w)
                       (Regexp.matches re tpl)) with
            | inr f' => f'
            | inl _ => fs w
            end)
           (out w ++ render_log config (Regexp.matches re tpl))).
Proof.
  intros Hread. unfold buildPage, ReplaceAllStringFunc.
  unfold bind at 1. unfold ReadFile. rewrite Hread. cbn [is_nil negb].
  unfold bind at 1. rewrite replace_pieces_eq. cbn [append].
  cbv beta iota delta [bind ret WriteFile change fs out].
  match goal with |- context [writefile ?a ?b ?c] => destruct (writefile a b c) end;
    reflexivity.
Qed.

End PageFacts.

Section MoreFs.
Import FS Paths More.

Lemma get_ent_set_other (k name : string) (v : node) (ents : list (string * node)) :
  k <> name -> get_ent k (set_ent name v ents) = get_ent k ents.
Proof.
  intros Hne. induction ents as [|[k' v'] ents IH]; simpl.
  - apply String.eqb_neq in Hne. now rewrite String.eqb_sym, Hne.
  - destruct (String.compare name k') eqn:E; simpl.
    + apply String.compare_eq_iff in E. subst k'.
      destruct (String.eqb_spec name k) as [->|_]; [contradiction | reflexivity].
    + destruct (String.eqb_spec name k) as [->|_]; [contradiction | reflexivity].
    + now rewrite IH.
Qed.

Lemma get_ent_del_other (k name : string) (ents : list (string * node)) :
  k <> name -> get_ent k (del_ent name ents) = get_ent k ents.
Proof.
  intros Hne. induction ents as [|[k' v'] ents IH]; simpl; [reflexivity|].
  destruct (String.eqb_spec k' name) as [->|Hk]; simpl.
  - destruct (String.eqb_spec name k) as [->|_]; [contradiction | exact IH].
  - now rewrite IH.
Qed.

(** Removing an entry leaves the files that are not at or below it where
    they are. *)
Lemma update_del_frame (now : Z) (e : errno) (i : nat) :
  forall (p q : list string) (n n' : node),
    is_prefix p q = false ->
    walk n q = inr (File i) ->
    update n p now e
      (fun name ents =>
         match get_ent name ents with
         | None => inl ENOENT
         | Some _ => inr (del_ent name ents)
         end) = inr n' ->
    walk n' q = inr (File i).
Proof.
  induction p as [|name p IH]; intros q n n' Hpre Hw Hu; [discriminate|].
  destruct n as [j|j m ents]; [discriminate|].
  destruct q as [|k q]; [discriminate|].
  cbn [walk] in Hw. destruct (get_ent k ents) as [c|] eqn:Hk; [|discriminate].
  cbn [is_prefix] in Hpre.
  destruct p as [|name' p'].
  - cbn [update] in Hu. destruct (get_ent name ents); [|discriminate].
    inversion Hu; subst; clear Hu. cbn [walk].
    destruct (String.eqb_spec name k) as [->|Hne].
    + cbn [is_prefix andb] in Hpre. discriminate.
    + rewrite get_ent_del_other by congruence. now rewrite Hk.
  - rewrite update_deeper in Hu.
    destruct (get_ent name ents) as [child|] eqn:Hc; [|discriminate].
    destruct (update child (name' :: p') now e _) as [e'|child'] eqn:Hu';
      [discriminate|].
    inversion Hu; subst; clear Hu. cbn [walk].
    destruct (String.eqb_spec name k) as [->|Hne].
    + rewrite get_ent_set_same. cbn [andb] in Hpre.
      rewrite Hk in Hc. inversion Hc; subst.
      exact (IH _ _ _ Hpre Hw Hu').
    + rewrite get_ent_set_other by congruence. now rewrite Hk.
Qed.

Lemma removeall_frame (f f' : filesys) (path q : string) (i : nat) :
  removeall f path = inr f' ->
  is_prefix (elems path) (elems q) = false ->
  resolve f q = inr (File i) ->
  resolve f' q = inr (File i) /\ itab f' = itab f.
Proof.
  unfold removeall, resolve. intros Hrm Hpre Hq.
  destruct (q =? ""); [discriminate|].
  destruct (path =? ""); [inversion Hrm; subst; auto|].
  destruct (update (root f) (elems path) (clock f) EINVAL _) as [e|r] eqn:Hu.
  - destruct e; inversion Hrm; subst; auto.
  - inversion Hrm; subst. cbn [with_root root itab]. split; [|reflexivity].
    exact (update_del_frame _ _ _ _ _ _ _ Hpre Hq Hu).
Qed.

End MoreFs.

(* ================================================================== *)
(** ** The claims *)
(* ================================================================== *)

Section Claims.
Import FS Os Swb Paths Page Template Scenario.

(** [build] goes on with what [clean] left, whatever [clean] returned. *)
Lemma build_after_clean
      (Environ : list string)
      (Run : FS.filesys -> list string -> list string -> Exec.finished)
      (depth : nat) (config : Config) (site : Site)
      (w w1 : world) (err : option error) :
  clean depth config site w = Done err w1 ->
  build Environ Run depth config site w =
  WalkDir depth (SrcRoot site) (build_fn Environ Run config site) w1.
Proof. intros H. unfold build, bind. now rewrite H. Qed.

(** C1.  [clean] returns an error when the destination root does not
    exist; [build] drops it, walks the source tree, links the picture and
    returns nil, and [main] goes on. *)
Theorem build_drops_the_error_of_clean :
  clean 5 config0 site0 no_dst_root =
    Done (Some (PathError "lstat" "dst" ENOENT)) no_dst_root
  /\ exists w',
       build Environ0 show_argv 5 config0 site0 no_dst_root = Done None w'
       /\ out w' = [(" + dst/a/p.png" ++ nl)%string]
       /\ main Environ0 show_argv 5 config0 no_dst_root = Done None w'.
Proof.
  split; [reflexivity|].
  eexists. split; [vm_compute; reflexivity|].
  split; reflexivity.
Qed.

(** An error of [os.Stat] on the mapped destination path that is not
    [ErrNotExist] is passed over: the callback does nothing and returns
    nil. *)
Lemma build_fn_passes_over_stat_error
      (Environ : list string)
      (Run : FS.filesys -> list string -> list string -> Exec.finished)
      (config : Config) (site : Site) (path : string) (d : DirEntry)
      (info srcInfo : FileInfo) (w : world) (e : errno) :
  (path =? SrcRoot site) = false ->
  Info d w = Done (Some info, None) w ->
  IsDir info = false ->
  stat (fs w) path = inr srcInfo ->
  Filepath.Ext (mapped_dest site path) = Ext (Builder_ config) ->
  stat (fs w) (mapped_page site path) = inl e ->
  e <> ENOENT ->
  build_fn Environ Run config site path (Some d) None w = Done None w.
Proof.
  intros Hpath Hinfo Hfile Hstat Hext He Hne.
  rewrite (build_fn_content Environ Run config site path d info srcInfo w
             Hpath Hinfo Hfile Hstat Hext), He.
  destruct e; try reflexivity. contradiction.
Qed.

(** An error of [os.WriteFile] is dropped: [buildPage] returns nil and the
    file system is as it was. *)
Lemma buildPage_drops_write_error
      (Environ : list string)
      (Run : FS.filesys -> list string -> list string -> Exec.finished)
      (config : Config) (site : Site) (srcPath dstPath tpl : string)
      (w : world) (e : errno) :
  RunCmd config <> [] ->
  readfile (fs w) (TplPath site) = inr tpl ->
  writefile (fs w) dstPath
    (render Environ Run config site srcPath dstPath (fs w) (Regexp.matches re tpl))
    = inl e ->
  exists w',
    buildPage Environ Run config site srcPath dstPath w = Done None w'
    /\ fs w' = fs w.
Proof.
  intros Hcmd Hread Hwrite.
  rewrite (buildPage_eq Environ Run config site srcPath dstPath Hcmd tpl w Hread),
    Hwrite.
  eexists. split; reflexivity.
Qed.

(** C2.  Two I/O errors the build walk passes over: the mapped
    destination path cannot be examined ([ENOTDIR], the destination root
    is a file), and the page cannot be written ([EISDIR], a directory is
    in its place).  [build] returns nil both times. *)
Theorem build_passes_over_io_errors :
  (stat (fs dst_is_file) (mapped_page site0 "src/a.md") = inl ENOTDIR
   /\ build Environ0 show_argv 5 config0 site0 dst_is_file = Done None dst_is_file)
  /\ (exists line,
        buildPage Environ0 show_argv config0 site0 "src/a.md" "dst/a.html" page_is_dir
        = Done None (World (fs page_is_dir) [line])
        /\ (forall data, writefile (fs page_is_dir) "dst/a.html" data = inl EISDIR)
        /\ build Environ0 show_argv 5 config0 site0 page_is_dir
           = Done None (World (fs page_is_dir) [line; (" ^ dst/a.html" ++ nl)%string])).
Proof.
  split; [split; reflexivity|].
  eexists. split; [vm_compute; reflexivity|].
  split; [intros data; reflexivity | reflexivity].
Qed.

Lemma last_cons {A : Type} (l : list A) (a d : A) : last (a :: l) d = last l a.
Proof.
  revert a d. induction l as [|b l IH]; intros a d; [reflexivity|].
  change (last (a :: b :: l) d) with (last (b :: l) d).
  now rewrite (IH b d), (IH b a).
Qed.

(** The argument vector of the child: the first word of the run command,
    its last word, the body. *)
Lemma spawned_argv_shape (config : Config) (c0 body : string) (cs : list string) :
  RunCmd config = c0 :: cs ->
  spawned_argv config body = [c0; last cs c0; body].
Proof.
  intros H. unfold spawned_argv. rewrite H. cbn [hd List.length app].
  replace (S (List.length cs) - 1) with (List.length cs) by lia. f_equal.
  clear H. revert c0. induction cs as [|c1 cs IH]; intros c0; [reflexivity|].
  cbn [List.length skipn app]. rewrite (IH c1).
  now rewrite <- (last_cons cs c1 c0).
Qed.

(** It is the run command followed by the body when the run command has
    two words. *)
Lemma spawned_argv_two_words (config : Config) (c0 c1 body : string) :
  RunCmd config = [c0; c1] ->
  spawned_argv config body = RunCmd config ++ [body].
Proof. intros H. rewrite (spawned_argv_shape config c0 body [c1] H), H. reflexivity. Qed.

(** C3.  With the run command [env bash -c], the child for a block gets
    the argument vector [env -c body]: the word [bash] is lost. *)
Theorem three_word_run_command_loses_a_word
        (Environ : list string)
        (Run : FS.filesys -> list string -> list string -> Exec.finished)
        (w : world) :
  RunCmd config3 = ["env"; "bash"; "-c"]
  /\ Regexp.FindStringSubmatch re block0 = [block0; body0]
  /\ exists w',
       expand_block Environ Run config3 site0 "src/a.md" "dst/a.html" block0 w =
       Done (match Run (fs w) ["env"; "-c"; body0]
                       (spawned_env Environ config3 site0 "src/a.md" "dst/a.html") with
             | Exec.Exited stdout => stdout
             | Exec.Failed err => err
             end) w'.
Proof.
  split; [reflexivity|]. split; [reflexivity|].
  rewrite (expand_block_eq Environ Run config3 site0 "src/a.md" "dst/a.html"
             ltac:(discriminate) block0 w).
  eexists. reflexivity.
Qed.

(** The decision of [clean]'s callback, once the walk hands it an entry
    of the destination tree that is not a directory: the entry is deleted
    if and only if its mapped source path (with [.html] replaced by the
    extension of the content files for an entry in [.html]) does not
    exist, or the entry is not in [.html] and its inode differs from the
    inode of the mapped source file.  A built document whose mapped
    source exists is left alone whatever its inode. *)
Lemma clean_deletes_file_iff
        (config : Config) (site : Site) (path : string) (d : DirEntry)
        (dstInfo : FileInfo) (w : world) :
  is_dir (root (fs w)) = true ->
  (path =? DstRoot site) = false ->
  Info d w = Done (Some dstInfo, None) w ->
  stat (fs w) path = inr dstInfo ->
  IsDir dstInfo = false ->
  (deleted_by (clean_fn config site path (Some d) None w) path
   <-> (stat (fs w) (mapped_source config site path) = inl ENOENT
        \/ (Filepath.Ext path <> ".html"
            /\ exists srcInfo s t,
                 stat (fs w) (mapped_source config site path) = inr srcInfo
                 /\ Sys srcInfo = Some s /\ Sys dstInfo = Some t
                 /\ Ino s <> Ino t)))
  /\ (Filepath.Ext path = ".html" ->
      (exists srcInfo, stat (fs w) (mapped_source config site path) = inr srcInfo) ->
      clean_fn config site path (Some d) None w = Done None w).
Proof.
  intros Hroot Hpath Hinfo Hstat Hfile.
  destruct (stat_file_resolve _ _ _ Hstat Hfile) as [i [Hres Hsys]].
  destruct (removeall_gone _ _ _ Hroot Hres) as [f' [Hrm Hgone]].
  rewrite (clean_fn_file config site path d dstInfo w Hpath Hinfo Hfile).
  unfold removed. rewrite Hrm.
  destruct (stat (fs w) (mapped_source config site path)) as [e|srcInfo] eqn:Hsrc.
  - assert (Hkeep : e <> ENOENT ->
              ~ deleted_by (if Filepath.Ext path =? ".html"
                            then Done (@None error) w
                            else Panicked NilDereference w) path).
    { intros _. destruct (Filepath.Ext path =? ".html"); cbn; [|tauto].
      rewrite Hstat. discriminate. }
    split.
    + destruct e; cbn [deleted_by fs];
        try (split; [intros H; exfalso; revert H; apply Hkeep; discriminate
                    | intros [H|[_ [? [? [? [H _]]]]]]; discriminate]).
      split; auto.
    + intros _ [? H]. discriminate.
  - destruct (stat_sys _ _ _ Hsrc) as [s Hs]. rewrite Hs, Hsys.
    destruct (String.eqb_spec (Filepath.Ext path) ".html") as [Hext|Hext];
      cbn [negb andb].
    + split; [|reflexivity]. cbn. rewrite Hstat. split; [discriminate|].
      intros [H|[H _]]; [discriminate | contradiction].
    + cbn [Ino]. destruct (Nat.eqb_spec (Ino s) i) as [Heq|Hneq]; cbn.
      * split; [|contradiction]. rewrite Hstat. split; [discriminate|].
        intros [H|[_ [x [s' [t [H1 [H2 [H3 H4]]]]]]]]; [discriminate|].
        inversion H1; subst x. rewrite Hs in H2. inversion H2; subst s'.
        inversion H3; subst t. simpl in H4. contradiction.
      * split; [|contradiction]. split; auto.
        intros _. right. split; auto.
        exists srcInfo, s, (MkStat i). repeat split; auto.
Qed.

Lemma clean_deletes_file_iff_witness :
  deleted_by (clean_fn config0 site0 "dst/b.png" (Some (entry "dst" "b.png" false))
                None copied_picture) "dst/b.png".
Proof.
  apply (clean_deletes_file_iff config0 site0 "dst/b.png" (entry "dst" "b.png" false)
           (MkFileInfo false 5 (Some (MkStat 11))) copied_picture);
    try reflexivity.
  right. split; [discriminate|].
  exists (MkFileInfo false 5 (Some (MkStat 10))), (MkStat 10), (MkStat 11).
  repeat split; try reflexivity. discriminate.
Defined.

(** The walk of [clean] at a directory that has no counterpart in the
    source tree, with the state it leaves: the directory removed, one
    line printed, and the error of reading the directory returned. *)
Lemma walkDir_removes_and_stops
      (fuel : nat) (config : Config) (site : Site) (path : string) (d : DirEntry)
      (dstInfo : FileInfo) (n : node) (w : world) :
  (path =? DstRoot site) = false ->
  de_isdir d = true ->
  Info d w = Done (Some dstInfo, None) w ->
  IsDir dstInfo = true ->
  elems path <> [] ->
  resolve (fs w) path = inr n ->
  stat (fs w) (mapped_source_dir site path) = inl ENOENT ->
  exists f',
    removeall (fs w) path = inr f'
    /\ walkDir (S fuel) path d (clean_fn config site) w =
       Done (Some (PathError "open" path ENOENT))
            (World f' (out w ++ [(" - " ++ path ++ "/*" ++ nl)%string])).
Proof.
  intros Hpath Hd Hinfo Hdir Hp Hres Hsrc.
  destruct (removeall_gone_entry _ _ _ Hp Hres) as [f' [Hrm [Hgone Hread]]].
  exists f'. split; [exact Hrm|].
  cbn [walkDir]. unfold bind at 1.
  rewrite (clean_fn_dir config site path d dstInfo w Hpath Hinfo Hdir), Hsrc.
  unfold removed. rewrite Hrm, Hd. cbn [is_nil negb orb].
  unfold bind at 1. unfold ReadDir. cbn [fs]. rewrite Hread.
  unfold bind at 1. unfold clean_fn at 1. cbn [is_nil negb ret].
  cbn [is_skip_dir andb ret]. reflexivity.
Qed.

(** One step of [filepath.walkDir]. *)
Lemma walkDir_step (fuel : nat) (path : string) (d : DirEntry) (fn : WalkDirFunc) :
  walkDir (S fuel) path d fn =
  (err <- fn path (Some d) None ;;
   if negb (is_nil err) || negb (de_isdir d) then
     match err with
     | Some SkipDir => if de_isdir d then ret None else ret err
     | _ => ret err
     end
   else
     '(dirs, rerr) <- ReadDir path ;;
     err2 <- (match rerr with
              | Some e => fn path (Some d) (Some e)
              | None => ret None
              end) ;;
     match err2 with
     | Some e2 => if is_skip_dir e2 && de_isdir d then ret None else ret (Some e2)
     | None =>
         (fix each (ds : list DirEntry) : M (option error) :=
            match ds with
            | [] => ret None
            | d1 :: ds' =>
                err1 <- walkDir fuel (Filepath.Join path (de_name d1)) d1 fn ;;
                match err1 with
                | Some SkipDir => ret None
                | Some e1 => ret (Some e1)
                | None => each ds'
                end
            end) dirs
     end).
Proof. reflexivity. Qed.

(** C4.  At the level of the walk the claim fails on the code.  When the
    first entry of the destination root is a directory that has no
    counterpart in the source tree, [clean] removes it, is handed the
    error of reading it and stops with that error: no other entry is
    visited, and every regular file of the destination tree outside that
    directory is still there, also one whose mapped source path does not
    exist. *)
Theorem clean_stops_before_files_without_source
        (depth : nat) (config : Config) (site : Site) (w : world)
        (name : string) (rest : list (string * bool))
        (rootInfo dirInfo : FileInfo) (n : node)
        (q : string) (info : FileInfo) :
  let path := Filepath.Join (DstRoot site) name in
  stat (fs w) (DstRoot site) = inr rootInfo ->
  IsDir rootInfo = true ->
  readdir (fs w) (DstRoot site) = inr ((name, true) :: rest) ->
  (path =? DstRoot site) = false ->
  stat (fs w) (DstRoot site ++ "/" ++ name) = inr dirInfo ->
  IsDir dirInfo = true ->
  elems path <> [] ->
  resolve (fs w) path = inr n ->
  stat (fs w) (mapped_source_dir site path) = inl ENOENT ->
  stat (fs w) q = inr info ->
  IsDir info = false ->
  More.is_prefix (elems path) (elems q) = false ->
  stat (fs w) (mapped_source config site q) = inl ENOENT ->
  exists w',
    clean (S (S depth)) config site w = Done (Some (PathError "open" path ENOENT)) w'
    /\ out w' = out w ++ [(" - " ++ path ++ "/*" ++ nl)%string]
    /\ stat (fs w') q = inr info
    /\ readfile (fs w') q = readfile (fs w) q.
Proof.
  intros path Hroot Hrdir Hread Hpath Hdir Hisdir Hp Hres Hsrc Hq Hfile Hpre Hmiss.
  destruct (walkDir_removes_and_stops depth config site path
              (MkDirEntry name true (DstRoot site) None) dirInfo n w
              Hpath eq_refl) as [f' [Hrm Hwalk]]; auto.
  { unfold Info. cbn [de_info de_parent de_name]. unfold Lstat. now rewrite Hdir. }
  exists (World f' (out w ++ [(" - " ++ path ++ "/*" ++ nl)%string])).
  split.
  - unfold clean, WalkDir. unfold bind at 1. unfold Lstat. rewrite Hroot.
    cbn [lift_err]. unfold bind at 1. rewrite walkDir_step. unfold bind at 1.
    unfold clean_fn at 1. cbn [is_nil negb]. rewrite String.eqb_refl.
    cbn [ret is_nil negb de_isdir orb]. rewrite Hrdir. cbn [negb orb].
    unfold bind at 1. unfold ReadDir. rewrite Hread. cbn [map fst snd].
    unfold bind at 1. cbn [ret]. unfold bind at 1. cbn [de_name].
    fold path. rewrite Hwalk. reflexivity.
  - cbn [fs out]. split; [reflexivity|].
    destruct (stat_file_resolve _ _ _ Hq Hfile) as [i [Hresq _]].
    destruct (removeall_frame _ _ _ _ _ Hrm Hpre Hresq) as [Hres' Htab].
    unfold stat, readfile in *. rewrite Hres'. rewrite Hresq in *.
    cbn [info_of] in *. rewrite Htab. auto.
Qed.

Lemma clean_stops_before_files_without_source_witness :
  exists w',
    clean 2 config0 site0 stale_dir_and_file
      = Done (Some (PathError "open" "dst/old" ENOENT)) w'
    /\ stat (fs stale_dir_and_file) (mapped_source config0 site0 "dst/z.png")
       = inl ENOENT
    /\ stat (fs w') "dst/z.png" = inr (MkFileInfo false 1 (Some (MkStat 12))).
Proof.
  destruct (clean_stops_before_files_without_source 0 config0 site0 stale_dir_and_file
              "old" [("z.png", false)]
              (MkFileInfo true 0 (Some (MkStat 3))) (MkFileInfo true 0 (Some (MkStat 5)))
              (Dir 5 0 [("k.png", File 11)])
              "dst/z.png" (MkFileInfo false 1 (Some (MkStat 12)))
              eq_refl eq_refl eq_refl eq_refl eq_refl eq_refl
              ltac:(discriminate) eq_refl eq_refl eq_refl eq_refl eq_refl eq_refl)
    as [w' [Hc [_ [Hs _]]]].
  exists w'. split; [exact Hc|]. split; [reflexivity | exact Hs].
Defined.

(** The decision of [build]'s callback, once the walk hands it a file
    whose mapped destination path has the extension of the content
    files: it runs [buildPage] for the page path (the extension replaced
    by [.html]) if and only if [os.Stat] reports that path missing or the
    source file was modified strictly after it, and then, the template
    read and the run command not empty, writes the expanded page there
    when the write succeeds and returns nil; otherwise it does
    nothing. *)
Lemma build_content_file_iff_stale
        (Environ : list string)
        (Run : FS.filesys -> list string -> list string -> Exec.finished)
        (config : Config) (site : Site) (path : string) (d : DirEntry)
        (info srcInfo : FileInfo) (w : world) :
  (path =? SrcRoot site) = false ->
  Info d w = Done (Some info, None) w ->
  IsDir info = false ->
  stat (fs w) path = inr srcInfo ->
  Filepath.Ext (mapped_dest site path) = Ext (Builder_ config) ->
  let stale :=
    stat (fs w) (mapped_page site path) = inl ENOENT
    \/ exists dstInfo, stat (fs w) (mapped_page site path) = inr dstInfo
                       /\ (ModTime dstInfo < ModTime srcInfo)%Z in
  (stale ->
   exists mark,
     build_fn Environ Run config site path (Some d) None w =
     build_page_and_report Environ Run config site path w mark)
  /\ (stale -> RunCmd config <> [] ->
      forall tpl, readfile (fs w) (TplPath site) = inr tpl ->
      exists w',
        build_fn Environ Run config site path (Some d) None w = Done None w'
        /\ fs w' =
           match writefile (fs w) (mapped_page site path)
                   (render Environ Run config site path (mapped_page site path)
                      (fs w) (Regexp.matches re tpl)) with
           | inr f' => f'
           | inl _ => fs w
           end)
  /\ (~ stale ->
      build_fn Environ Run config site path (Some d) None w = Done None w).
Proof.
  intros Hpath Hinfo Hfile Hstat Hext stale.
  rewrite (build_fn_content Environ Run config site path d info srcInfo w
             Hpath Hinfo Hfile Hstat Hext).
  assert (Hwrite : forall mark, RunCmd config <> [] ->
            forall tpl, readfile (fs w) (TplPath site) = inr tpl ->
            exists w',
              build_page_and_report Environ Run config site path w mark = Done None w'
              /\ fs w' =
                 match writefile (fs w) (mapped_page site path)
                         (render Environ Run config site path (mapped_page site path)
                            (fs w) (Regexp.matches re tpl)) with
                 | inr f' => f'
                 | inl _ => fs w
                 end).
  { intros mark Hcmd tpl Hread. unfold build_page_and_report.
    unfold bind at 1.
    rewrite (buildPage_eq Environ Run config site path (mapped_page site path)
               Hcmd tpl w Hread).
    cbn. eexists. split; reflexivity. }
  subst stale.
  destruct (stat (fs w) (mapped_page site path)) as [e|dstInfo].
  - split; [|split].
    + intros [H|[x [H _]]]; [|discriminate].
      inversion H; subst. now exists " + ".
    + intros [H|[x [H _]]]; [|discriminate].
      inversion H; subst. apply Hwrite.
    + intros H. destruct e; try reflexivity. exfalso. apply H. now left.
  - unfold After. destruct (Z.ltb_spec (ModTime dstInfo) (ModTime srcInfo)) as [Hlt|Hge].
    + split; [intros _; now exists " ^ " |].
      split; [intros _; apply Hwrite |].
      intros H. exfalso. apply H. right. now exists dstInfo.
    + split; [|split; [|reflexivity]].
      * intros [H|[x [H Hlt]]]; [discriminate|].
        inversion H; subst. lia.
      * intros [H|[x [H Hlt]]]; [discriminate|].
        inversion H; subst. lia.
Qed.

Lemma build_content_file_iff_stale_witness :
  exists mark,
    build_fn Environ0 show_argv config0 site0 "src/a.md"
      (Some (entry "src" "a.md" false)) None new_page =
    build_page_and_report Environ0 show_argv config0 site0 "src/a.md" new_page mark.
Proof.
  apply (build_content_file_iff_stale Environ0 show_argv config0 site0 "src/a.md"
           (entry "src" "a.md" false)
           (MkFileInfo false 5 (Some (MkStat 10)))
           (MkFileInfo false 5 (Some (MkStat 10))) new_page);
    try reflexivity.
  left. reflexivity.
Defined.

(** When the page is built and the write succeeds, the page read back
    is the expansion of the template. *)
Lemma build_content_file_page_read_back
      (Environ : list string)
      (Run : FS.filesys -> list string -> list string -> Exec.finished)
      (config : Config) (site : Site) (path : string) (d : DirEntry)
      (info srcInfo : FileInfo) (w : world) (tpl : string) (f' : filesys) :
  (path =? SrcRoot site) = false ->
  Info d w = Done (Some info, None) w ->
  IsDir info = false ->
  stat (fs w) path = inr srcInfo ->
  Filepath.Ext (mapped_dest site path) = Ext (Builder_ config) ->
  (stat (fs w) (mapped_page site path) = inl ENOENT
   \/ exists dstInfo, stat (fs w) (mapped_page site path) = inr dstInfo
                      /\ (ModTime dstInfo < ModTime srcInfo)%Z) ->
  RunCmd config <> [] ->
  readfile (fs w) (TplPath site) = inr tpl ->
  writefile (fs w) (mapped_page site path)
    (render Environ Run config site path (mapped_page site path) (fs w)
       (Regexp.matches re tpl)) = inr f' ->
  exists w',
    build_fn Environ Run config site path (Some d) None w = Done None w'
    /\ fs w' = f'
    /\ readfile (fs w') (mapped_page site path) =
       inr (render Environ Run config site path (mapped_page site path) (fs w)
              (Regexp.matches re tpl)).
Proof.
  intros Hpath Hinfo Hfile Hstat Hext Hstale Hcmd Hread Hwrite.
  destruct (build_content_file_iff_stale Environ Run config site path d info srcInfo w
              Hpath Hinfo Hfile Hstat Hext) as [_ [H _]].
  destruct (H Hstale Hcmd tpl Hread) as [w' [Hb Hfs]].
  exists w'. rewrite Hwrite in Hfs. split; [exact Hb|]. split; [exact Hfs|].
  rewrite Hfs. exact (writefile_readfile _ _ _ _ Hwrite).
Qed.

(** C5.  As stated the claim fails on the code.  Under the source root
    [.] the walk hands the callback the content file [.md] under the
    path [.md]; the mapped path is [out/md], the callback reads the
    extension off the mapped path, finds none and hard-links the file
    as a resource.  Its neighbour [a.md] goes to the template, which is
    missing here, and the run ends there.  No page is written for
    [.md], whose page path does not exist. *)
Theorem content_file_is_linked_not_built
        (Environ : list string)
        (Run : FS.filesys -> list string -> list string -> Exec.finished)
        (depth : nat) :
  Filepath.Ext ".md" = Ext (Builder_ config_dot)
  /\ stat (fs dot_root) "out/.html" = inl ENOENT
  /\ exists w',
       build Environ Run (S (S depth)) config_dot site_dot dot_root
       = Done (Some (PathError "open" "tpl" ENOENT)) w'
       /\ out w' = [(" + out/md" ++ nl)%string]
       /\ stat (fs w') "out/md" = inr (MkFileInfo false 5 (Some (MkStat 10)))
       /\ readfile (fs w') "out/md" = inr "# hidden"
       /\ readdir (fs w') "out" = inr [("md", false)].
Proof.
  split; [reflexivity|]. split; [reflexivity|].
  eexists. split; [vm_compute; reflexivity|].
  repeat split.
Qed.

(** C6 as stated fails: a block whose closing marker has white space
    before it is not recognised. *)
Lemma indented_closing_marker_not_recognised :
  ~ spec_block_recognised "%{" ("echo hi" ++ nl)%string "  }%".
Proof.
  intros H. destruct (H eq_refl eq_refl) as [m Hm].
  vm_compute in Hm.
  repeat (destruct Hm as [Hm|Hm]; [discriminate Hm|]).
  exact Hm.
Qed.

(** C6, amended.  Where a line starts, white space followed by [%{], a
    body that ends with a newline and has no line beginning with [}%],
    and [}%] at the first column of the next line make a match: the
    replacement function receives the block (white space and markers
    included), the search resumes after the closing marker, and the
    group is the body, from just after [%{]. *)
Theorem block_recognised (ws body post : string) (n : nat) (p : option ascii)
        (after_hit : bool) :
  all_space ws = true ->
  ends_line body = true ->
  closes_inside body = false ->
  line_start p = true ->
  let block := (ws ++ "%{" ++ body ++ "}%")%string in
  Regexp.pieces re n p (block ++ post) 0 after_hit =
    Regexp.Hit block ::
    Regexp.pieces re (n + String.length block) (Some "%"%char) post 0 true
  /\ Regexp.FindStringSubmatch re block = [block; body].
Proof.
  intros Hws Hend Hin Hp block. split.
  - assert (Hm := match_at_block ws body post n p Hws Hend Hin Hp).
    assert (Hlast : last_before p block = Some "%"%char).
    { unfold block. rewrite !last_before_append. reflexivity. }
    rewrite <- Hlast.
    replace (ws ++ "%{" ++ body ++ "}%" ++ post)%string
      with (block ++ post)%string in Hm
      by (unfold block; rewrite !append_assoc; reflexivity).
    fold block in Hm.
    destruct block as [|c m] eqn:Hb.
    + destruct ws; discriminate.
    + eapply pieces_hit. exact Hm.
  - assert (Hm := match_at_block ws body "" 0 None Hws Hend Hin eq_refl).
    change ("}%" ++ "")%string with "}%" in Hm.
    unfold Regexp.FindStringSubmatch. subst block.
    rewrite (find_from_here _ _ _ _ _ _ Hm).
    cbn [Regexp.num_groups re Nat.max seq map Regexp.capture Nat.eqb Nat.add].
    f_equal.
    + pose proof (slice_front (ws ++ "%{" ++ body ++ "}%") "") as E.
      now rewrite append_nil_r in E.
    + f_equal.
      pose proof (slice_middle (ws ++ "%{") body "}%") as E.
      rewrite <- length_append in E.
      now rewrite !append_assoc in E.
Qed.

Lemma block_recognised_witness :
  Regexp.matches re ("  %{ echo hi" ++ nl ++ "}% tail")%string =
    [Regexp.Hit ("  %{ echo hi" ++ nl ++ "}%")%string;
     Regexp.Copy " "; Regexp.Copy "t"; Regexp.Copy "a"; Regexp.Copy "i"; Regexp.Copy "l"]
  /\ Regexp.FindStringSubmatch re ("  %{ echo hi" ++ nl ++ "}%")%string =
     [("  %{ echo hi" ++ nl ++ "}%")%string; (" echo hi" ++ nl)%string].
Proof.
  destruct (block_recognised "  " (" echo hi" ++ nl)%string " tail" 0 None false
              eq_refl eq_refl eq_refl eq_refl) as [Hp Hf].
  split; [|exact Hf].
  unfold Regexp.matches.
  etransitivity; [exact Hp|]. reflexivity.
Defined.

(** C7.  With the template read and a run command that is not empty: a
    block whose command fails is replaced by the text of the error, the
    expansion yields the whole page, every other block replaced by what
    its command printed, [buildPage] returns no error and the page is
    what it writes to the destination path. *)
Theorem failing_block_does_not_abort_page
        (Environ : list string)
        (Run : FS.filesys -> list string -> list string -> Exec.finished)
        (config : Config) (site : Site) (srcPath dstPath tpl : string) (w : world) :
  RunCmd config <> [] ->
  readfile (fs w) (TplPath site) = inr tpl ->
  let page := render Environ Run config site srcPath dstPath (fs w)
                (Regexp.matches re tpl) in
  (forall (m whole body e : string) (rest : list string) (w0 : world),
      Regexp.FindStringSubmatch re m = whole :: body :: rest ->
      Run (fs w0) (spawned_argv config body)
          (spawned_env Environ config site srcPath dstPath) = Exec.Failed e ->
      block_text Environ Run config site srcPath dstPath (fs w0) m = e
      /\ exists w1,
           expand_block Environ Run config site srcPath dstPath m w0 = Done e w1
           /\ fs w1 = fs w0)
  /\ (exists w',
        ReplaceAllStringFunc re tpl
          (expand_block Environ Run config site srcPath dstPath) w = Done page w'
        /\ fs w' = fs w)
  /\ (exists w',
        buildPage Environ Run config site srcPath dstPath w = Done None w'
        /\ fs w' = match writefile (fs w) dstPath page with
                   | inr f' => f'
                   | inl _ => fs w
                   end
        /\ (forall f', writefile (fs w) dstPath page = inr f' ->
                       readfile (fs w') dstPath = inr page)).
Proof.
  intros Hcmd Hread page. split; [|split].
  - intros m whole body e rest w0 Hm Hfail.
    assert (Ht : block_text Environ Run config site srcPath dstPath (fs w0) m = e).
    { unfold block_text. now rewrite Hm, Hfail. }
    split; [exact Ht|].
    rewrite (expand_block_eq Environ Run config site srcPath dstPath Hcmd m w0), Ht.
    eexists; split; reflexivity.
  - unfold ReplaceAllStringFunc.
    rewrite (replace_pieces_eq Environ Run config site srcPath dstPath Hcmd).
    eexists; split; reflexivity.
  - rewrite (buildPage_eq Environ Run config site srcPath dstPath Hcmd tpl w Hread).
    fold page. eexists; split; [reflexivity|]. cbn [fs]. split; [reflexivity|].
    intros f' Hw. rewrite Hw. exact (writefile_readfile _ _ _ _ Hw).
Qed.

Lemma failing_block_does_not_abort_page_witness :
  exists w',
    buildPage Environ0 fails config0 site0 "src/a.md" "dst/a.html" new_page
    = Done None w'
    /\ readfile (fs w') "dst/a.html"
       = inr ("<h1>" ++ nl ++ "exit status 1" ++ nl ++ "</h1>" ++ nl)%string.
Proof.
  destruct (failing_block_does_not_abort_page Environ0 fails config0 site0
              "src/a.md" "dst/a.html" template0 new_page
              ltac:(discriminate) eq_refl) as [_ [_ [w' [Hb [_ Hr]]]]].
  exists w'. split; [exact Hb|].
  exact (Hr _ eq_refl).
Defined.

(** C8.  A page written by hand in the source tree is linked by the first
    run; the second run, with nothing changed, deletes the link and makes
    it again. *)
Theorem second_run_relinks_html_resource :
  exists w1 w2,
    build Environ0 show_argv 5 config0 site0 html_resource = Done None w1
    /\ out w1 = [(" + dst/x.html" ++ nl)%string]
    /\ build Environ0 show_argv 5 config0 site0 (World (fs w1) []) = Done None w2
    /\ out w2 = [(" - dst/x.html" ++ nl)%string; (" + dst/x.html" ++ nl)%string].
Proof.
  eexists. eexists.
  split; [vm_compute; reflexivity|].
  split; [reflexivity|].
  split; [vm_compute; reflexivity|].
  reflexivity.
Qed.

(** The walk of [clean] at a directory that has no counterpart in the
    source tree: the callback removes the directory, [os.ReadDir] then
    fails, the callback is handed the error and returns it. *)
Lemma walkDir_stops_at_removed_dir
      (fuel : nat) (config : Config) (site : Site) (path : string) (d : DirEntry)
      (dstInfo : FileInfo) (n : node) (w : world) :
  (path =? DstRoot site) = false ->
  de_isdir d = true ->
  Info d w = Done (Some dstInfo, None) w ->
  IsDir dstInfo = true ->
  elems path <> [] ->
  resolve (fs w) path = inr n ->
  stat (fs w) (mapped_source_dir site path) = inl ENOENT ->
  exists w',
    walkDir (S fuel) path d (clean_fn config site) w =
      Done (Some (PathError "open" path ENOENT)) w'
    /\ stat (fs w') path = inl ENOENT
    /\ out w' = out w ++ [(" - " ++ path ++ "/*" ++ nl)%string].
Proof.
  intros Hpath Hd Hinfo Hdir Hp Hres Hsrc.
  destruct (removeall_gone_entry _ _ _ Hp Hres) as [f' [Hrm [Hgone Hread]]].
  cbn [walkDir]. unfold bind at 1.
  rewrite (clean_fn_dir config site path d dstInfo w Hpath Hinfo Hdir), Hsrc.
  unfold removed. rewrite Hrm, Hd. cbn [is_nil negb orb].
  unfold bind at 1. unfold ReadDir. cbn [fs]. rewrite Hread.
  unfold bind at 1. unfold clean_fn at 1. cbn [is_nil negb ret].
  cbn [is_skip_dir andb ret].
  eexists. split; [reflexivity|]. cbn [fs out]. split; [exact Hgone | reflexivity].
Qed.

(** C9.  After removing the directory [dst/old], [clean] stops with the
    error of reading it; [dst/z.png], which has no source either, is
    still there. *)
Theorem clean_stops_after_removing_a_directory :
  exists w',
    clean 5 config0 site0 stale_dir_and_file =
      Done (Some (PathError "open" "dst/old" ENOENT)) w'
    /\ out w' = [(" - dst/old/*" ++ nl)%string]
    /\ stat (fs w') "dst/old" = inl ENOENT
    /\ stat (fs w') "dst/z.png" = inr (MkFileInfo false 1 (Some (MkStat 12)))
    /\ stat (fs w') (mapped_source config0 site0 "dst/z.png") = inl ENOENT.
Proof.
  eexists. split; [vm_compute; reflexivity|].
  repeat split.
Qed.

(** C10.  The callback of [clean] returns whenever the mapped source path
    can be examined or does not exist.  When [os.Stat] fails for another
    reason, the callback dereferences a nil pointer instead of returning
    the error: [srcStat.Ino] for an entry that is not a directory and not
    in [.html], [srcInfo.IsDir()] for a directory. *)
Theorem clean_nil_dereference
        (config : Config) (site : Site) (path : string) (d : DirEntry)
        (dstInfo : FileInfo) (w : world) :
  (path =? DstRoot site) = false ->
  Info d w = Done (Some dstInfo, None) w ->
  let src := if IsDir dstInfo then mapped_source_dir site path
             else mapped_source config site path in
  ((exists srcInfo, stat (fs w) src = inr srcInfo) \/ stat (fs w) src = inl ENOENT ->
   returns (clean_fn config site path (Some d) None w))
  /\ (forall e, stat (fs w) src = inl e -> e <> ENOENT ->
      IsDir dstInfo = true \/ Filepath.Ext path <> ".html" ->
      clean_fn config site path (Some d) None w = Panicked NilDereference w).
Proof.
  intros Hpath Hinfo src. subst src.
  destruct (IsDir dstInfo) eqn:Hdir.
  - rewrite (clean_fn_dir config site path d dstInfo w Hpath Hinfo Hdir).
    unfold removed. split.
    + intros [[srcInfo H]|H]; rewrite H; [destruct (IsDir srcInfo)|]; exact I.
    + intros e H Hne _. rewrite H. destruct e; try reflexivity. contradiction.
  - rewrite (clean_fn_file config site path d dstInfo w Hpath Hinfo Hdir).
    unfold removed. split.
    + intros [[srcInfo H]|H]; rewrite H; [|exact I].
      destruct (Sys srcInfo); [|exact I]. destruct (Sys dstInfo); [|exact I].
      destruct (_ && _); exact I.
    + intros e H Hne [Hd|Hext]; [discriminate|]. rewrite H.
      apply String.eqb_neq in Hext. rewrite Hext.
      destruct e; try reflexivity. contradiction.
Qed.

Lemma clean_nil_dereference_witness :
  clean_fn config0 site0 "dst/b.png" (Some (entry "dst" "b.png" false)) None
    src_is_file = Panicked NilDereference src_is_file
  /\ clean 5 config0 site0 src_is_file = Panicked NilDereference src_is_file.
Proof.
  split; [|reflexivity].
  apply (proj2 (clean_nil_dereference config0 site0 "dst/b.png"
                  (entry "dst" "b.png" false)
                  (MkFileInfo false 1 (Some (MkStat 11))) src_is_file
                  eq_refl eq_refl) ENOTDIR);
    [reflexivity | discriminate | right; discriminate].
Defined.

End Claims.

(* ================================================================== *)
(** ** Further properties of the program *)
(* ================================================================== *)


(* ================================================================== *)
(** ** Further properties: the reconciler *)
(* ================================================================== *)

Section MoreClean.
Import FS Os Swb Paths Page Template Scenario More.

(** X1.  During reconciliation a directory of the destination tree is
    removed, with all below it and one line printed, if and only if its
    mapped source path does not exist or is not a directory; a directory
    whose mapped source is a directory is left as it is. *)
Theorem clean_deletes_directory_iff
        (config : Config) (site : Site) (path : string) (d : DirEntry)
        (dstInfo : FileInfo) (n : node) (w : world) :
  (path =? DstRoot site) = false ->
  Info d w = Done (Some dstInfo, None) w ->
  IsDir dstInfo = true ->
  elems path <> [] ->
  resolve (fs w) path = inr n ->
  let gone :=
    stat (fs w) (mapped_source_dir site path) = inl ENOENT
    \/ exists srcInfo, stat (fs w) (mapped_source_dir site path) = inr srcInfo
                       /\ IsDir srcInfo = false in
  (deleted_by (clean_fn config site path (Some d) None w) path <-> gone)
  /\ (gone ->
      exists w',
        clean_fn config site path (Some d) None w = Done None w'
        /\ readdir (fs w') path = inl ENOENT
        /\ out w' = out w ++ [(" - " ++ path ++ "/*" ++ nl)%string])
  /\ (forall srcInfo,
        stat (fs w) (mapped_source_dir site path) = inr srcInfo ->
        IsDir srcInfo = true ->
        clean_fn config site path (Some d) None w = Done None w).
Proof.
  intros Hpath Hinfo Hdir Hp Hres gone. subst gone.
  destruct (removeall_gone_entry _ _ _ Hp Hres) as [f' [Hrm [Hgone Hread]]].
  assert (Hstill : stat (fs w) path <> inl ENOENT).
  { unfold stat. rewrite Hres. destruct n; simpl; [|discriminate].
    destruct (get_inode ino (itab (fs w))); discriminate. }
  rewrite (clean_fn_dir config site path d dstInfo w Hpath Hinfo Hdir).
  unfold removed. rewrite Hrm.
  destruct (stat (fs w) (mapped_source_dir site path)) as [e|srcInfo].
  - destruct e; cbn [deleted_by fs];
      try (split; [split; [contradiction | intros [H|[x [H _]]]; discriminate]
                  | split; [intros [H|[x [H _]]]; discriminate
                           | intros x H; discriminate]]).
    split; [split; auto|]. split; [|intros x H; discriminate].
    intros _. eexists. split; [reflexivity|]. cbn [fs out]. auto.
  - destruct (IsDir srcInfo) eqn:Hs; cbn [deleted_by fs].
    + split; [split; [contradiction|]|].
      * intros [H|[x [H Hx]]]; [discriminate|]. inversion H; subst. congruence.
      * split; [|reflexivity].
        intros [H|[x [H Hx]]]; [discriminate|]. inversion H; subst. congruence.
    + split; [split; [intros _; right; eauto | auto]|].
      split; [|intros x H Hx; inversion H; subst; congruence].
      intros _. eexists. split; [reflexivity|]. cbn [fs out]. auto.
Qed.

Lemma clean_deletes_directory_iff_witness :
  deleted_by (clean_fn config0 site0 "dst/old" (Some (entry "dst" "old" true))
                None stale_dir_and_file) "dst/old".
Proof.
  apply (clean_deletes_directory_iff config0 site0 "dst/old" (entry "dst" "old" true)
           (MkFileInfo true 0 (Some (MkStat 5))) (Dir 5 0 [("k.png", File 11)])
           stale_dir_and_file);
    try reflexivity; try discriminate.
  left. reflexivity.
Defined.

End MoreClean.

Section MoreCleanFrame.
Import FS Os Swb Paths Page Template Scenario More.

(** Whatever it is called with, the callback of [clean] leaves the world
    as it was or removes [path] and prints one line. *)
Lemma clean_fn_effect (config : Config) (site : Site) (path : string)
      (ent : option DirEntry) (err : option error) (w : world) :
  world_of (clean_fn config site path ent err w) = w
  \/ exists line,
       world_of (clean_fn config site path ent err w) =
       World (match removeall (fs w) path with inr f' => f' | inl _ => fs w end)
             (out w ++ [line]).
Proof.
  unfold clean_fn, Info.
  destruct err as [e|]; [left; reflexivity|]. cbn [is_nil negb].
  destruct (path =? DstRoot site); [left; reflexivity|].
  destruct ent as [d|]; [|left; reflexivity].
  go_unfold.
  destruct (de_info d) as [info|].
  - destruct (IsDir info).
    + destruct (stat (fs w) _) as [e|srcInfo].
      * destruct e; cbn; try (left; reflexivity).
        right. eexists. destruct (removeall (fs w) path); reflexivity.
      * cbn. destruct (IsDir srcInfo); cbn; [left; reflexivity|].
        right. eexists. destruct (removeall (fs w) path); reflexivity.
    + destruct (stat (fs w) _) as [e|srcInfo].
      * destruct e; cbn;
          try (destruct (Filepath.Ext path =? ".html"); left; reflexivity).
        right. eexists. destruct (removeall (fs w) path); reflexivity.
      * destruct (Sys srcInfo); [|left; reflexivity].
        destruct (Sys info); [|left; reflexivity].
        cbn. destruct (Filepath.Ext path =? ".html"); cbn; [left; reflexivity|].
        destruct (Nat.eqb _ _); cbn; [left; reflexivity|].
        right. eexists. destruct (removeall (fs w) path); reflexivity.
  - destruct (stat (fs w) (de_parent d ++ "/" ++ de_name d)) as [e|info];
      [left; reflexivity|].
    cbn. destruct (IsDir info).
    + destruct (stat (fs w) _) as [e|srcInfo].
      * destruct e; cbn; try (left; reflexivity).
        right. eexists. destruct (removeall (fs w) path); reflexivity.
      * cbn. destruct (IsDir srcInfo); cbn; [left; reflexivity|].
        right. eexists. destruct (removeall (fs w) path); reflexivity.
    + destruct (stat (fs w) _) as [e|srcInfo].
      * destruct e; cbn;
          try (destruct (Filepath.Ext path =? ".html"); left; reflexivity).
        right. eexists. destruct (removeall (fs w) path); reflexivity.
      * destruct (Sys srcInfo); [|left; reflexivity].
        destruct (Sys info); [|left; reflexivity].
        cbn. destruct (Filepath.Ext path =? ".html"); cbn; [left; reflexivity|].
        destruct (Nat.eqb _ _); cbn; [left; reflexivity|].
        right. eexists. destruct (removeall (fs w) path); reflexivity.
Qed.

(** X2.  Whatever it is called with and however it ends, the callback of
    [clean] touches nothing but the entry it is at: a regular file that is
    not at or below [path] is still there afterwards, with the same
    inode, modification time and content. *)
Theorem clean_fn_keeps_other_files
        (config : Config) (site : Site) (path : string)
        (ent : option DirEntry) (err : option error) (w : world)
        (q : string) (info : FileInfo) :
  stat (fs w) q = inr info ->
  IsDir info = false ->
  is_prefix (elems path) (elems q) = false ->
  let w' := world_of (clean_fn config site path ent err w) in
  stat (fs w') q = inr info /\ readfile (fs w') q = readfile (fs w) q.
Proof.
  intros Hstat Hfile Hpre w'. subst w'.
  destruct (stat_file_resolve _ _ _ Hstat Hfile) as [i [Hres _]].
  destruct (clean_fn_effect config site path ent err w) as [->|[line ->]];
    [auto|].
  cbn [fs].
  destruct (removeall (fs w) path) as [e|f'] eqn:Hrm; [auto|].
  destruct (removeall_frame _ _ _ _ _ Hrm Hpre Hres) as [Hres' Htab].
  unfold stat, readfile in *. rewrite Hres' in *. rewrite Hres in *.
  cbn [info_of] in *. rewrite Htab. auto.
Qed.

Lemma clean_fn_keeps_other_files_witness :
  stat (fs (world_of (clean_fn config0 site0 "dst/old"
                        (Some (entry "dst" "old" true)) None stale_dir_and_file)))
       "dst/z.png" = inr (MkFileInfo false 1 (Some (MkStat 12))).
Proof.
  apply (clean_fn_keeps_other_files config0 site0 "dst/old"
           (Some (entry "dst" "old" true)) None stale_dir_and_file "dst/z.png"
           (MkFileInfo false 1 (Some (MkStat 12))) eq_refl eq_refl eq_refl).
Defined.

End MoreCleanFrame.

Section MoreWalk.
Import FS Os Swb Paths Scenario More.

Variable P : world -> Prop.

Lemma keeps_bind {A B : Type} (m : M A) (k : A -> M B) :
  keeps P m -> (forall a, keeps P (k a)) -> keeps P (bind m k).
Proof.
  intros Hm Hk w Hw. unfold bind. specialize (Hm w Hw).
  destruct (m w) as [a w1|p w1|w1]; cbn in *; [apply Hk|..]; exact Hm.
Qed.

Lemma keeps_same {A : Type} (m : M A) :
  (forall w, world_of (m w) = w) -> keeps P m.
Proof. intros H w Hw. now rewrite H. Qed.

Lemma keeps_ret {A : Type} (a : A) : keeps P (ret a).
Proof. apply keeps_same. reflexivity. Qed.

Lemma keeps_ReadDir (name : string) : keeps P (ReadDir name).
Proof.
  apply keeps_same. intros w. unfold ReadDir.
  destruct (readdir (fs w) name); reflexivity.
Qed.

Lemma keeps_Lstat (name : string) : keeps P (Lstat name).
Proof. apply keeps_same. reflexivity. Qed.

(** [filepath.WalkDir] changes the world through its callback only. *)
Lemma keeps_walkDir (fn : WalkDirFunc) :
  (forall path ent err, keeps P (fn path ent err)) ->
  forall fuel path d, keeps P (walkDir fuel path d fn).
Proof.
  intros Hfn. induction fuel as [|fuel IH]; intros path d.
  - apply keeps_same. reflexivity.
  - cbn [walkDir]. apply keeps_bind; [apply Hfn|]. intros err.
    destruct (negb (is_nil err) || negb (de_isdir d)).
    + destruct err as [[]|]; try apply keeps_ret.
      destruct (de_isdir d); apply keeps_ret.
    + apply keeps_bind; [apply keeps_ReadDir|]. intros [dirs rerr].
      apply keeps_bind.
      * destruct rerr; [apply Hfn | apply keeps_ret].
      * intros [e2|].
        -- destruct (is_skip_dir e2 && de_isdir d); apply keeps_ret.
        -- induction dirs as [|d1 ds IHds]; [apply keeps_ret|].
           apply keeps_bind; [apply IH|].
           intros [[]|]; try apply keeps_ret. exact IHds.
Qed.

Lemma keeps_WalkDir (fn : WalkDirFunc) (fuel : nat) (root : string) :
  (forall path ent err, keeps P (fn path ent err)) ->
  keeps P (WalkDir fuel root fn).
Proof.
  intros Hfn. unfold WalkDir.
  apply keeps_bind; [apply keeps_Lstat|]. intros [info lerr].
  apply keeps_bind.
  - destruct info; [destruct lerr|]; try apply Hfn. now apply keeps_walkDir.
  - intros [[]|]; apply keeps_ret.
Qed.

End MoreWalk.

Section MoreCleanWalk.
Import FS Os Swb Paths Scenario More.

(** A file that is there after an entry was removed was there before. *)
Lemma update_del_back (now : Z) (e : errno) (i : nat) :
  forall (p q : list string) (n n' : node),
    update n p now e
      (fun name ents =>
         match get_ent name ents with
         | None => inl ENOENT
         | Some _ => inr (del_ent name ents)
         end) = inr n' ->
    walk n' q = inr (File i) ->
    walk n q = inr (File i).
Proof.
  induction p as [|name p IH]; intros q n n' Hu Hw; [discriminate|].
  destruct n as [j|j m ents]; [discriminate|].
  destruct p as [|name' p'].
  - cbn [update] in Hu. destruct (get_ent name ents); [|discriminate].
    inversion Hu; subst; clear Hu.
    destruct q as [|k q]; [discriminate|]. cbn [walk] in *.
    destruct (String.eqb_spec name k) as [->|Hne].
    + rewrite get_ent_del_same in Hw. discriminate.
    + rewrite get_ent_del_other in Hw by congruence. exact Hw.
  - rewrite update_deeper in Hu.
    destruct (get_ent name ents) as [child|] eqn:Hc; [|discriminate].
    destruct (update child (name' :: p') now e _) as [e'|child'] eqn:Hu';
      [discriminate|].
    inversion Hu; subst; clear Hu.
    destruct q as [|k q]; [discriminate|]. cbn [walk] in *.
    destruct (String.eqb_spec name k) as [->|Hne].
    + rewrite get_ent_set_same in Hw. rewrite Hc. exact (IH _ _ _ Hu' Hw).
    + rewrite get_ent_set_other in Hw by congruence. exact Hw.
Qed.

Lemma removeall_back (f f' : filesys) (path q : string) (i : nat) :
  removeall f path = inr f' ->
  resolve f' q = inr (File i) ->
  resolve f q = inr (File i).
Proof.
  unfold removeall, resolve. intros Hrm Hq.
  destruct (q =? ""); [discriminate|].
  destruct (path =? ""); [inversion Hrm; subst; auto|].
  destruct (update (root f) (elems path) (clock f) EINVAL _) as [e|r] eqn:Hu.
  - destruct e; inversion Hrm; subst; auto.
  - inversion Hrm; subst. cbn [with_root root] in Hq.
    exact (update_del_back _ _ _ _ _ _ _ Hu Hq).
Qed.

Lemma removeall_itab (f f' : filesys) (path : string) :
  removeall f path = inr f' -> itab f' = itab f.
Proof.
  unfold removeall. destruct (path =? ""); [now intros H; inversion H|].
  destruct (update (root f) (elems path) (clock f) EINVAL _) as [e|r].
  - destruct e; intros H; inversion H; reflexivity.
  - intros H; inversion H. reflexivity.
Qed.

(** X15.  [clean] only removes: whatever the trees hold and however the
    walk ends, with an error, a panic or in the middle, a regular file
    that is there afterwards was there before under the same name, with
    the same inode, modification time and content.  [clean] creates no
    file and changes none. *)
Theorem clean_only_removes
        (depth : nat) (config : Config) (site : Site) (w : world)
        (q : string) (info : FileInfo) :
  let w' := world_of (clean depth config site w) in
  stat (fs w') q = inr info ->
  IsDir info = false ->
  stat (fs w) q = inr info /\ readfile (fs w) q = readfile (fs w') q.
Proof.
  intros w'.
  set (P := fun w1 : world =>
              itab (fs w1) = itab (fs w)
              /\ forall q i, resolve (fs w1) q = inr (File i) ->
                             resolve (fs w) q = inr (File i)).
  assert (HP : P w').
  { apply (keeps_WalkDir P); [|split; auto].
    intros path ent err w1 [Ht Hr].
    destruct (clean_fn_effect config site path ent err w1) as [->|[line ->]];
      [split; auto|].
    unfold P. cbn [fs].
    destruct (removeall (fs w1) path) as [e|f'] eqn:Hrm; [split; auto|].
    split; [rewrite (removeall_itab _ _ _ Hrm); exact Ht|].
    intros q0 i Hq0. apply Hr. exact (removeall_back _ _ _ _ _ Hrm Hq0). }
  destruct HP as [Ht Hr]. intros Hstat Hfile.
  destruct (stat_file_resolve _ _ _ Hstat Hfile) as [i [Hres _]].
  specialize (Hr _ _ Hres).
  unfold stat, readfile in *. rewrite Hres in *. rewrite Hr.
  cbn [info_of] in *. rewrite <- Ht. auto.
Qed.

Lemma clean_only_removes_witness :
  stat (fs stale_dir_and_file) "tpl" = inr (MkFileInfo false 3 (Some (MkStat 9))).
Proof.
  apply (clean_only_removes 5 config0 site0 stale_dir_and_file "tpl"
           (MkFileInfo false 3 (Some (MkStat 9))) eq_refl eq_refl).
Defined.

End MoreCleanWalk.

Section MorePaths.
Local Open Scope string_scope.
Import Swb Paths.

Lemma substring_0_length (s : string) : substring 0 (String.length s) s = s.
Proof. induction s as [|c s IH]; cbn; [reflexivity | now rewrite IH]. Qed.

Lemma get_append_right (a b : string) (k : nat) :
  String.get (String.length a + k) (a ++ b) = String.get k b.
Proof. induction a as [|x a IH]; cbn; [reflexivity | exact IH]. Qed.

Lemma from_append (a b : string) : Strings.from (String.length a) (a ++ b) = b.
Proof.
  unfold Strings.from. rewrite length_append.
  replace (String.length a + String.length b - String.length a)
    with (String.length b) by lia.
  rewrite substring_skip_append. apply substring_0_length.
Qed.

Lemma upto_from (s : string) :
  forall i, i <= String.length s -> Strings.upto i s ++ Strings.from i s = s.
Proof.
  unfold Strings.upto, Strings.from.
  induction s as [|c s IH]; intros i Hi; cbn in Hi.
  - replace i with 0 by lia. reflexivity.
  - destruct i as [|i].
    + cbn [substring append String.length Nat.sub]. now rewrite substring_0_length.
    + cbn [substring append String.length Nat.sub]. f_equal. apply IH. lia.
Qed.

Lemma length_substring (s : string) :
  forall n m, n + m <= String.length s -> String.length (substring n m s) = m.
Proof.
  induction s as [|c s IH]; intros n m H; cbn in H.
  - replace n with 0 by lia. replace m with 0 by lia. reflexivity.
  - destruct n as [|n]; cbn.
    + destruct m as [|m]; [reflexivity|]. cbn. f_equal. apply IH. lia.
    + apply IH. lia.
Qed.

(** [s[i:]] is a suffix of [s], and cutting it off leaves [s[:i]]. *)
Lemma TrimSuffix_from (s : string) (i : nat) :
  i <= String.length s ->
  Strings.TrimSuffix s (Strings.from i s) = Strings.upto i s.
Proof.
  intros Hi. unfold Strings.TrimSuffix, Strings.HasSuffix.
  assert (Hl : String.length (Strings.from i s) = String.length s - i).
  { unfold Strings.from. apply length_substring. lia. }
  rewrite Hl.
  replace (String.length s - (String.length s - i)) with i by lia.
  rewrite String.eqb_refl.
  replace (String.length s - i <=? String.length s)%nat with true
    by (symmetry; apply Nat.leb_le; lia).
  reflexivity.
Qed.

(** The extension is empty or the text from one of the bytes. *)
Lemma Ext_loop_from (s : string) :
  forall n, n <= String.length s ->
    Filepath.Ext_loop s n = "" \/ exists i, i < n /\ Filepath.Ext_loop s n = Strings.from i s.
Proof.
  induction n as [|n IH]; intros Hn; cbn [Filepath.Ext_loop]; [auto|].
  destruct (String.get n s) as [c|]; [|auto].
  destruct (Ascii.eqb c Filepath.Separator); [auto|].
  destruct (Ascii.eqb c "."%char).
  - right. exists n. split; [lia | reflexivity].
  - destruct IH as [H|[i [Hi H]]]; [lia | auto |].
    right. exists i. split; [lia | exact H].
Qed.

(** [strings.TrimSuffix(s, filepath.Ext(s)) + filepath.Ext(s)] is [s]. *)
Lemma TrimSuffix_Ext (s : string) :
  Strings.TrimSuffix s (Filepath.Ext s) ++ Filepath.Ext s = s.
Proof.
  unfold Filepath.Ext.
  destruct (Ext_loop_from s (String.length s) (le_n _)) as [->|[i [Hi ->]]].
  - rewrite append_nil_r. unfold Strings.TrimSuffix, Strings.HasSuffix.
    cbn [String.length]. rewrite Nat.sub_0_r. unfold Strings.upto.
    rewrite substring_0_length. now destruct (_ && _).
  - rewrite TrimSuffix_from by lia. apply upto_from. lia.
Qed.

Lemma Ext_html (x : string) : Filepath.Ext (x ++ ".html") = ".html".
Proof.
  unfold Filepath.Ext. rewrite length_append.
  change (String.length ".html") with 5.
  replace (String.length x + 5) with (S (String.length x + 4)) by lia.
  cbn [Filepath.Ext_loop]. rewrite get_append_right. cbn [String.get].
  change (Ascii.eqb "l" Filepath.Separator) with false.
  change (Ascii.eqb "l" ".") with false. cbv iota.
  replace (String.length x + 4) with (S (String.length x + 3)) by lia.
  cbn [Filepath.Ext_loop]. rewrite get_append_right. cbn [String.get].
  change (Ascii.eqb "m" Filepath.Separator) with false.
  change (Ascii.eqb "m" ".") with false. cbv iota.
  replace (String.length x + 3) with (S (String.length x + 2)) by lia.
  cbn [Filepath.Ext_loop]. rewrite get_append_right. cbn [String.get].
  change (Ascii.eqb "t" Filepath.Separator) with false.
  change (Ascii.eqb "t" ".") with false. cbv iota.
  replace (String.length x + 2) with (S (String.length x + 1)) by lia.
  cbn [Filepath.Ext_loop]. rewrite get_append_right. cbn [String.get].
  change (Ascii.eqb "h" Filepath.Separator) with false.
  change (Ascii.eqb "h" ".") with false. cbv iota.
  replace (String.length x + 1) with (S (String.length x + 0)) by lia.
  cbn [Filepath.Ext_loop]. rewrite get_append_right. cbn [String.get].
  change (Ascii.eqb "." Filepath.Separator) with false.
  change (Ascii.eqb "." ".") with true. cbv iota.
  rewrite Nat.add_0_r. apply from_append.
Qed.

Lemma TrimSuffix_html (x : string) : Strings.TrimSuffix (x ++ ".html") ".html" = x.
Proof.
  unfold Strings.TrimSuffix, Strings.HasSuffix. rewrite length_append.
  change (String.length ".html") with 5.
  replace (String.length x + 5 - 5) with (String.length x) by lia.
  rewrite from_append.
  replace (5 <=? String.length x + 5)%nat with true
    by (symmetry; apply Nat.leb_le; lia).
  cbn [andb String.eqb]. change (".html" =? ".html") with true. cbv iota.
  unfold Strings.upto. apply substring_0_append.
Qed.

(** X14.  The path [build] gives the page of a content file always has
    the extension [.html], which is what makes [clean] treat it as a
    page; and the step [clean] takes back from a page, [.html] cut off
    and the extension of the content files put in its place, gives the
    mapped path of the content file again. *)
Theorem page_path_round_trip (config : Config) (site : Site) (path : string) :
  Filepath.Ext (mapped_page site path) = ".html"
  /\ (Filepath.Ext (mapped_dest site path) = Ext (Builder_ config) ->
      Strings.TrimSuffix (mapped_page site path) ".html" ++ Ext (Builder_ config)
      = mapped_dest site path).
Proof.
  unfold mapped_page. split.
  - apply Ext_html.
  - intros <-. rewrite TrimSuffix_html. apply TrimSuffix_Ext.
Qed.

End MorePaths.

Lemma page_path_round_trip_witness :
  Filepath.Ext (Paths.mapped_page Scenario.site0 "src/a/b.md") = ".html"
  /\ Paths.mapped_page Scenario.site0 "src/a/b.md" = "dst/a/b.html"
  /\ (Strings.TrimSuffix (Paths.mapped_page Scenario.site0 "src/a/b.md") ".html"
      ++ Swb.Ext (Swb.Builder_ Scenario.config0))%string = "dst/a/b.md".
Proof.
  destruct (page_path_round_trip Scenario.config0 Scenario.site0 "src/a/b.md")
    as [H1 H2].
  split; [exact H1|]. split; [reflexivity|].
  rewrite (H2 eq_refl). reflexivity.
Defined.

(* ================================================================== *)
(** ** Further properties: the pattern and the page *)
(* ================================================================== *)

Section MoreFsBuild.
Import FS Paths More.

(** A change of one directory that keeps the entries it had leaves the
    files where they are. *)
Lemma update_keeps_files (now : Z) (e : errno) (i : nat)
      (f : string -> list (string * node) -> errno + list (string * node)) :
  (forall name ents ents' k c,
      f name ents = inr ents' -> get_ent k ents = Some c -> get_ent k ents' = Some c) ->
  forall (p q : list string) (n n' : node),
    update n p now e f = inr n' ->
    walk n q = inr (File i) ->
    walk n' q = inr (File i).
Proof.
  intros Hf. induction p as [|name p IH]; intros q n n' Hu Hq; [discriminate|].
  destruct n as [j|j m ents]; [discriminate|].
  destruct q as [|k q]; [discriminate|].
  cbn [walk] in Hq. destruct (get_ent k ents) as [c|] eqn:Hk; [|discriminate].
  destruct p as [|name' p'].
  - cbn [update] in Hu. destruct (f name ents) as [e'|ents'] eqn:E; [discriminate|].
    inversion Hu; subst. cbn [walk]. now rewrite (Hf _ _ _ _ _ E Hk).
  - rewrite update_deeper in Hu.
    destruct (get_ent name ents) as [child|] eqn:Hn; [|discriminate].
    destruct (update child (name' :: p') now e f) as [e'|child'] eqn:E; [discriminate|].
    inversion Hu; subst. cbn [walk].
    destruct (String.eqb_spec name k) as [->|Hne].
    + rewrite get_ent_set_same. rewrite Hk in Hn. inversion Hn; subst.
      exact (IH _ _ _ E Hq).
    + rewrite get_ent_set_other by congruence. now rewrite Hk.
Qed.

(** A change that puts [v] under the last name of the path makes the
    path lead to [v]. *)
Lemma update_leads_to (now : Z) (e : errno) (v : node)
      (f : string -> list (string * node) -> errno + list (string * node)) :
  (forall name ents ents', f name ents = inr ents' -> get_ent name ents' = Some v) ->
  forall (p : list string) (n n' : node),
    update n p now e f = inr n' -> walk n' p = inr v.
Proof.
  intros Hf. induction p as [|name p IH]; intros n n' Hu; [discriminate|].
  destruct n as [j|j m ents]; [discriminate|].
  destruct p as [|name' p'].
  - cbn [update] in Hu. destruct (f name ents) as [e'|ents'] eqn:E; [discriminate|].
    inversion Hu; subst. cbn [walk]. now rewrite (Hf _ _ _ E).
  - rewrite update_deeper in Hu.
    destruct (get_ent name ents) as [child|]; [|discriminate].
    destruct (update child (name' :: p') now e f) as [e'|child'] eqn:E; [discriminate|].
    inversion Hu; subst. cbn [walk]. rewrite get_ent_set_same. exact (IH _ _ E).
Qed.

(** [mkdir(2)]: the path is a directory afterwards, and the files that
    were there are still there. *)
Lemma mkdir_spec (f f' : filesys) (p : string) :
  mkdir f p = inr f' ->
  itab f' = itab f
  /\ (exists di, stat f' p = inr di /\ IsDir di = true)
  /\ (forall q j, resolve f q = inr (File j) -> resolve f' q = inr (File j)).
Proof.
  unfold mkdir. destruct (p =? "") eqn:Hp; [discriminate|].
  destruct (update (root f) (elems p) (clock f) EEXIST _) as [e|r] eqn:Hu;
    [discriminate|].
  intros H; inversion H; subst; clear H. cbn [itab].
  split; [reflexivity|]. split.
  - exists (MkFileInfo true (clock f) (Some (MkStat (next_ino f)))).
    unfold stat, resolve. cbn [root]. rewrite Hp.
    assert (Hw : walk r (elems p) = inr (Dir (next_ino f) (clock f) [])).
    { refine (update_leads_to _ _ _ _ _ _ _ _ Hu).
      intros name ents ents' E. destruct (get_ent name ents); [discriminate|].
      inversion E; subst. apply get_ent_set_same. }
    rewrite Hw. auto.
  - intros q j. unfold resolve. cbn [root]. destruct (q =? ""); [auto|].
    refine (update_keeps_files _ _ j _ _ _ _ _ _ Hu).
    intros name ents ents' k c E Hk.
    destruct (get_ent name ents) eqn:Hn; [discriminate|].
    inversion E; subst.
    rewrite get_ent_set_other; [exact Hk|]. congruence.
Qed.

(** [os.Link]: the new name leads to the inode of the old one, and the
    files that were there are still there. *)
Lemma link_spec (f f' : filesys) (oldname newname : string) :
  link f oldname newname = inr f' ->
  itab f' = itab f
  /\ (exists i, resolve f oldname = inr (File i) /\ resolve f' newname = inr (File i))
  /\ (forall q j, resolve f q = inr (File j) -> resolve f' q = inr (File j)).
Proof.
  unfold link. destruct (resolve f oldname) as [e|[i|i m ents]] eqn:Hold;
    try discriminate.
  destruct (String.eqb_spec newname "") as [->|Hne]; [discriminate|].
  destruct (update (root f) (elems newname) (clock f) EEXIST _) as [e|r] eqn:Hu;
    [discriminate|].
  intros H; inversion H; subst; clear H. cbn [with_root itab].
  split; [reflexivity|]. split.
  - exists i. split; [reflexivity|]. unfold resolve. cbn [root].
    apply String.eqb_neq in Hne. rewrite Hne.
    refine (update_leads_to _ _ (File i) _ _ _ _ _ Hu).
    intros name ents ents' E. destruct (get_ent name ents); [discriminate|].
    inversion E; subst. apply get_ent_set_same.
  - intros q j. unfold resolve. cbn [root]. destruct (q =? ""); [auto|].
    refine (update_keeps_files _ _ j _ _ _ _ _ _ Hu).
    intros name ents ents' k c E Hk.
    destruct (get_ent name ents) eqn:Hn; [discriminate|].
    inversion E; subst.
    rewrite get_ent_set_other; [exact Hk|]. congruence.
Qed.

Lemma stat_of_file (f : filesys) (q : string) (i : nat) :
  resolve f q = inr (File i) -> stat f q = info_of f (File i).
Proof. unfold stat. now intros ->. Qed.

End MoreFsBuild.

Section MoreBuild.
Import FS Os Swb Paths Page Scenario More.

Variable Environ : list string.
Variable Run : FS.filesys -> list string -> list string -> Exec.finished.

(** A file system that has the same inode table and still leads to the
    same inode at [q] answers [stat] and a read of [q] as before. *)
Lemma same_file (f f' : filesys) (q : string) (i : nat) :
  itab f' = itab f ->
  resolve f q = inr (File i) -> resolve f' q = inr (File i) ->
  stat f' q = stat f q /\ readfile f' q = readfile f q.
Proof.
  intros Htab H H'. unfold stat, readfile. rewrite H, H'. cbn [info_of].
  now rewrite Htab.
Qed.

Lemma skip_separators_le (path : string) (i : nat) : skip_separators path i <= i.
Proof.
  induction i as [|i IH]; cbn; [lia|].
  destruct (String.get i path) as [c|]; [|lia].
  destruct (Ascii.eqb c Filepath.Separator); lia.
Qed.

Lemma skip_element_le (path : string) (j : nat) : skip_element path j <= j.
Proof.
  induction j as [|j IH]; cbn; [lia|].
  destruct (String.get j path) as [c|]; [|lia].
  destruct (Ascii.eqb c Filepath.Separator); lia.
Qed.

Lemma settled_refl (w : world) : settled w w.
Proof. repeat split; auto. Qed.

Lemma settled_trans (w1 w2 w3 : world) :
  settled w1 w2 -> settled w2 w3 -> settled w1 w3.
Proof.
  intros [Ho [Ht Hk]] [Ho' [Ht' Hk']]. repeat split.
  - now rewrite Ho'.
  - now rewrite Ht'.
  - auto.
Qed.

(** [os.Mkdir] and the look [os.MkdirAll] takes at the path when it
    fails. *)
Lemma Mkdir_or_there (path : string) (w : world) :
  exists err w',
    (err <- Mkdir path ;;
     if negb (is_nil err) then
       '(dir, err1) <- Lstat path ;;
       isdir <- and_then (is_nil err1) (dir <- deref dir ;; ret (IsDir dir)) ;;
       if isdir then ret None else ret err
     else ret None) w = Done err w'
    /\ settled w w'
    /\ (err = None -> exists di, stat (fs w') path = inr di /\ IsDir di = true).
Proof.
  unfold bind at 1. unfold Mkdir, change.
  destruct (mkdir (fs w) path) as [e|f'] eqn:Hmk; cbn [is_nil negb].
  - unfold bind at 1. unfold Lstat.
    destruct (stat (fs w) path) as [e1|di] eqn:Hst; cbn [lift_err is_nil and_then].
    + eexists. exists w. split; [reflexivity|]. split; [apply settled_refl|].
      discriminate.
    + unfold bind at 1. unfold bind at 1. cbn [deref ret].
      destruct (IsDir di) eqn:Hd.
      * exists None, w. split; [reflexivity|]. split; [apply settled_refl|].
        intros _. eauto.
      * eexists. exists w. split; [reflexivity|]. split; [apply settled_refl|].
        discriminate.
  - destruct (mkdir_spec _ _ _ Hmk) as [Ht [Hd Hk]].
    exists None, (World f' (out w)). split; [reflexivity|].
    split; [repeat split; auto|]. intros _. exact Hd.
Qed.

(** [os.MkdirAll] returns; it leaves every file where it was; when it
    returns nil the path is a directory; and on a path that is there
    already it changes nothing and returns nil for a directory, the
    error [ENOTDIR] on the path itself for anything else. *)
Lemma MkdirAll_from_spec :
  forall (fuel : nat) (path : string) (w : world),
    String.length path <= fuel ->
    exists err w',
      MkdirAll_from fuel path w = Done err w'
      /\ settled w w'
      /\ (err = None -> exists di, stat (fs w') path = inr di /\ IsDir di = true)
      /\ (forall di, stat (fs w) path = inr di ->
            w' = w
            /\ err = if IsDir di then None
                     else Some (PathError "mkdir" path ENOTDIR)).
Proof.
  induction fuel as [|fuel IH]; intros path w Hlen;
    cbn [MkdirAll_from]; unfold bind at 1; unfold Stat;
    (destruct (stat (fs w) path) as [e|di] eqn:Hst; cbn [lift_err is_nil];
     [| unfold bind at 1; cbn [deref ret]; destruct (IsDir di) eqn:Hd;
        (eexists; exists w; split; [reflexivity|]; split; [apply settled_refl|];
         split; [first [discriminate | intros _; eauto]
                | intros di' Hdi'; inversion Hdi'; subst; rewrite Hd; auto]) ]).
  - assert (Hj : (1 <? skip_element path (skip_separators path (String.length path)))%nat
                 = false).
    { apply Nat.ltb_ge.
      pose proof (skip_element_le path (skip_separators path (String.length path))).
      pose proof (skip_separators_le path (String.length path)). lia. }
    rewrite Hj. unfold bind at 1. cbn [ret is_nil negb].
    destruct (Mkdir_or_there path w) as [err [w' [He [Hs Hd]]]].
    exists err, w'. split; [exact He|]. split; [exact Hs|]. split; [exact Hd|].
    intros di H; discriminate.
  - pose proof (skip_element_le path (skip_separators path (String.length path))) as Hj1.
    pose proof (skip_separators_le path (String.length path)) as Hj2.
    destruct (1 <? skip_element path (skip_separators path (String.length path)))%nat
      eqn:Hj.
    + apply Nat.ltb_lt in Hj.
      destruct (IH (Strings.upto
                      (skip_element path (skip_separators path (String.length path)) - 1)
                      path) w) as [err1 [w1 [He1 [Hs1 _]]]].
      { unfold Strings.upto. rewrite length_substring; lia. }
      unfold bind at 1. rewrite He1. destruct err1 as [e1|]; cbn [is_nil negb].
      * exists (Some e1), w1. split; [reflexivity|]. split; [exact Hs1|].
        split; [discriminate|]. intros di H; discriminate.
      * destruct (Mkdir_or_there path w1) as [err [w' [He [Hs Hd]]]].
        exists err, w'. split; [exact He|].
        split; [exact (settled_trans _ _ _ Hs1 Hs)|]. split; [exact Hd|].
        intros di H; discriminate.
    + unfold bind at 1. cbn [ret is_nil negb].
      destruct (Mkdir_or_there path w) as [err [w' [He [Hs Hd]]]].
      exists err, w'. split; [exact He|]. split; [exact Hs|]. split; [exact Hd|].
      intros di H; discriminate.
Qed.

(** X10.  [build] at a directory of the source tree: the callback hands
    the mapped path to [os.MkdirAll], returns what it returns and prints
    nothing.  When that is nil the mapped path is a directory; when the
    mapped path is there already and is not a directory the error is
    [ENOTDIR] on that path and nothing has changed; and in every case
    each regular file that was there before is still there, with the
    same inode, modification time and content. *)
Theorem build_makes_directory
        (config : Config) (site : Site) (path : string) (d : DirEntry)
        (info : FileInfo) (w : world) :
  (path =? SrcRoot site) = false ->
  Info d w = Done (Some info, None) w ->
  IsDir info = true ->
  exists err w',
    build_fn Environ Run config site path (Some d) None w = Done err w'
    /\ MkdirAll (mapped_dest site path) w = Done err w'
    /\ out w' = out w
    /\ (err = None ->
        exists di, stat (fs w') (mapped_dest site path) = inr di /\ IsDir di = true)
    /\ (forall di, stat (fs w) (mapped_dest site path) = inr di -> IsDir di = false ->
          err = Some (PathError "mkdir" (mapped_dest site path) ENOTDIR) /\ w' = w)
    /\ (forall q qi, stat (fs w) q = inr qi -> IsDir qi = false ->
          stat (fs w') q = inr qi /\ readfile (fs w') q = readfile (fs w) q).
Proof.
  intros Hpath Hinfo Hdir.
  destruct (MkdirAll_from_spec (String.length (mapped_dest site path))
              (mapped_dest site path) w (le_n _))
    as [err [w' [He [[Ho [Ht Hk]] [Hd Hthere]]]]].
  exists err, w'.
  assert (Heq : build_fn Environ Run config site path (Some d) None w = Done err w').
  { unfold build_fn. cbn [is_nil negb]. rewrite Hpath.
    unfold bind at 1. cbn [deref ret].
    unfold bind at 1. rewrite Hinfo. cbn [is_nil negb deref].
    unfold bind at 1. cbn [ret]. rewrite Hdir.
    fold (mapped_dest site path).
    unfold bind at 1. unfold MkdirAll. rewrite He.
    destruct err; reflexivity. }
  split; [exact Heq|]. split; [exact He|]. split; [exact Ho|]. split; [exact Hd|].
  split.
  - intros di Hdi Hnd. destruct (Hthere di Hdi) as [Hw Herr].
    rewrite Hnd in Herr. auto.
  - intros q qi Hq Hfile.
    destruct (stat_file_resolve _ _ _ Hq Hfile) as [j [Hres _]].
    destruct (same_file (fs w) (fs w') q j Ht Hres (Hk _ _ Hres)) as [Hs Hr].
    rewrite Hs, Hr. auto.
Qed.

Section Resource.

Variables (config : Config) (site : Site) (path : string) (d : DirEntry)
          (info srcInfo : FileInfo) (w : world).
Hypothesis Hpath : (path =? SrcRoot site) = false.
Hypothesis Hinfo : Info d w = Done (Some info, None) w.
Hypothesis Hfile : IsDir info = false.
Hypothesis Hstat : stat (fs w) path = inr srcInfo.
Hypothesis Hext :
  (Filepath.Ext (mapped_dest site path) =? Ext (Builder_ config)) = false.

(** What [build]'s callback comes to for a file that is not a content
    file. *)
Lemma build_fn_resource :
  build_fn Environ Run config site path (Some d) None w =
  let dst := mapped_dest site path in
  match stat (fs w) dst with
  | inl ENOENT =>
      match link (fs w) path dst with
      | inl e => Done (Some (LinkError "link" path dst e)) w
      | inr f' => Done None (World f' (out w ++ [(" + " ++ dst ++ nl)%string]))
      end
  | inl _ => Done None w
  | inr dstInfo =>
      if After (ModTime srcInfo) (ModTime dstInfo)
      then
        match remove (fs w) dst with
        | inl e => Done (Some (PathError "remove" dst e)) w
        | inr f1 =>
            match link f1 path dst with
            | inl e => Done (Some (LinkError "link" path dst e)) (World f1 (out w))
            | inr f2 => Done None (World f2 (out w ++ [(" ^ " ++ dst ++ nl)%string]))
            end
        end
      else Done None w
  end.
Proof.
  unfold build_fn.
  cbn [is_nil negb]. rewrite Hpath.
  unfold bind at 1. cbn [deref ret].
  unfold bind at 1. rewrite Hinfo. cbn [is_nil negb deref].
  unfold bind at 1. cbn [ret]. rewrite Hfile.
  unfold bind at 1. rewrite (Stat_eq path w), Hstat. cbn [lift_err is_nil negb].
  fold (mapped_dest site path). rewrite Hext.
  cbv zeta.
  unfold bind at 1. rewrite Stat_eq.
  destruct (stat (fs w) (mapped_dest site path)) as [e|dstInfo]; cbn [lift_err].
  - destruct e; cbn [IsNotExist is_nil negb and_then]; try reflexivity.
    go_unfold. destruct (link (fs w) path (mapped_dest site path)); reflexivity.
  - cbn [is_nil and_then deref IsNotExist]. unfold bind at 1. unfold bind at 1.
    unfold bind at 1. cbn [ret].
    destruct (After (ModTime srcInfo) (ModTime dstInfo)); [|reflexivity].
    go_unfold. cbn [fs out].
    destruct (remove (fs w) (mapped_dest site path)); [reflexivity|].
    cbn [fs out].
    destruct (link _ path (mapped_dest site path)); reflexivity.
Qed.

End Resource.

End MoreBuild.

Section MoreBuildExamples.
Import FS Os Swb Paths Page Scenario More.

Lemma build_makes_directory_witness :
  exists w',
    build_fn Environ0 show_argv config0 site0 "src/img"
      (Some (entry "src" "img" true)) None new_dir = Done None w'
    /\ out w' = []
    /\ readdir (fs w') "dst/img" = inr [].
Proof.
  destruct (build_makes_directory Environ0 show_argv config0 site0 "src/img"
              (entry "src" "img" true) (MkFileInfo true 0 (Some (MkStat 4))) new_dir
              eq_refl eq_refl eq_refl) as [err [w' [Hb [Hm [Ho _]]]]].
  exists w'. vm_compute in Hm. inversion Hm; subst err w'.
  split; [exact Hb|]. split; reflexivity.
Defined.

(** The error of [os.MkdirAll] names the ancestor that is in the way. *)
Example MkdirAll_names_the_ancestor :
  MkdirAll "dst/img/big" dst_is_file
  = Done (Some (PathError "mkdir" "dst" ENOTDIR)) dst_is_file.
Proof. reflexivity. Qed.

End MoreBuildExamples.

Section MoreResource.
Import FS Os Swb Paths Page Scenario More.

Variable Environ : list string.
Variable Run : FS.filesys -> list string -> list string -> Exec.finished.

Lemma Info_inv (d : DirEntry) (info : FileInfo) (w : world) :
  Info d w = Done (Some info, None) w ->
  de_info d = Some info
  \/ (de_info d = None /\ stat (fs w) (de_parent d ++ "/" ++ de_name d) = inr info).
Proof.
  unfold Info. destruct (de_info d) as [i|].
  - cbn. intros H. inversion H. auto.
  - unfold Lstat. destruct (stat (fs w) _) as [e|i]; cbn; intros H; inversion H.
    auto.
Qed.

Lemma After_irrefl (t : Z) : After t t = false.
Proof. unfold After. apply Z.ltb_irrefl. Qed.

(** X11.  [build] at a file of the source tree that is not a content
    file and has no counterpart in the destination tree: when [os.Link]
    succeeds the callback prints one line with [+] and the mapped path
    is a second name of the very same file, with the inode, the
    modification time and the content of the source file; and a second
    visit of the same entry changes nothing and prints nothing, the two
    modification times being the same. *)
Theorem build_links_new_resource
        (config : Config) (site : Site) (path : string) (d : DirEntry)
        (info srcInfo : FileInfo) (w : world) (f1 : filesys) :
  (path =? SrcRoot site) = false ->
  Info d w = Done (Some info, None) w ->
  IsDir info = false ->
  stat (fs w) path = inr srcInfo ->
  (Filepath.Ext (mapped_dest site path) =? Ext (Builder_ config)) = false ->
  stat (fs w) (mapped_dest site path) = inl ENOENT ->
  link (fs w) path (mapped_dest site path) = inr f1 ->
  let w1 := World f1 (out w ++ [(" + " ++ mapped_dest site path ++ nl)%string]) in
  build_fn Environ Run config site path (Some d) None w = Done None w1
  /\ stat f1 (mapped_dest site path) = inr srcInfo
  /\ stat f1 path = inr srcInfo
  /\ readfile f1 (mapped_dest site path) = readfile (fs w) path
  /\ build_fn Environ Run config site path (Some d) None w1 = Done None w1.
Proof.
  intros Hpath Hinfo Hfile Hstat Hext Hdst Hlink w1.
  destruct (link_spec _ _ _ _ Hlink) as [Htab [[i [Hold Hnew]] Hkeep]].
  destruct (same_file (fs w) f1 path i Htab Hold (Hkeep _ _ Hold)) as [Hs1 Hr1].
  assert (Hs2 : stat f1 (mapped_dest site path) = inr srcInfo).
  { rewrite <- Hstat. unfold stat. rewrite Hnew, Hold. cbn [info_of].
    now rewrite Htab. }
  assert (Hr2 : readfile f1 (mapped_dest site path) = readfile (fs w) path).
  { unfold readfile. rewrite Hnew, Hold. now rewrite Htab. }
  split.
  { rewrite (build_fn_resource Environ Run config site path d info srcInfo w
               Hpath Hinfo Hfile Hstat Hext).
    cbv zeta. rewrite Hdst, Hlink. reflexivity. }
  split; [exact Hs2|]. split; [now rewrite Hs1|]. split; [exact Hr2|].
  assert (Hinfo1 : Info d w1 = Done (Some info, None) w1).
  { destruct (Info_inv _ _ _ Hinfo) as [Hd|[Hd Hpn]]; unfold Info; rewrite Hd.
    - reflexivity.
    - destruct (stat_file_resolve _ _ _ Hpn Hfile) as [j [Hres _]].
      destruct (same_file (fs w) f1 _ j Htab Hres (Hkeep _ _ Hres)) as [Hs _].
      unfold Lstat, w1. cbn [fs]. rewrite Hs, Hpn. reflexivity. }
  rewrite (build_fn_resource Environ Run config site path d info srcInfo w1
             Hpath Hinfo1 Hfile).
  - cbv zeta. unfold w1 at 1 2. cbn [fs]. rewrite Hs2, After_irrefl. reflexivity.
  - unfold w1. cbn [fs]. now rewrite Hs1.
  - exact Hext.
Qed.

(** X12.  What [build] has linked, [clean] keeps: after the callback of
    [build] has linked a file that is not a page, the callback of
    [clean] at the new name, whose mapped source path is the file that
    was linked, finds the same inode on both sides and leaves the world
    as it is. *)
Theorem clean_keeps_linked_resource
        (config : Config) (site : Site) (path : string) (d d' : DirEntry)
        (info srcInfo : FileInfo) (w : world) (f1 : filesys) :
  (path =? SrcRoot site) = false ->
  Info d w = Done (Some info, None) w ->
  IsDir info = false ->
  stat (fs w) path = inr srcInfo ->
  (Filepath.Ext (mapped_dest site path) =? Ext (Builder_ config)) = false ->
  stat (fs w) (mapped_dest site path) = inl ENOENT ->
  link (fs w) path (mapped_dest site path) = inr f1 ->
  (mapped_dest site path =? DstRoot site) = false ->
  (Filepath.Ext (mapped_dest site path) =? ".html") = false ->
  mapped_source config site (mapped_dest site path) = path ->
  de_info d' = None ->
  (de_parent d' ++ "/" ++ de_name d')%string = mapped_dest site path ->
  forall w1,
    build_fn Environ Run config site path (Some d) None w = Done None w1 ->
    clean_fn config site (mapped_dest site path) (Some d') None w1 = Done None w1.
Proof.
  intros Hpath Hinfo Hfile Hstat Hext Hdst Hlink Hroot Hhtml Hback Hd' Hname w1 Hb.
  destruct (link_spec _ _ _ _ Hlink) as [Htab [[i [Hold Hnew]] Hkeep]].
  destruct (same_file (fs w) f1 path i Htab Hold (Hkeep _ _ Hold)) as [Hs1 _].
  assert (Hs2 : stat f1 (mapped_dest site path) = inr srcInfo).
  { rewrite <- Hstat. unfold stat. rewrite Hnew, Hold. cbn [info_of].
    now rewrite Htab. }
  assert (Hsrc : IsDir srcInfo = false /\ Sys srcInfo = Some (MkStat i)).
  { unfold stat in Hstat. rewrite Hold in Hstat. cbn [info_of] in Hstat.
    destruct (get_inode i (itab (fs w))); inversion Hstat; subst. auto. }
  destruct Hsrc as [Hnd Hsys].
  rewrite (build_fn_resource Environ Run config site path d info srcInfo w
             Hpath Hinfo Hfile Hstat Hext) in Hb.
  cbv zeta in Hb. rewrite Hdst, Hlink in Hb. inversion Hb; subst w1; clear Hb.
  rewrite (clean_fn_file config site (mapped_dest site path) d' srcInfo _ Hroot).
  - rewrite Hback. cbn [fs]. rewrite Hs1, Hstat, Hsys, Hhtml, Nat.eqb_refl.
    reflexivity.
  - unfold Info. rewrite Hd'. unfold Lstat. rewrite Hname. cbn [fs].
    rewrite Hs2. reflexivity.
  - exact Hnd.
Qed.

(** X13.  A content file whose page is missing or older, and a template
    that cannot be read: the callback of [build] returns the error of
    [os.ReadFile] on the template path, writes nothing and prints
    nothing.  The error is that of opening the template ([open], with
    the error of the path) unless the template is a directory, which is
    opened and then fails to be read ([read], [EISDIR]). *)
Theorem build_fails_without_template
        (config : Config) (site : Site) (path : string) (d : DirEntry)
        (info srcInfo : FileInfo) (w : world) (e : errno) :
  (path =? SrcRoot site) = false ->
  Info d w = Done (Some info, None) w ->
  IsDir info = false ->
  stat (fs w) path = inr srcInfo ->
  Filepath.Ext (mapped_dest site path) = Ext (Builder_ config) ->
  (stat (fs w) (mapped_page site path) = inl ENOENT
   \/ exists dstInfo, stat (fs w) (mapped_page site path) = inr dstInfo
                      /\ After (ModTime srcInfo) (ModTime dstInfo) = true) ->
  readfile (fs w) (TplPath site) = inl e ->
  build_fn Environ Run config site path (Some d) None w =
  Done (Some (PathError (match e with EISDIR => "read" | _ => "open" end)
                        (TplPath site) e)) w.
Proof.
  intros Hpath Hinfo Hfile Hstat Hext Hstale Hread.
  rewrite (build_fn_content Environ Run config site path d info srcInfo w
             Hpath Hinfo Hfile Hstat Hext).
  assert (Hp : forall mark,
             build_page_and_report Environ Run config site path w mark =
             Done (Some (PathError (match e with EISDIR => "read" | _ => "open" end)
                                   (TplPath site) e)) w).
  { intros mark. unfold build_page_and_report, buildPage.
    unfold bind at 1. unfold bind at 1. unfold ReadFile. rewrite Hread.
    destruct e; reflexivity. }
  destruct Hstale as [->|[dstInfo [-> ->]]]; apply Hp.
Qed.

End MoreResource.

Section MoreResourceExamples.
Import FS Os Swb Paths Page Scenario More.

Lemma build_links_new_resource_witness :
  exists f1,
    build_fn Environ0 show_argv config0 site0 "src/b.png" (Some (entry "src" "b.png" false))
      None new_picture = Done None (World f1 [(" + dst/b.png" ++ nl)%string])
    /\ stat f1 "dst/b.png" = inr (MkFileInfo false 5 (Some (MkStat 10))).
Proof.
  exists (match link (fs new_picture) "src/b.png" "dst/b.png" with
          | inr f' => f' | inl _ => fs new_picture end).
  destruct (build_links_new_resource Environ0 show_argv config0 site0 "src/b.png"
              (entry "src" "b.png" false)
              (MkFileInfo false 5 (Some (MkStat 10)))
              (MkFileInfo false 5 (Some (MkStat 10))) new_picture
              (match link (fs new_picture) "src/b.png" "dst/b.png" with
               | inr f' => f' | inl _ => fs new_picture end)
              eq_refl eq_refl eq_refl eq_refl eq_refl eq_refl eq_refl)
    as [Hb [Hs _]].
  split; [exact Hb | exact Hs].
Defined.

Lemma clean_keeps_linked_resource_witness :
  exists w1,
    build_fn Environ0 show_argv config0 site0 "src/b.png" (Some (entry "src" "b.png" false))
      None new_picture = Done None w1
    /\ clean_fn config0 site0 "dst/b.png" (Some (entry "dst" "b.png" false)) None w1
       = Done None w1.
Proof.
  exists (World (match link (fs new_picture) "src/b.png" "dst/b.png" with
                 | inr f' => f' | inl _ => fs new_picture end)
                [(" + dst/b.png" ++ nl)%string]).
  split; [reflexivity|].
  apply (clean_keeps_linked_resource Environ0 show_argv config0 site0 "src/b.png"
           (entry "src" "b.png" false) (entry "dst" "b.png" false)
           (MkFileInfo false 5 (Some (MkStat 10)))
           (MkFileInfo false 5 (Some (MkStat 10))) new_picture
           (match link (fs new_picture) "src/b.png" "dst/b.png" with
            | inr f' => f' | inl _ => fs new_picture end)
           eq_refl eq_refl eq_refl eq_refl eq_refl eq_refl eq_refl eq_refl eq_refl
           eq_refl eq_refl eq_refl _ eq_refl).
Defined.

Lemma build_fails_without_template_witness :
  build_fn Environ0 show_argv config0 site0 "src/a.md"
    (Some (entry "src" "a.md" false)) None no_template =
  Done (Some (PathError "open" "tpl" ENOENT)) no_template
  /\ build_fn Environ0 show_argv config0 site0 "src/a.md"
       (Some (entry "src" "a.md" false)) None template_is_dir =
     Done (Some (PathError "read" "tpl" EISDIR)) template_is_dir.
Proof.
  split.
  - apply (build_fails_without_template Environ0 show_argv config0 site0 "src/a.md"
             (entry "src" "a.md" false)
             (MkFileInfo false 5 (Some (MkStat 10)))
             (MkFileInfo false 5 (Some (MkStat 10))) no_template ENOENT
             eq_refl eq_refl eq_refl eq_refl eq_refl (or_introl eq_refl) eq_refl).
  - apply (build_fails_without_template Environ0 show_argv config0 site0 "src/a.md"
             (entry "src" "a.md" false)
             (MkFileInfo false 5 (Some (MkStat 10)))
             (MkFileInfo false 5 (Some (MkStat 10))) template_is_dir EISDIR
             eq_refl eq_refl eq_refl eq_refl eq_refl (or_introl eq_refl) eq_refl).
Defined.

End MoreResourceExamples.

Section MoreRegexp.
Local Open Scope string_scope.
Import Template Swb More.

Lemma prefix_close_cons2 (c c' : ascii) (s : string) :
  String.prefix "}%" (String c (String c' s)) = (Ascii.eqb c "}" && Ascii.eqb c' "%").
Proof.
  change (String.prefix "}%" (String c (String c' s)))
    with (if ascii_dec "}" c
          then (if ascii_dec "%" c' then String.prefix "" s else false) else false).
  destruct (ascii_dec "}" c) as [<-|Hn].
  - destruct (ascii_dec "%" c') as [<-|Hn'].
    + destruct s; reflexivity.
    + symmetry. apply andb_false_iff. right. apply Ascii.eqb_neq. congruence.
  - symmetry. apply andb_false_iff. left. apply Ascii.eqb_neq. congruence.
Qed.

Lemma prefix_close_short (c : ascii) : String.prefix "}%" (String c "") = false.
Proof.
  change (String.prefix "}%" (String c "")) with (if ascii_dec "}" c then false else false).
  now destruct (ascii_dec "}" c).
Qed.

Lemma prefix_close_append (s t : string) :
  String.prefix "}%" s = true -> String.prefix "}%" (s ++ t) = true.
Proof.
  intros H. destruct s as [|c [|c' s]].
  - discriminate.
  - rewrite prefix_close_short in H. discriminate.
  - cbn [append]. now rewrite prefix_close_cons2 in *.
Qed.

(** The closing part of the pattern fails where no line starts or the
    closing marker does not follow. *)
Lemma closing_fails (R : Type) (cs : Regexp.cursor -> Regexp.captures)
      (k : Regexp.cursor -> Regexp.captures -> option R)
      (n : nat) (p : option ascii) (s : string) :
  (line_start p && String.prefix "}%" s) = false ->
  closing cs k (Regexp.Cursor n p s) = None.
Proof.
  intros H. unfold closing. cbn [Regexp.run Regexp.rest Regexp.at_].
  unfold Regexp.at_line_start. cbn [Regexp.before]. fold (line_start p).
  destruct (line_start p); [|reflexivity]. cbn [andb] in H.
  destruct s as [|c [|c' s]].
  - reflexivity.
  - cbn [Regexp.run Regexp.rest]. destruct (Ascii.eqb c "}"); reflexivity.
  - rewrite prefix_close_cons2 in H. cbn [Regexp.run Regexp.rest].
    destruct (Ascii.eqb c "}"); [|reflexivity]. cbn [andb] in H.
    cbn [Regexp.rest]. now rewrite H.
Qed.

(** It matches at the start of a line that begins with the closing
    marker. *)
Lemma closing_accept (cs : Regexp.cursor -> Regexp.captures)
      (n : nat) (p : option ascii) (s : string) :
  (line_start p && String.prefix "}%" s) = true ->
  closing cs accept (Regexp.Cursor n p s) = Some (n + 2, cs (Regexp.Cursor n p s)).
Proof.
  intros H. apply andb_true_iff in H as [Hp Hs].
  unfold closing, accept. cbn [Regexp.run Regexp.rest Regexp.at_].
  unfold Regexp.at_line_start. cbn [Regexp.before]. fold (line_start p).
  rewrite Hp.
  destruct s as [|c [|c' s]].
  - discriminate.
  - rewrite prefix_close_short in Hs. discriminate.
  - rewrite prefix_close_cons2 in Hs. apply andb_true_iff in Hs as [H1 H2].
    cbn [Regexp.run Regexp.rest Regexp.at_]. rewrite H1. cbn [Regexp.rest].
    rewrite H2. cbn [Regexp.at_]. do 2 f_equal. lia.
Qed.

Lemma closes_inside_tail (c : ascii) (s : string) :
  closes_inside (String c s) = false -> closes_inside s = false.
Proof. cbn. intros H. now apply orb_false_iff in H. Qed.

(** No line begins with the closing marker: the lazy star finds no end. *)
Lemma star_lazy_no_close (R : Type) cs (k : Regexp.cursor -> Regexp.captures -> option R) :
  forall (s : string) (n : nat) (p : option ascii),
    (line_start p && String.prefix "}%" s) = false ->
    closes_inside s = false ->
    Regexp.star_lazy R Regexp.any (closing cs k) n p s = None.
Proof.
  induction s as [|c s IH]; intros n p Hhere Hin;
    rewrite star_lazy_eq, closing_fails by assumption.
  - reflexivity.
  - cbn [Regexp.any]. apply IH.
    + cbn in Hin. apply orb_false_iff in Hin. apply Hin.
    + exact (closes_inside_tail _ _ Hin).
Qed.

Lemma space_not_percent (c : ascii) : Regexp.space c = true -> Ascii.eqb c "%" = false.
Proof.
  intros H. destruct (Ascii.eqb_spec c "%") as [->|]; [discriminate | reflexivity].
Qed.

(** No line after the first begins with the closing marker: no match
    starts at the position. *)
Lemma match_at_no_close (s : string) (n : nat) (p : option ascii) :
  closes_inside s = false ->
  Regexp.match_at re (Regexp.Cursor n p s) = None.
Proof.
  intros Hin. unfold Regexp.match_at, re.
  cbn [Regexp.run Regexp.before Regexp.at_ Regexp.rest].
  destruct (Regexp.at_line_start _); [|reflexivity].
  revert n p Hin. induction s as [|c s IH]; intros n p Hin.
  - reflexivity.
  - assert (Hk : forall q,
               Regexp.run
                 (Regexp.Cat (Regexp.Char "%")
                    (Regexp.Cat (Regexp.Char "{")
                       (Regexp.Cat (Regexp.Group 1 (Regexp.Star false Regexp.any))
                          (Regexp.Cat Regexp.BeginLine
                             (Regexp.Cat (Regexp.Char "}") (Regexp.Char "%"))))))
                 (Regexp.Cursor n q (String c s)) []
                 (fun cur' cs => Some (Regexp.at_ cur', cs)) = None).
    { intros q. cbn [Regexp.run Regexp.rest Regexp.at_ Regexp.before].
      destruct (Ascii.eqb c "%"); [|reflexivity].
      destruct s as [|c' s]; [reflexivity|].
      destruct (Ascii.eqb c' "{"); [|reflexivity].
      match goal with
      | |- Regexp.star_lazy _ _ ?k _ _ _ = _ =>
          change k with
            (closing (fun cur' => [(1, (S (S n), Regexp.at_ cur'))])
                     (fun (cur' : Regexp.cursor) (cs : Regexp.captures) =>
                        Some (Regexp.at_ cur', cs)))
      end.
      pose proof (closes_inside_tail _ _ Hin) as H1.
      cbn [closes_inside] in H1. apply orb_false_iff in H1 as [Ha Hb].
      apply star_lazy_no_close; assumption. }
    cbn [Regexp.star_greedy].
    destruct (Regexp.space c).
    + rewrite (IH (S n) (Some c) (closes_inside_tail _ _ Hin)). apply Hk.
    + apply Hk.
Qed.

(** Such a text is copied byte by byte. *)
Lemma pieces_no_close :
  forall (s : string) (n : nat) (p : option ascii) (ah : bool),
    closes_inside s = false ->
    Regexp.pieces re n p s 0 ah = map Regexp.Copy (list_ascii_of_string s).
Proof.
  induction s as [|c s IH]; intros n p ah Hin;
    cbn [Regexp.pieces]; rewrite (match_at_no_close _ n p Hin).
  - reflexivity.
  - cbn. f_equal. apply IH. exact (closes_inside_tail _ _ Hin).
Qed.

Lemma replace_copies (repl : string -> M string) (w : world) :
  forall (l : list ascii) (buf : string),
    replace_pieces (map Regexp.Copy l) repl buf w =
    Done (buf ++ string_of_list_ascii l) w.
Proof.
  induction l as [|c l IH]; intros buf; cbn [map replace_pieces].
  - cbn. now rewrite append_nil_r.
  - rewrite IH. f_equal. now rewrite append_assoc.
Qed.

End MoreRegexp.

Section MorePage.
Import FS Os Swb Paths Page Template Scenario More.

Variable Environ : list string.
Variable Run : FS.filesys -> list string -> list string -> Exec.finished.

(** X3.  A template no line of which after the first begins with [}%]
    (a template without blocks, or with a block left open) is written to
    the destination as it is: no command is run, nothing is printed and
    the run command is not looked at. *)
Theorem template_without_closing_line_is_copied
        (config : Config) (site : Site) (srcPath dstPath tpl : string) (w : world) :
  readfile (fs w) (TplPath site) = inr tpl ->
  closes_inside tpl = false ->
  buildPage Environ Run config site srcPath dstPath w =
  Done None
    (World (match writefile (fs w) dstPath tpl with
            | inr f' => f'
            | inl _ => fs w
            end) (out w)).
Proof.
  intros Hread Hin. unfold buildPage, ReplaceAllStringFunc, Regexp.matches.
  unfold bind at 1. unfold ReadFile. rewrite Hread. cbn [is_nil negb].
  unfold bind at 1.
  rewrite (pieces_no_close tpl 0 None false Hin), replace_copies.
  cbn [append]. rewrite string_of_list_ascii_of_string.
  cbv beta iota delta [bind ret WriteFile change].
  destruct (writefile (fs w) dstPath tpl); [destruct w|]; reflexivity.
Qed.

End MorePage.

Lemma template_without_closing_line_is_copied_witness :
  exists w',
    Swb.buildPage Scenario.Environ0 Scenario.fails More.config_no_cmd Scenario.site0
      "src/a.md" "dst/a.html" More.open_block
    = Done None w'
    /\ FS.readfile (fs w') "dst/a.html" = inr ("%{" ++ nl ++ "ls" ++ nl)%string.
Proof.
  eexists. split.
  - apply (template_without_closing_line_is_copied Scenario.Environ0 Scenario.fails
             More.config_no_cmd Scenario.site0 "src/a.md" "dst/a.html"
             ("%{" ++ nl ++ "ls" ++ nl)%string); reflexivity.
  - reflexivity.
Defined.

Section MoreMatches.
Local Open Scope string_scope.
Import Template Swb More.

(** A greedy star that succeeds has passed over a run of bytes of the
    class, after which the rest of the pattern succeeded. *)
Lemma star_greedy_inv (R : Type) (k : Regexp.cont R) (r : R) :
  forall (s : string) (n : nat) (p : option ascii),
    Regexp.star_greedy R Regexp.space k n p s = Some r ->
    exists ws t,
      s = ws ++ t /\ all_space ws = true
      /\ k (Regexp.Cursor (n + String.length ws) (last_before p ws) t) = Some r.
Proof.
  induction s as [|c s IH]; intros n p H.
  - exists "", "". cbn in *. now rewrite Nat.add_0_r.
  - cbn [Regexp.star_greedy] in H.
    assert (Hstop : k (Regexp.Cursor n p (String c s)) = Some r ->
                    exists ws t,
                      String c s = ws ++ t /\ all_space ws = true
                      /\ k (Regexp.Cursor (n + String.length ws) (last_before p ws) t)
                         = Some r).
    { intros Hk. exists "", (String c s). cbn. now rewrite Nat.add_0_r. }
    destruct (Regexp.space c) eqn:Hc; [|auto].
    destruct (Regexp.star_greedy R Regexp.space k (S n) (Some c) s) as [r'|] eqn:Hrec;
      [|auto].
    inversion H; subst r'.
    destruct (IH _ _ Hrec) as [ws [t [Hs [Hws Hk]]]].
    exists (String c ws), t. cbn. rewrite Hc, Hws. subst s.
    repeat split; auto.
    now replace (n + S (String.length ws)) with (S n + String.length ws) by lia.
Qed.

(** A lazy star that succeeds before the closing part has passed over a
    body no line of which begins with the closing marker. *)
Lemma star_lazy_inv (cs : Regexp.cursor -> Regexp.captures)
      (r : nat * Regexp.captures) :
  forall (s : string) (n : nat) (p : option ascii),
    Regexp.star_lazy _ Regexp.any (closing cs accept) n p s = Some r ->
    exists body tail,
      s = body ++ tail
      /\ (line_start p && String.prefix "}%" body) = false
      /\ closes_inside body = false
      /\ (line_start (last_before p body) && String.prefix "}%" tail) = true
      /\ r = (n + String.length body + 2,
              cs (Regexp.Cursor (n + String.length body) (last_before p body) tail)).
Proof.
  induction s as [|c s IH]; intros n p H; rewrite star_lazy_eq in H.
  - destruct (line_start p && String.prefix "}%" "") eqn:E.
    + rewrite andb_false_r in E. discriminate.
    + rewrite closing_fails in H by exact E. discriminate.
  - destruct (line_start p && String.prefix "}%" (String c s)) eqn:E.
    + rewrite closing_accept in H by exact E. inversion H; subst r.
      exists "", (String c s). cbn [append String.length last_before closes_inside].
      rewrite Nat.add_0_r, andb_false_r. repeat split; auto.
    + rewrite closing_fails in H by exact E. cbn [Regexp.any] in H.
      destruct (IH _ _ H) as [body [tail [Hs [Hhere [Hin [Hend Hr]]]]]].
      exists (String c body), tail. subst s.
      cbn [append String.length last_before closes_inside].
      repeat split.
      * destruct (line_start p); [|reflexivity]. cbn [andb] in *.
        destruct (String.prefix "}%" (String c body)) eqn:Hp; [|reflexivity].
        apply (prefix_close_append _ tail) in Hp. cbn [append] in Hp. congruence.
      * apply orb_false_iff. split; [exact Hhere | exact Hin].
      * exact Hend.
      * replace (n + S (String.length body)) with (S n + String.length body) by lia.
        exact Hr.
Qed.

Lemma ends_line_of_last (b : string) :
  forall c : ascii,
    line_start (last_before (Some c) b) = true -> ends_line (String c b) = true.
Proof.
  induction b as [|c' b IH]; intros c H.
  - exact H.
  - change (ends_line (String c (String c' b))) with (ends_line (String c' b)).
    apply IH. exact H.
Qed.

Lemma line_start_last (body : string) (p : option ascii) :
  line_start p = false ->
  line_start (last_before p body) = true ->
  ends_line body = true.
Proof.
  intros H0 H. destruct body as [|c body].
  - cbn [last_before] in H. congruence.
  - apply ends_line_of_last. exact H.
Qed.

Lemma prefix_close_split (s : string) :
  String.prefix "}%" s = true -> exists post, s = "}%" ++ post.
Proof.
  destruct s as [|c [|c' s]]; intros H.
  - discriminate.
  - rewrite prefix_close_short in H. discriminate.
  - rewrite prefix_close_cons2 in H. apply andb_true_iff in H as [H1 H2].
    apply Ascii.eqb_eq in H1, H2. subst. now exists s.
Qed.

(** Every match of [re] is a block: white space, the opening marker, a
    body that ends a line and has no line beginning with the closing
    marker, and the closing marker. *)
Lemma match_at_inv (s : string) (n e : nat) (p : option ascii) (cs : Regexp.captures) :
  Regexp.match_at re (Regexp.Cursor n p s) = Some (e, cs) ->
  exists ws body post,
    s = ws ++ "%{" ++ body ++ "}%" ++ post
    /\ all_space ws = true
    /\ ends_line body = true
    /\ closes_inside body = false
    /\ line_start p = true
    /\ e = n + String.length (ws ++ "%{" ++ body ++ "}%").
Proof.
  unfold Regexp.match_at, re.
  cbn [Regexp.run Regexp.before Regexp.at_ Regexp.rest].
  unfold Regexp.at_line_start. cbn [Regexp.before]. fold (line_start p).
  destruct (line_start p) eqn:Hp; [|discriminate].
  intros H. apply star_greedy_inv in H as [ws [t [Hs [Hws Hk]]]].
  cbn [Regexp.run Regexp.rest Regexp.at_ Regexp.before] in Hk.
  destruct t as [|c t]; [discriminate|].
  destruct (Ascii.eqb_spec c "%") as [->|]; [|discriminate].
  cbn [Regexp.rest] in Hk.
  destruct t as [|c' t]; [discriminate|].
  destruct (Ascii.eqb_spec c' "{") as [->|]; [|discriminate].
  cbn [Regexp.rest Regexp.at_ Regexp.before] in Hk.
  match type of Hk with
  | Regexp.star_lazy _ _ ?k _ _ _ = _ =>
      change k with
        (closing (fun cur' => [(1, (S (S (n + String.length ws)), Regexp.at_ cur'))])
                 accept) in Hk
  end.
  apply star_lazy_inv in Hk as [body [tail [Ht [_ [Hin [Hend Hr]]]]]].
  apply andb_true_iff in Hend as [Hls Hpre].
  destruct (prefix_close_split _ Hpre) as [post Htail].
  exists ws, body, post. subst s t tail.
  repeat split; auto.
  - now apply (line_start_last body (Some "{"%char)).
  - inversion Hr. rewrite !length_append. cbn [String.length]. lia.
Qed.

(** The group of a block is found again in the block alone. *)
Lemma find_submatch_block (ws body : string) :
  all_space ws = true ->
  ends_line body = true ->
  closes_inside body = false ->
  Regexp.FindStringSubmatch re (ws ++ "%{" ++ body ++ "}%")
  = [ws ++ "%{" ++ body ++ "}%"; body].
Proof.
  intros Hws Hend Hin.
  assert (Hm := match_at_block ws body "" 0 None Hws Hend Hin eq_refl).
  change ("}%" ++ "") with "}%" in Hm.
  unfold Regexp.FindStringSubmatch.
  rewrite (find_from_here _ _ _ _ _ _ Hm).
  cbn [Regexp.num_groups re Nat.max seq map Regexp.capture Nat.eqb Nat.add].
  f_equal.
  - pose proof (slice_front (ws ++ "%{" ++ body ++ "}%") "") as E.
    now rewrite append_nil_r in E.
  - f_equal.
    pose proof (slice_middle (ws ++ "%{") body "}%") as E.
    rewrite <- length_append in E.
    now rewrite !append_assoc in E.
Qed.

Lemma pieces_hits :
  forall (s : string) (n : nat) (p : option ascii) (skip : nat) (ah : bool) (m : string),
    In (Regexp.Hit m) (Regexp.pieces re n p s skip ah) ->
    exists ws body,
      m = ws ++ "%{" ++ body ++ "}%"
      /\ all_space ws = true
      /\ ends_line body = true
      /\ closes_inside body = false.
Proof.
  induction s as [|c s IH]; intros n p skip ah m Hin.
  - destruct skip; cbn [Regexp.pieces] in Hin; [|contradiction].
    destruct (Regexp.match_at re (Regexp.Cursor n p "")) as [[e cs]|] eqn:Hm;
      [|contradiction].
    apply match_at_inv in Hm as [ws [body [post [Hs _]]]].
    destruct ws; discriminate.
  - destruct skip as [|skip]; cbn [Regexp.pieces] in Hin; [|exact (IH _ _ _ _ _ Hin)].
    destruct (Regexp.match_at re (Regexp.Cursor n p (String c s))) as [[e cs]|] eqn:Hm.
    + apply match_at_inv in Hm as [ws [body [post [Hs [Hws [Hend [Hcl [_ He]]]]]]]].
      assert (Hlen : e - n = String.length (ws ++ "%{" ++ body ++ "}%")) by lia.
      assert (Hpos : (e - n =? 0)%nat = false).
      { apply Nat.eqb_neq. rewrite Hlen, !length_append. cbn [String.length]. lia. }
      rewrite Hpos in Hin. destruct Hin as [Hin|Hin]; [|exact (IH _ _ _ _ _ Hin)].
      inversion Hin as [Hm']. exists ws, body. repeat split; auto.
      unfold Strings.upto. rewrite Hlen, Hs.
      replace (ws ++ "%{" ++ body ++ "}%" ++ post)
        with ((ws ++ "%{" ++ body ++ "}%") ++ post)
        by (rewrite !append_assoc; reflexivity).
      apply substring_0_append.
    + destruct Hin as [Hin|Hin]; [discriminate | exact (IH _ _ _ _ _ Hin)].
Qed.

(** X4.  Every match the replacement function is handed is a block in
    full: white space, [%{], a body that ends with a newline and has no
    line beginning with [}%], then [}%]; and searching the match again
    gives the match and its body, so that the replacement function never
    returns a match as it is for want of a group. *)
Theorem every_match_is_a_block (tpl m : string) :
  In (Regexp.Hit m) (Regexp.matches re tpl) ->
  exists ws body,
    m = (ws ++ "%{" ++ body ++ "}%")%string
    /\ all_space ws = true
    /\ ends_line body = true
    /\ closes_inside body = false
    /\ Regexp.FindStringSubmatch re m = [m; body].
Proof.
  intros Hin. apply pieces_hits in Hin as [ws [body [Hm [Hws [Hend Hcl]]]]].
  exists ws, body. repeat split; auto.
  subst m. now apply find_submatch_block.
Qed.

Lemma every_match_is_a_block_witness :
  exists ws body,
    Scenario.block0 = (ws ++ "%{" ++ body ++ "}%")%string
    /\ all_space ws = true
    /\ ends_line body = true
    /\ closes_inside body = false
    /\ Regexp.FindStringSubmatch re Scenario.block0 = [Scenario.block0; body].
Proof.
  apply (every_match_is_a_block Scenario.template0 Scenario.block0).
  vm_compute. do 5 right. left. reflexivity.
Defined.

End MoreMatches.

Section MoreReplace.
Import FS Os Swb Paths Page Template Scenario More.

Lemma pieces_text (k : nat) :
  forall (s : string) (n : nat) (p : option ascii) (ah : bool),
    String.length s <= k ->
    text_of (Regexp.pieces re n p s 0 ah) = s.
Proof.
  induction k as [|k IH]; intros s n p ah Hk.
  - destruct s; [|cbn in Hk; lia].
    cbn [Regexp.pieces].
    destruct (Regexp.match_at re (Regexp.Cursor n p "")) as [[e cs]|] eqn:Hm;
      [|reflexivity].
    apply match_at_inv in Hm as [ws [body [post [Hs _]]]].
    destruct ws; discriminate.
  - destruct (Regexp.match_at re (Regexp.Cursor n p s)) as [[e cs]|] eqn:Hm.
    + pose proof Hm as Hinv.
      apply match_at_inv in Hinv as [ws [body [post [Hs [_ [_ [_ [_ He]]]]]]]].
      set (block := (ws ++ "%{" ++ body ++ "}%")%string) in *.
      assert (Hsb : s = (block ++ post)%string)
        by (rewrite Hs; unfold block; rewrite !append_assoc; reflexivity).
      assert (Hlen : 4 <= String.length block)
        by (unfold block; rewrite !length_append; cbn [String.length]; lia).
      destruct block as [|c b] eqn:Hb; [cbn in Hlen; lia|].
      rewrite Hsb in Hm |- *. rewrite He in Hm.
      rewrite (pieces_hit re c b post n p ah cs Hm).
      cbn [text_of]. rewrite IH; [reflexivity|].
      rewrite Hsb, length_append in Hk. cbn [String.length] in *. lia.
    + destruct s as [|c s]; cbn [Regexp.pieces]; rewrite Hm; [reflexivity|].
      cbn [text_of]. rewrite IH; [reflexivity|]. cbn in Hk. lia.
Qed.

Lemma replace_with_itself (ps : list Regexp.piece) :
  forall (buf : string) (w : world),
    replace_pieces ps (fun m => ret m) buf w = Done (buf ++ text_of ps)%string w.
Proof.
  induction ps as [|[c|m] ps IH]; intros buf w; cbn [replace_pieces text_of].
  - cbn. now rewrite append_nil_r.
  - rewrite IH. now rewrite append_assoc.
  - unfold bind, ret at 1. rewrite IH. now rewrite append_assoc.
Qed.

(** X5.  The matches and the bytes between them make up the template:
    replacing every block by itself gives the template back, so that the
    expansion loses or repeats nothing outside the blocks. *)
Theorem replace_all_with_itself (src : string) (w : world) :
  More.text_of (Regexp.matches re src) = src
  /\ ReplaceAllStringFunc re src (fun m => ret m) w = Done src w.
Proof.
  assert (H : More.text_of (Regexp.matches re src) = src)
    by (apply (pieces_text (String.length src)); lia).
  split; [exact H|].
  unfold ReplaceAllStringFunc. rewrite replace_with_itself. now rewrite H.
Qed.

Variable Environ : list string.
Variable Run : FS.filesys -> list string -> list string -> Exec.finished.

(** With an empty run command the replacement function panics at a
    block: [cmdArgs[len(config.RunCmd)-1:]] is [cmdArgs[-1:]]. *)
Lemma expand_block_no_cmd (config : Config) (site : Site) (srcPath dstPath : string)
      (m whole body : string) (rest : list string) (w : world) :
  RunCmd config = [] ->
  Regexp.FindStringSubmatch re m = whole :: body :: rest ->
  expand_block Environ Run config site srcPath dstPath m w =
  Panicked SliceBounds (World (fs w) (out w ++ [("[" ++ body ++ "]" ++ nl)%string])).
Proof.
  intros Hcmd Hm. unfold expand_block. rewrite Hm, Hcmd.
  replace (Slice.len (whole :: body :: rest) <? 2)%Z with false
    by (symmetry; apply Z.ltb_ge; unfold Slice.len; cbn [List.length]; lia).
  reflexivity.
Qed.

Lemma replace_pieces_no_cmd (config : Config) (site : Site) (srcPath dstPath : string) :
  RunCmd config = [] ->
  forall (ps : list Regexp.piece) (buf : string) (w : world),
    (forall m, In (Regexp.Hit m) ps ->
               exists body, Regexp.FindStringSubmatch re m = [m; body]) ->
    (exists m, In (Regexp.Hit m) ps) ->
    exists w',
      replace_pieces ps (expand_block Environ Run config site srcPath dstPath) buf w
      = Panicked SliceBounds w'
      /\ fs w' = fs w.
Proof.
  intros Hcmd. induction ps as [|[c|m] ps IH]; intros buf w Hall [m0 Hin].
  - contradiction.
  - cbn [replace_pieces]. apply IH.
    + intros m Hm. apply Hall. now right.
    + destruct Hin as [Hin|Hin]; [discriminate | eauto].
  - cbn [replace_pieces]. unfold bind.
    destruct (Hall m (or_introl eq_refl)) as [body Hm].
    rewrite (expand_block_no_cmd config site srcPath dstPath m m body [] w Hcmd Hm).
    eexists. split; reflexivity.
Qed.

(** X6.  With an empty run command, [buildPage] on a template that has a
    block ends in a run-time panic (slice bounds out of range) at the
    first block, before anything is written. *)
Theorem empty_run_command_panics
        (config : Config) (site : Site) (srcPath dstPath tpl : string) (w : world) :
  RunCmd config = [] ->
  readfile (fs w) (TplPath site) = inr tpl ->
  (exists m, In (Regexp.Hit m) (Regexp.matches re tpl)) ->
  exists w',
    buildPage Environ Run config site srcPath dstPath w = Panicked SliceBounds w'
    /\ fs w' = fs w.
Proof.
  intros Hcmd Hread Hhit. unfold buildPage, ReplaceAllStringFunc.
  unfold bind at 1. unfold ReadFile. rewrite Hread. cbn [is_nil negb].
  unfold bind at 1.
  destruct (replace_pieces_no_cmd config site srcPath dstPath Hcmd
              (Regexp.matches re tpl) "" w) as [w' [Hp Hfs]]; [|exact Hhit|].
  - intros m Hm. apply pieces_hits in Hm as [ws [body [Hm [Hws [Hend Hcl]]]]].
    exists body. subst m. now apply find_submatch_block.
  - rewrite Hp. eauto.
Qed.

End MoreReplace.

Lemma empty_run_command_panics_witness :
  exists w',
    Swb.buildPage Scenario.Environ0 Scenario.show_argv More.config_no_cmd Scenario.site0
      "src/a.md" "dst/a.html" Scenario.new_page = Panicked SliceBounds w'
    /\ fs w' = fs Scenario.new_page.
Proof.
  apply (empty_run_command_panics Scenario.Environ0 Scenario.show_argv
           More.config_no_cmd Scenario.site0 "src/a.md" "dst/a.html"
           Scenario.template0 Scenario.new_page eq_refl eq_refl).
  exists Scenario.block0. vm_compute. do 5 right. left. reflexivity.
Defined.

(* ================================================================== *)
(** ** Further properties: the walks and the run *)
(* ================================================================== *)

Section MoreRun.
Import FS Os Swb Paths Page Template Scenario More.

Variable Environ : list string.
Variable Run : FS.filesys -> list string -> list string -> Exec.finished.
Variable depth : nat.

(** The sites are built one after the other; nothing is built after a
    site whose build returned an error. *)
Lemma main_loop_app (config : Config) (sites1 sites2 : list Site) :
  forall w : world,
    main_loop Environ Run depth config (sites1 ++ sites2) w =
    match main_loop Environ Run depth config sites1 w with
    | Done None w1 => main_loop Environ Run depth config sites2 w1
    | o => o
    end.
Proof.
  induction sites1 as [|site sites1 IH]; intros w; [reflexivity|].
  cbn [app main_loop]. unfold bind.
  destruct (build Environ Run depth config site w) as [[e|] w1|p w1|w1]; auto.
Qed.

(** X7.  [main] builds the sites in the order of the configuration and
    stops at the first site whose build returns an error: the run ends
    there with that site and that error, and the sites after it are not
    touched. *)
Theorem main_stops_at_first_failure
        (config : Config) (before after : list Site) (site : Site)
        (e : error) (w w1 w2 : world) :
  Sites config = before ++ site :: after ->
  main_loop Environ Run depth config before w = Done None w1 ->
  build Environ Run depth config site w1 = Done (Some e) w2 ->
  main Environ Run depth config w = Done (Some (site, e)) w2.
Proof.
  intros Hs Hb He. unfold main. rewrite Hs, main_loop_app, Hb.
  cbn [main_loop]. unfold bind. now rewrite He.
Qed.

(** X8.  The walk of [clean] on a destination root that cannot be
    examined returns the error of [lstat] and changes nothing; on a root
    that is a regular file, or an empty directory, it returns nil and
    changes nothing. *)
Theorem clean_at_the_root (config : Config) (site : Site) (w : world) :
  (forall e, stat (fs w) (DstRoot site) = inl e ->
             clean depth config site w =
             Done (Some (PathError "lstat" (DstRoot site) e)) w)
  /\ (forall info, stat (fs w) (DstRoot site) = inr info -> IsDir info = false ->
                   clean (S depth) config site w = Done None w)
  /\ (forall info, stat (fs w) (DstRoot site) = inr info -> IsDir info = true ->
                   readdir (fs w) (DstRoot site) = inr [] ->
                   clean (S depth) config site w = Done None w).
Proof.
  assert (Hroot : forall d err w0,
             clean_fn config site (DstRoot site) (Some d) err w0 =
             Done err w0).
  { intros d err w0. unfold clean_fn. destruct err; [reflexivity|].
    cbn [is_nil negb]. now rewrite String.eqb_refl. }
  unfold clean, WalkDir. split; [|split].
  - intros e H. cbv beta iota delta [bind Lstat]. rewrite H. reflexivity.
  - intros info H Hf. cbv beta iota delta [bind Lstat]. rewrite H.
    cbn [lift_err walkDir]. cbv beta iota delta [bind]. rewrite Hroot.
    cbn [is_nil negb de_isdir orb]. rewrite Hf. reflexivity.
  - intros info H Hd Hr. cbv beta iota delta [bind Lstat]. rewrite H.
    cbn [lift_err walkDir]. cbv beta iota delta [bind]. rewrite Hroot.
    cbn [is_nil negb de_isdir orb]. rewrite Hd.
    cbv beta iota delta [ReadDir negb]. rewrite Hr. reflexivity.
Qed.

(** X9.  A source root that cannot be examined makes [build] return the
    error of [lstat], after [clean] has run, and [main] end the run with
    it: nothing is created in the destination tree. *)
Theorem build_without_source_root
        (config : Config) (site : Site) (w w1 : world) (err : option error) (e : errno) :
  clean depth config site w = Done err w1 ->
  stat (fs w1) (SrcRoot site) = inl e ->
  build Environ Run depth config site w =
  Done (Some (PathError "lstat" (SrcRoot site) e)) w1.
Proof.
  intros Hc Hs. unfold build, bind at 1. rewrite Hc.
  unfold WalkDir. unfold bind at 1. unfold Lstat. rewrite Hs. reflexivity.
Qed.

End MoreRun.

Lemma main_stops_at_first_failure_witness :
  Swb.main Scenario.Environ0 Scenario.show_argv 5
    (Swb.MkConfig [More.site_a; Scenario.site0] (Swb.MkBuilder ".md" "pandoc")
       ["bash"; "-c"])
    More.no_src_root
  = Done (Some (More.site_a, PathError "lstat" "src" FS.ENOENT)) More.no_src_root.
Proof.
  apply (main_stops_at_first_failure Scenario.Environ0 Scenario.show_argv 5
           (Swb.MkConfig [More.site_a; Scenario.site0] (Swb.MkBuilder ".md" "pandoc")
              ["bash"; "-c"])
           [] [Scenario.site0] More.site_a (PathError "lstat" "src" FS.ENOENT)
           More.no_src_root More.no_src_root More.no_src_root);
    reflexivity.
Defined.

Lemma build_without_source_root_witness :
  Swb.build Scenario.Environ0 Scenario.show_argv 5 Scenario.config0 More.site_a
    More.no_src_root
  = Done (Some (PathError "lstat" "src" FS.ENOENT)) More.no_src_root.
Proof.
  apply (build_without_source_root Scenario.Environ0 Scenario.show_argv 5
           Scenario.config0 More.site_a More.no_src_root More.no_src_root None
           FS.ENOENT); reflexivity.
Defined.

Lemma clean_at_the_root_witness :
  Swb.clean 5 Scenario.config0 Scenario.site0 Scenario.no_dst_root
  = Done (Some (PathError "lstat" "dst" FS.ENOENT)) Scenario.no_dst_root.
Proof.
  apply (proj1 (clean_at_the_root 5 Scenario.config0 Scenario.site0
                  Scenario.no_dst_root) FS.ENOENT).
  reflexivity.
Defined.
